(** * Book-note scripts: bibliographic resolution, ranking and backfill

  A shallow embedding of the resolution logic of [create-book-notes.py]
  and [clean-book-notes.py]: candidate dictionaries, the deduplication and
  ranking passes of [search_books_by_title_author], the ISBN extraction of
  the catalogue adapters, the update preparation of [BookNotesCleaner.run]
  and [BookNote.update_and_save].

  Python values are restricted to None, str, int and lists of these; a str
  is a sequence of ASCII code points.
  Python exceptions are threaded through a small error monad. *)

From Stdlib Require Import ZArith Ascii String DecimalString.
From stdpp Require Import base option list sorting strings gmap.

Set Warnings "-register-all".
Local Open Scope Z_scope.

(** * Python values and exceptions *)

Inductive pyval :=
| PNone
| PStr (s : string)
| PInt (n : Z)
| PList (l : list pyval).

Inductive exn :=
| AttributeError | IndexError | TypeError | KeyError | ValueError
| YAMLError | OSError.

Inductive res (A : Type) :=
| Ok (a : A)
| Raise (e : exn).
Arguments Ok {A} a.
Arguments Raise {A} e.

Definition bind {A B} (m : res A) (k : A → res B) : res B :=
  match m with
  | Ok a => k a
  | Raise e => Raise e
  end.

Definition is_Ok {A} (m : res A) : Prop := ∃ a, m = Ok a.

(** [try: body except Exception: handler] *)
Definition try_except {A} (body : res A) (handler : A) : A :=
  match body with
  | Ok a => a
  | Raise _ => handler
  end.

Fixpoint mapM {A B} (f : A → res B) (l : list A) : res (list B) :=
  match l with
  | [] => Ok []
  | x :: l' =>
      bind (f x) (λ y, bind (mapM f l') (λ ys, Ok (y :: ys)))
  end.

(** Truth value of an object: [if v:] *)
Definition truthy (v : pyval) : bool :=
  match v with
  | PNone => false
  | PStr s => negb (String.eqb s "")
  | PInt n => negb (n =? 0)
  | PList l => negb (Nat.eqb (length l) 0)
  end.

(** Receiver of a str method ([.lower()], [.replace()], ...): any other
    object has no such attribute. *)
Definition str_method (v : pyval) : res string :=
  match v with
  | PStr s => Ok s
  | _ => Raise AttributeError
  end.

(** [v[0]] *)
Definition getitem0 (v : pyval) : res pyval :=
  match v with
  | PList [] => Raise IndexError
  | PList (x :: _) => Ok x
  | PStr EmptyString => Raise IndexError
  | PStr (String c _) => Ok (PStr (String c EmptyString))
  | PNone | PInt _ => Raise TypeError
  end.

(** [for x in v]: a list yields its items, a str its characters. *)
Fixpoint chars (s : string) : list string :=
  match s with
  | EmptyString => []
  | String c s' => String c EmptyString :: chars s'
  end.

Definition iter (v : pyval) : res (list pyval) :=
  match v with
  | PList l => Ok l
  | PStr s => Ok (PStr <$> chars s)
  | PNone | PInt _ => Raise TypeError
  end.

(** [str(n)] for an int *)
Definition str_of_int (n : Z) : string :=
  NilZero.string_of_int (Z.to_int n).

(** * str methods, on ASCII text *)

Module Str.

Definition code (c : ascii) : nat := nat_of_ascii c.

Definition between (lo hi : nat) (c : ascii) : bool :=
  (Nat.leb lo (code c)) && (Nat.leb (code c) hi).

Definition isupper (c : ascii) : bool := between 65 90 c.
Definition isdigit (c : ascii) : bool := between 48 57 c.
Definition isalpha (c : ascii) : bool := between 65 90 c || between 97 122 c.
(** [str.isspace]: TAB..CR, FS..US and SPACE *)
Definition isspace (c : ascii) : bool := between 9 13 c || between 28 32 c.
(** [\w] and [\s] of the [re] module *)
Definition re_word (c : ascii) : bool :=
  isalpha c || isdigit c || Nat.eqb (code c) 95.
Definition re_space (c : ascii) : bool := isspace c.

Definition lower_char (c : ascii) : ascii :=
  if isupper c then ascii_of_nat (code c + 32) else c.
Definition upper_char (c : ascii) : ascii :=
  if between 97 122 c then ascii_of_nat (code c - 32) else c.

Fixpoint map_chars (f : ascii → ascii) (s : string) : string :=
  match s with
  | EmptyString => EmptyString
  | String c s' => String (f c) (map_chars f s')
  end.

Fixpoint filter_chars (f : ascii → bool) (s : string) : string :=
  match s with
  | EmptyString => EmptyString
  | String c s' =>
      if f c then String c (filter_chars f s') else filter_chars f s'
  end.

Definition lower : string → string := map_chars lower_char.
Definition upper : string → string := map_chars upper_char.

Definition nonempty (s : string) : bool := negb (String.eqb s "").

Fixpoint lstrip_by (f : ascii → bool) (s : string) : string :=
  match s with
  | EmptyString => EmptyString
  | String c s' => if f c then lstrip_by f s' else s
  end.

Fixpoint rstrip_by (f : ascii → bool) (s : string) : string :=
  match s with
  | EmptyString => EmptyString
  | String c s' =>
      let r := rstrip_by f s' in
      if f c && negb (nonempty r) then EmptyString else String c r
  end.

Definition strip_by (f : ascii → bool) (s : string) : string :=
  rstrip_by f (lstrip_by f s).

(** [s.strip()] *)
Definition strip : string → string := strip_by isspace.
(** [s.strip(c)] for a one-character argument *)
Definition strip_char (c : ascii) : string → string :=
  strip_by (Ascii.eqb c).

(** [s[:n]] *)
Fixpoint slice_to (n : nat) (s : string) : string :=
  match n, s with
  | S n', String c s' => String c (slice_to n' s')
  | _, _ => EmptyString
  end.

(** [s[n:]] *)
Fixpoint slice_from (n : nat) (s : string) : string :=
  match n, s with
  | S n', String _ s' => slice_from n' s'
  | _, _ => s
  end.

(** [s.startswith(p)] *)
Definition startswith (p s : string) : bool := String.prefix p s.

(** [sub in s] *)
Fixpoint contains (sub s : string) : bool :=
  String.prefix sub s ||
  match s with
  | EmptyString => false
  | String _ s' => contains sub s'
  end.

(** [s.find(sub)]: offset of the leftmost occurrence *)
Fixpoint find (sub s : string) : option nat :=
  if String.prefix sub s then Some O
  else match s with
       | EmptyString => None
       | String _ s' => S <$> find sub s'
       end.

(** [s.index(sub, start)] *)
Definition index_from (sub : string) (start : nat) (s : string) : res nat :=
  match find sub (slice_from start s) with
  | Some i => Ok (start + i)%nat
  | None => Raise ValueError
  end.

(** [s.replace(old, new)] for a non-empty [old]: leftmost occurrences,
    not overlapping. [skip] counts the characters of a matched
    occurrence still to be passed over. *)
Fixpoint replace_from (skip : nat) (old new s : string) : string :=
  match s with
  | EmptyString => EmptyString
  | String c s' =>
      match skip with
      | S k => replace_from k old new s'
      | O =>
          if String.prefix old s
          then new +:+ replace_from (String.length old - 1) old new s'
          else String c (replace_from O old new s')
      end
  end.

Definition replace (old new s : string) : string := replace_from O old new s.

(** [re.findall(r'\d{4}', s)[0]]: the leftmost run of four digits;
    [IndexError] when the list of matches is empty. *)
Definition digits4 (s : string) : bool :=
  match s with
  | String a (String b (String c (String d _))) =>
      isdigit a && isdigit b && isdigit c && isdigit d
  | _ => false
  end.

Fixpoint first_d4 (s : string) : option string :=
  match s with
  | EmptyString => None
  | String _ s' => if digits4 s then Some (slice_to 4 s) else first_d4 s'
  end.

(** [int(s)] for a string of ASCII digits *)
Fixpoint int_digits (acc : Z) (s : string) : Z :=
  match s with
  | EmptyString => acc
  | String c s' => int_digits (10 * acc + Z.of_nat (code c - 48)) s'
  end.

Definition int_of (s : string) : Z := int_digits 0 s.

(** [re.sub(r'[^\w\s-]', '', s)] *)
Definition clean_name (s : string) : string :=
  filter_chars (λ c, re_word c || re_space c || Nat.eqb (code c) 45) s.

(** [s.split(c)] for a one-character separator: the pieces between the
    occurrences of [c], at least one piece. *)
Fixpoint split_on (c : ascii) (s : string) : list string :=
  match s with
  | EmptyString => [EmptyString]
  | String x s' =>
      if Ascii.eqb x c then EmptyString :: split_on c s'
      else match split_on c s' with
           | piece :: pieces => String x piece :: pieces
           | [] => [String x EmptyString]
           end
  end.

(** Every character of [s] satisfies [f]. *)
Fixpoint all_chars (f : ascii → bool) (s : string) : bool :=
  match s with
  | EmptyString => true
  | String c s' => f c && all_chars f s'
  end.

End Str.

(** * [str()] and [repr()]

    [repr] of a str (quoting and escapes) is left to the interpreter. *)

Definition join (sep : string) (l : list string) : string :=
  match l with
  | [] => ""
  | x :: l' => foldl (λ acc y, acc +:+ sep +:+ y) x l'
  end.

Fixpoint py_repr (repr_str : string → string) (v : pyval) : string :=
  match v with
  | PNone => "None"
  | PStr s => repr_str s
  | PInt n => str_of_int n
  | PList l => "[" +:+ join ", " (map (py_repr repr_str) l) +:+ "]"
  end.

(** [str(v)], also the text of [v] in an f-string. *)
Definition py_str (repr_str : string → string) (v : pyval) : string :=
  match v with
  | PStr s => s
  | _ => py_repr repr_str v
  end.

(** Subject of [re.sub] or [re.search]: anything but a str is a
    [TypeError]. *)
Definition re_subject (v : pyval) : res string :=
  match v with
  | PStr s => Ok s
  | _ => Raise TypeError
  end.

(** * dict methods *)

(** A dict with str keys. *)
Abbreviation dict := (gmap string pyval).

(** [d.get(k, default)] *)
Definition get (d : dict) (k : string) (dflt : pyval) : pyval :=
  default dflt (d !! k).

(** [d.get(k)] *)
Definition get_none (d : dict) (k : string) : pyval := get d k PNone.

(** [d[k]] *)
Definition getitem (d : dict) (k : string) : res pyval :=
  match d !! k with
  | Some v => Ok v
  | None => Raise KeyError
  end.

(** Truth value of a dict or of an optional dict. *)
Definition dict_truthy (d : dict) : bool := negb (Nat.eqb (size d) 0).

(** Sequencing of statements that may raise. *)
Notation "x <- m ;; k" := (bind m (λ x, k))
  (at level 100, m at next level, right associativity).

(** The double-quote character *)
Definition dq : string := String (ascii_of_nat 34) EmptyString.

(** An optional str field of a JSON payload: [None] when the key is absent
    or null. *)
Definition opt_str (o : option string) : pyval :=
  match o with
  | Some s => PStr s
  | None => PNone
  end.

(** An optional list of str, with the default of [.get(key, [])]. *)
Definition str_list (l : list string) : pyval := PList (PStr <$> l).

Definition opt_list (o : option (list string)) : pyval :=
  str_list (default [] o).

Definition opt_int (o : option Z) : pyval :=
  match o with
  | Some n => PInt n
  | None => PNone
  end.

(** * Catalogue payloads

    The JSON objects the two catalogues answer with, typed by the fields
    the adapters read. A field is [None] when its key is absent. *)

(** An entry of [industryIdentifiers]. *)
Record identifier := {
  id_type : string;
  id_identifier : string
}.

(** A Google Books [volumeInfo]. *)
Record volume_info := {
  v_title : option string;
  v_subtitle : option string;
  v_authors : option (list string);
  v_publisher : option string;
  v_publishedDate : option string;
  v_pageCount : option Z;
  v_categories : option (list string);
  v_description : option string;
  v_industryIdentifiers : option (list identifier);
  v_imageLinks : option (gmap string string)
}.

(** An Open Library search document. *)
Record ol_doc := {
  d_title : option string;
  d_subtitle : option string;
  d_author_name : option (list string);
  d_publisher : option (list string);
  d_first_publish_year : option Z;
  d_number_of_pages_median : option Z;
  d_subject : option (list string);
  d_isbn : option (list string);
  d_cover_i : option Z
}.

(** * ISBN extraction, shared text of both scripts *)

(** The loop over [industryIdentifiers] of [_format_google_result]
    (create-book-notes.py) and [_search_google_books] (clean-book-notes.py):
    [(isbn_10, isbn_13)] after the loop. *)
Definition scan_identifier (acc : option string * option string)
  (i : identifier) : option string * option string :=
  if String.eqb (id_type i) "ISBN_10" then (Some (id_identifier i), acc.2)
  else if String.eqb (id_type i) "ISBN_13" then (acc.1, Some (id_identifier i))
  else acc.

Definition scan_identifiers (identifiers : list identifier)
  : option string * option string :=
  foldl scan_identifier (None, None) identifiers.

(** The value of [result['isbn']] after the [if isbn_10 and isbn_13: ...
    elif isbn_13: ... elif isbn_10: ...] chain; the entry starts as None. *)
Definition google_isbn (isbn_10 isbn_13 : option string) : pyval :=
  match isbn_10, isbn_13 with
  | Some i10, Some i13 =>
      if Str.nonempty i10 && Str.nonempty i13
      then PStr (i10 +:+ ", " +:+ i13)
      else if Str.nonempty i13 then PStr i13
      else if Str.nonempty i10 then PStr i10
      else PNone
  | None, Some i13 => if Str.nonempty i13 then PStr i13 else PNone
  | Some i10, None => if Str.nonempty i10 then PStr i10 else PNone
  | None, None => PNone
  end.

(** [len(i.replace('-', '')) == n] *)
Definition isbn_len (n : nat) (i : string) : bool :=
  Nat.eqb (String.length (Str.replace "-" "" i)) n.

(** The ISBN block of [_search_open_library]. *)
Definition open_library_isbn (isbns : list string) : pyval :=
  if Nat.eqb (length isbns) 0 then PNone else
  let isbn_10 := filter (λ i, isbn_len 10 i = true) isbns in
  let isbn_13 := filter (λ i, isbn_len 13 i = true) isbns in
  match isbn_10, isbn_13 with
  | i10 :: _, i13 :: _ => PStr (i10 +:+ ", " +:+ i13)
  | _, i13 :: _ => PStr i13
  | i10 :: _, [] => PStr i10
  | [], [] => PNone
  end.

(** The cover block on [imageLinks]. *)
Definition google_cover (links : option (gmap string string)) : pyval :=
  match links with
  | None => PNone
  | Some l =>
      match l !! "large", l !! "medium", l !! "thumbnail" with
      | Some u, _, _ => PStr u
      | None, Some u, _ => PStr u
      | None, None, Some u => PStr (Str.replace "&edge=curl" "" u)
      | None, None, None => PNone
      end
  end.

Definition open_library_cover (cover_i : option Z) : pyval :=
  match cover_i with
  | Some n =>
      if truthy (PInt n)
      then PStr ("https://covers.openlibrary.org/b/id/"
                 +:+ str_of_int n +:+ "-L.jpg")
      else PNone
  | None => PNone
  end.

(** * The outside world

    The files on disk (path to content), the log of cover URLs requested
    from the network, and what the disk does to the next write of a path. *)

Inductive write_fault := NoFault | OpenFails | WriteFails.

Record world := {
  files : gmap string string;
  fetched : list string;
  fault : string → write_fault
}.

Definition set_files (f : gmap string string) (w : world) : world :=
  {| files := f; fetched := fetched w; fault := fault w |}.

Definition log_fetch (url : string) (w : world) : world :=
  {| files := files w; fetched := fetched w ++ [url]; fault := fault w |}.

(** [path.exists()] *)
Definition exists_file (path : string) (w : world) : bool :=
  bool_decide (is_Some (files w !! path)).

(** [open(path, 'r').read()] *)
Definition read_file (path : string) (w : world) : res string :=
  match files w !! path with
  | Some content => Ok content
  | None => Raise OSError
  end.

(** [with open(path, 'w') as f: f.write(content)]: opening truncates the
    file, so a failing [write] leaves it empty. *)
Definition write_file (path content : string) (w : world) : res unit * world :=
  match fault w path with
  | NoFault => (Ok tt, set_files (<[path := content]> (files w)) w)
  | OpenFails => (Raise OSError, w)
  | WriteFails => (Raise OSError, set_files (<[path := ""]> (files w)) w)
  end.

(** [directory / name] of pathlib: an absolute [name] replaces the left
    operand. *)
Definition path_join (directory name : string) : string :=
  if Str.startswith "/" name then name else directory +:+ "/" +:+ name.

(** [download_cover(url, save_path)], the same text in both scripts. The
    server answers a URL with the image bytes, or the request raises; a
    [url] that is not a str is refused by [session.get] before any request
    is sent. *)
Definition download_cover (cover_server : string → res string)
  (url : pyval) (save_path : string) (w : world) : bool * world :=
  match url with
  | PStr url =>
      let w := log_fetch url w in
      match cover_server url with
      | Raise _ => (false, w)
      | Ok content =>
          match write_file save_path content w with
          | (Ok _, w') => (true, w')
          | (Raise _, w') => (false, w')
          end
      end
  | _ => (false, w)
  end.

(** * create-book-notes.py *)

Module Create.

Section BookAPIClient.

(** The two catalogues, as seen through [self.session.get(...)] followed by
    [raise_for_status()] and [.json()]: the [items] of a Google Books answer
    for a query (with the [maxResults] parameter when one is sent) and the
    [docs] of an Open Library answer for [title] and [author] (the empty
    string when the parameter is left out). A transport failure, an error
    status or an unreadable payload raises. *)
Variable google_books_api : string → option Z → res (list volume_info).
Variable open_library_api : string → string → res (list ol_doc).

Definition _format_google_result (volume : volume_info) : option dict :=
  if negb (truthy (opt_str (v_title volume))) then None else
  let result : dict :=
    {[ "title" := opt_str (v_title volume);
       "subtitle" := opt_str (v_subtitle volume);
       "authors" := opt_list (v_authors volume);
       "publisher" := opt_str (v_publisher volume);
       "publishedDate" := opt_str (v_publishedDate volume);
       "pageCount" := opt_int (v_pageCount volume);
       "categories" := opt_list (v_categories volume);
       "description" :=
         match v_description volume with
         | Some d =>
             if Str.nonempty d then PStr (Str.slice_to 200 d +:+ "...")
             else PStr ""
         | None => PStr ""
         end;
       "isbn" := PNone;
       "coverUrl" := PNone ]} in
  let identifiers := default [] (v_industryIdentifiers volume) in
  let '(isbn_10, isbn_13) := scan_identifiers identifiers in
  let result :=
    match google_isbn isbn_10 isbn_13 with
    | PNone => result
    | isbn => <["isbn" := isbn]> result
    end in
  let result :=
    match google_cover (v_imageLinks volume) with
    | PNone => result
    | url => <["coverUrl" := url]> result
    end in
  Some result.

Definition tag_source (source : string) (result : dict) : dict :=
  <["source" := PStr source]> result.

Definition _search_google_books_multiple (query : string) : list dict :=
  try_except
    (items <- google_books_api query (Some 20);;
     Ok (omap (λ volume, tag_source "google" <$>
                             _format_google_result volume) items))
    [].

Definition _search_google_books (query : string) : option dict :=
  try_except
    (items <- google_books_api query None;;
     Ok (match items with
           | volume :: _ => _format_google_result volume
           | [] => None
           end))
    None.

Definition format_open_library (book : ol_doc) : dict :=
  let result : dict :=
    {[ "title" := opt_str (d_title book);
       "subtitle" := opt_str (d_subtitle book);
       "authors" := opt_list (d_author_name book);
       "publisher" :=
         match d_publisher book with
         | Some (p :: _) => PStr p
         | _ => PNone
         end;
       "publishedDate" :=
         match d_first_publish_year book with
         | Some y => PStr (str_of_int y)
         | None => PStr ""
         end;
       "pageCount" := opt_int (d_number_of_pages_median book);
       "categories" := str_list (take 3 (default [] (d_subject book)));
       "description" := PStr "";
       "isbn" := PNone;
       "coverUrl" := PNone ]} in
  let result :=
    match open_library_isbn (default [] (d_isbn book)) with
    | PNone => result
    | isbn => <["isbn" := isbn]> result
    end in
  match open_library_cover (d_cover_i book) with
  | PNone => result
  | url => <["coverUrl" := url]> result
  end.

Definition _search_open_library (title author : string) : option dict :=
  try_except
    (docs <- open_library_api title author;;
     Ok (match docs with
           | book :: _ => Some (format_open_library book)
           | [] => None
           end))
    None.

(** The two futures of [search_multiple_sources]. *)
Inductive source := Google | OpenLibrary.

Definition source_name (s : source) : string :=
  match s with
  | Google => "google"
  | OpenLibrary => "openlibrary"
  end.

(** [search_multiple_sources]: both searches are submitted to the pool and
    their results are appended in the order [as_completed] yields the
    futures, which is the order [completed] in which they finish. *)
Definition search_multiple_sources (completed : list source)
  (title author : string) : list dict :=
  let query := Str.strip (title +:+ " " +:+ author) in
  let future (s : source) : option dict :=
    match s with
    | Google => _search_google_books query
    | OpenLibrary => _search_open_library title author
    end in
  foldl
    (λ results s,
       match future s with
       | Some result =>
           if dict_truthy result
           then results ++ [tag_source (source_name s) result]
           else results
       | None => results
       end)
    [] completed.

Definition search_terms (title author : string) : list string :=
  [ Str.strip (title +:+ " " +:+ author);
    if Str.nonempty author
    then "intitle:" +:+ dq +:+ title +:+ dq
         +:+ " inauthor:" +:+ dq +:+ author +:+ dq
    else "intitle:" +:+ dq +:+ title +:+ dq;
    title ].

(** One turn of [for search_term in search_terms]. *)
Definition search_step (title author : string) (all_results : list dict)
  (search_term : string) : list dict :=
  let google_results := _search_google_books_multiple search_term in
  let all_results := all_results ++ google_results in
  match _search_open_library title author with
  | Some ol_result =>
      if dict_truthy ol_result
      then all_results ++ [tag_source "openlibrary" ol_result]
      else all_results
  | None => all_results
  end.

Definition collect_results (title author : string) : list dict :=
  foldl (search_step title author) [] (search_terms title author).

End BookAPIClient.

(** ** Deduplication *)

(** [isbn_key], [title_key] and [key] of one turn of the loop. *)
Definition dedup_key (result : dict) : res string :=
  isbn <- str_method (get result "isbn" (PStr ""));;
  let isbn_key := Str.replace " " "" (Str.replace "," "" isbn) in
  title <- str_method (get result "title" (PStr ""));;
  first_author <- getitem0 (get result "authors" (PList [PStr ""]));;
  author <- str_method first_author;;
  let title_key :=
    Str.strip (Str.lower title) +:+ "_" +:+ Str.strip (Str.lower author) in
  Ok (if Str.nonempty isbn_key then isbn_key else title_key).

Fixpoint dedup_loop (all_results : list dict) (seen : gset string)
  (unique_results : list dict) : res (list dict) :=
  match all_results with
  | [] => Ok unique_results
  | result :: rest =>
      key <- dedup_key result;;
      if Str.nonempty key && bool_decide (key ∉ seen)
      then dedup_loop rest ({[key]} ∪ seen) (unique_results ++ [result])
      else dedup_loop rest seen unique_results
  end.

Definition deduplicate (all_results : list dict) : res (list dict) :=
  dedup_loop all_results ∅ [].

(** ** Ranking *)

Definition relevance_score (title author : string) (book : dict) : res Z :=
  let score := 0 in
  book_title <- str_method (get book "title" (PStr ""));;
  let book_title := Str.lower book_title in
  let search_title := Str.lower title in
  let score :=
    if String.eqb book_title search_title then score + 100
    else if Str.contains search_title book_title
            || Str.contains book_title search_title
         then score + 50
         else score in
  score <-
    (if Str.nonempty author then
       authors <- iter (get book "authors" (PList []));;
       book_authors <-
         mapM (λ a, a <- str_method a;; Ok (Str.lower a)) authors;;
       Ok (if existsb
                (λ ba, Str.contains (Str.lower author) ba
                       || Str.contains ba (Str.lower author))
                book_authors
           then score + 30
           else score)
     else Ok score);;
  let pub_date := get book "publishedDate" (PStr "") in
  Ok (if truthy pub_date then
        try_except
          (date <- match pub_date with
                   | PStr s => Ok s
                   | _ => Raise TypeError
                   end;;
           year <- match Str.first_d4 date with
                   | Some m => Ok (Str.int_of m)
                   | None => Raise IndexError
                   end;;
           Ok (score + Z.min (year - 1900) 25))
          score
      else score).

(** [list.sort(key=..., reverse=True)]: the keys are computed once, the
    items are put in descending key order, and items with equal keys keep
    their order. [insert_desc] places an item in front of the first item
    whose key is not larger. *)
Fixpoint insert_desc {A} (x : Z * A) (l : list (Z * A)) : list (Z * A) :=
  match l with
  | [] => [x]
  | y :: l' => if y.1 <=? x.1 then x :: l else y :: insert_desc x l'
  end.

Definition sort_desc {A} (l : list (Z * A)) : list (Z * A) :=
  foldr insert_desc [] l.

Definition sort_by_key_reverse {A} (key : A → res Z) (l : list A)
  : res (list A) :=
  keys <- mapM key l;;
  Ok ((sort_desc (zip keys l)).*2).

(** [unique_results.sort(key=relevance_score, reverse=True)] followed by
    [return unique_results[:5]]. *)
Definition rank (title author : string) (unique_results : list dict)
  : res (list dict) :=
  sorted <- sort_by_key_reverse (relevance_score title author) unique_results;;
  Ok (take 5 sorted).

(** Deduplication, ranking and truncation of the collected results. *)
Definition rank_results (title author : string) (all_results : list dict)
  : res (list dict) :=
  unique_results <- deduplicate all_results;;
  rank title author unique_results.

Definition search_books_by_title_author
  (google_books_api : string → option Z → res (list volume_info))
  (open_library_api : string → string → res (list ol_doc))
  (title author : string) : res (list dict) :=
  rank_results title author
    (collect_results google_books_api open_library_api title author).

(** ** Cover acquisition of [create_book_note]

    The statements of [create_book_note] up to and including the cover
    block: the template is read, the file names are derived and the cover
    is downloaded. The value is [local_cover_filename]; an exception is
    the one the enclosing [try] turns into [False]. *)

Section BookNoteCreator.

Variable template_path covers_dir : string.
Variable cover_server : string → res string.

Definition cover_names (book : dict) : res (string * string * string) :=
  title <- getitem book "title";;
  title <- re_subject title;;
  let title_clean := Str.clean_name title in
  let authors := get book "authors" (PList [PStr "Unknown"]) in
  first_author <- getitem0 authors;;
  first_author <- re_subject first_author;;
  let author_clean := Str.clean_name first_author in
  let pub_date := get book "publishedDate" (PStr "") in
  year <-
    (if truthy pub_date then
       date <- re_subject pub_date;;
       Ok (match Str.first_d4 date with
           | Some y => " - " +:+ y
           | None => ""
           end)
     else Ok "");;
  Ok (author_clean, title_clean, year).

Definition create_book_note_cover (book : dict) (w : world)
  : res string * world :=
  match (_ <- read_file template_path w;; cover_names book) with
  | Raise e => (Raise e, w)
  | Ok (author_clean, title_clean, year) =>
      if truthy (get_none book "coverUrl") then
        let cover_filename :=
          author_clean +:+ " - " +:+ title_clean +:+ year +:+ ".jpg" in
        let local_cover_path := path_join covers_dir cover_filename in
        let local_cover_filename :=
          "References/Attachments/Book Search Covers/" +:+ cover_filename in
        match download_cover cover_server (get_none book "coverUrl")
                local_cover_path w with
        | (true, w') => (Ok local_cover_filename, w')
        | (false, w') => (Ok "", w')
        end
      else (Ok "", w)
  end.

End BookNoteCreator.

(** ** [_process_template] and [create_book_note] *)

(** [isbn10, isbn13] of [_process_template]. *)
Definition by_length (isbn : string) : string * string :=
  let isbn_clean := Str.replace "-" "" isbn in
  if Nat.eqb (String.length isbn_clean) 10 then (isbn, "")
  else if Nat.eqb (String.length isbn_clean) 13 then ("", isbn)
  else ("", "").

Definition split_isbn (isbn_data : pyval) : res (string * string) :=
  if truthy isbn_data then
    match isbn_data with
    | PStr s =>
        if Str.contains "," s then
          match Str.strip <$> Str.split_on ","%char s with
          | p0 :: p1 :: _ => Ok (p0, p1)
          | [p0] => Ok (by_length p0)
          | [] => Ok ("", "")
          end
        else Ok (by_length s)
    | PInt _ => Raise TypeError
    | _ => Raise AttributeError
    end
  else Ok ("", "").

(** [v[0] if v else dflt] *)
Definition first_or (v : pyval) (dflt : string) : res pyval :=
  if truthy v then getitem0 v else Ok (PStr dflt).

(** [publish_date] after the "Just year" test. *)
Definition format_publish_date (repr_str : string → string)
  (publish_date : pyval) : res pyval :=
  if truthy publish_date then
    match publish_date with
    | PStr s =>
        Ok (if Nat.eqb (String.length s) 4 then PStr (s +:+ "-01-01")
            else publish_date)
    | PList l =>
        Ok (if Nat.eqb (length l) 4
            then PStr (py_str repr_str publish_date +:+ "-01-01")
            else publish_date)
    | _ => Raise TypeError
    end
  else Ok publish_date.

(** One turn of [for placeholder, value in replacements.items()]:
    [str.replace] wants a str as its second argument. *)
Definition replace_placeholder (content : res string)
  (item : string * pyval) : res string :=
  content <- content;;
  match item.2 with
  | PStr value => Ok (Str.replace item.1 value content)
  | _ => Raise TypeError
  end.

Definition _process_template (repr_str : string → string) (now : string)
  (template : string) (book : dict) (local_cover_filename : string)
  : res string :=
  isbns <- split_isbn (get book "isbn" (PStr ""));;
  primary_author <- first_or (get book "authors" (PList [PStr "Unknown"]))
                      "Unknown";;
  primary_category <- first_or (get book "categories" (PList [PStr "General"]))
                        "General";;
  publish_date <- format_publish_date repr_str
                    (get book "publishedDate" (PStr ""));;
  let created_timestamp := now in
  let replacements :=
    [ ("{{title}}", get book "title" (PStr ""));
      ("{{subtitle}}", get book "subtitle" (PStr ""));
      ("{{author}}", primary_author);
      ("{{category}}", primary_category);
      ("{{publisher}}", get book "publisher" (PStr ""));
      ("{{publishDate}}", publish_date);
      ("{{totalPage}}", PStr (py_str repr_str (get book "pageCount" (PStr ""))));
      ("{{isbn10}}", PStr isbns.1);
      ("{{isbn13}}", PStr isbns.2);
      ("{{coverUrl}}", get book "coverUrl" (PStr ""));
      ("{{localCoverImage}}", PStr local_cover_filename) ] in
  content <- foldl replace_placeholder (Ok template) replacements;;
  Ok (Str.replace "created: " ("created: " +:+ created_timestamp) content).

Section create_book_note.

Variable repr_str : string → string.
(** [datetime.now()] as formatted, and what the user types when asked
    whether to overwrite. *)
Variable now : string.
Variable overwrite_answer : string.
Variable template_path books_dir covers_dir : string.
Variable cover_server : string → res string.

Definition create_book_note (book : dict) (w : world) : bool * world :=
  match create_book_note_cover template_path covers_dir cover_server book w with
  | (Raise _, w') => (false, w')
  | (Ok local_cover_filename, w') =>
      match
        (template <- read_file template_path w;;
         names <- cover_names book;;
         content <- _process_template repr_str now template book
                      local_cover_filename;;
         let '(author_clean, title_clean, year) := names in
         Ok (author_clean +:+ " - " +:+ title_clean +:+ year +:+ ".md",
             content))
      with
      | Raise _ => (false, w')
      | Ok (filename, content) =>
          let filepath := path_join books_dir filename in
          if exists_file filepath w'
             && negb (String.eqb (Str.lower (Str.strip overwrite_answer)) "y")
          then (false, w')
          else
            match write_file filepath content w' with
            | (Ok _, w'') => (true, w'')
            | (Raise _, w'') => (false, w'')
            end
      end
  end.

End create_book_note.

End Create.

(** * clean-book-notes.py *)

Module Clean.

Record BookNote := {
  filepath : string;
  title : option string;
  subtitle : option string;
  author : list string;
  category : list string;
  publisher : option string;
  publish : option string;
  total : pyval;
  isbn : option string;
  cover : option string;
  localCover : option string;
  created : pyval;
  status : pyval;
  reading_list : pyval;
  content : string
}.

(** What [yaml.safe_load] makes of a frontmatter block: a mapping, or any
    other document. *)
Inductive yaml_doc :=
| YMap (m : dict)
| YValue (v : pyval).

(** Truth value of an [Optional[str]] attribute and of a list attribute. *)
Definition present (o : option string) : bool :=
  match o with
  | Some s => Str.nonempty s
  | None => false
  end.

Definition nonempty_list {A} (l : list A) : bool := negb (Nat.eqb (length l) 0).

Definition nl : string := String (ascii_of_nat 10) EmptyString.

Definition base_path : string := "/Users/armaangupta/Documents/GuppyBrain".

Section BookNote_methods.

Variable repr_str : string → string.
Variable yaml_safe_load : string → res yaml_doc.
Variable yaml_dump : yaml_doc → res string.

Definition _extract_value (value : pyval) : option string :=
  match value with
  | PNone => None
  | PList (first :: _) => Some (py_str repr_str first)
  | PStr s =>
      if Str.nonempty s && Str.nonempty (Str.strip s)
         && negb (String.eqb (Str.strip s) "''")
      then Some s
      else None
  | _ => if truthy value then Some (py_str repr_str value) else None
  end.

(** [str(v)] stripped of white space, then of double quotes, then of
    single quotes. *)
Definition unquote (s : string) : string :=
  Str.strip_char "'"%char (Str.strip_char (ascii_of_nat 34) (Str.strip s)).

Definition _extract_list (value : pyval) : list string :=
  match value with
  | PList l =>
      (λ v, unquote (py_str repr_str v)) <$> filter (λ v, truthy v = true) l
  | PStr s => if Str.nonempty s then [unquote s] else []
  | _ => []
  end.

(** [cls(filepath=filepath, content=content)] *)
Definition new_note (path text : string) : BookNote :=
  {| filepath := path; title := None; subtitle := None; author := [];
     category := []; publisher := None; publish := None; total := PNone;
     isbn := None; cover := None; localCover := None; created := PNone;
     status := PNone; reading_list := PNone; content := text |}.

(** The assignments of [from_file] under [if frontmatter:]. *)
Definition read_frontmatter (book : BookNote) (frontmatter : dict) : BookNote :=
  {| filepath := filepath book;
     title := _extract_value (get_none frontmatter "title");
     subtitle := _extract_value (get_none frontmatter "subtitle");
     author := _extract_list (get frontmatter "author" (PList []));
     category := _extract_list (get frontmatter "category" (PList []));
     publisher := _extract_value (get_none frontmatter "publisher");
     publish := _extract_value (get_none frontmatter "publish");
     total := get_none frontmatter "total";
     isbn := _extract_value (get_none frontmatter "isbn");
     cover := _extract_value (get_none frontmatter "cover");
     localCover := _extract_value (get_none frontmatter "localCover");
     created := get_none frontmatter "created";
     status := get_none frontmatter "status";
     reading_list := get_none frontmatter "Reading List";
     content := content book |}.

(** [content[3:end_index]] and [content[end_index+3:]] *)
Definition frontmatter_text (text : string) (end_index : nat) : string :=
  Str.slice_to (end_index - 3) (Str.slice_from 3 text).

Definition body_text (text : string) (end_index : nat) : string :=
  Str.slice_from (end_index + 3) text.

Definition from_file (path : string) (w : world) : res BookNote :=
  text <- read_file path w;;
  let book := new_note path text in
  if Str.startswith "---" text then
    match
      (end_index <- Str.index_from "---" 3 text;;
       frontmatter <- yaml_safe_load (frontmatter_text text end_index);;
       match frontmatter with
       | YMap m => Ok (if dict_truthy m then read_frontmatter book m else book)
       | YValue v => if truthy v then Raise AttributeError else Ok book
       end)
    with
    | Raise ValueError | Raise YAMLError => Ok book
    | r => r
    end
  else Ok book.

Definition get_missing_fields (self : BookNote) (w : world) : list string :=
  (if negb (present (title self)) then ["title"] else [])
  ++ (if negb (nonempty_list (author self)) then ["author"] else [])
  ++ (if negb (present (isbn self)) then ["ISBN"] else [])
  ++ (if negb (present (publisher self)) then ["publisher"] else [])
  ++ (if negb (present (publish self)) then ["publish date"] else [])
  ++ (if negb (truthy (total self)) then ["page count"] else [])
  ++ (if negb (present (cover self)) then ["cover URL"] else [])
  ++ (if negb (present (localCover self)) then ["local cover path"]
      else
        let local_cover_path :=
          path_join base_path (default "" (localCover self)) in
        if negb (exists_file local_cover_path w)
        then ["local cover file (path exists but file missing)"]
        else []).

(** One turn of [for key, value in updates.items()] on a mapping. *)
Definition apply_update (key : string) (value : pyval) (frontmatter : dict)
  : dict :=
  match value with
  | PNone => frontmatter
  | PList _ => <[key := value]> frontmatter
  | _ =>
      if String.eqb key "author"
      then <[key := PList [PStr ("[[" +:+ py_str repr_str value +:+ "]]")]]>
             frontmatter
      else if String.eqb key "category"
      then <[key := PList [value]]> frontmatter
      else <[key := value]> frontmatter
  end.

Definition is_none (v : pyval) : bool :=
  match v with
  | PNone => true
  | _ => false
  end.

(** The whole loop; item assignment on a document that is not a mapping
    is a [TypeError]. *)
Definition apply_updates (updates : dict) (frontmatter : yaml_doc)
  : res yaml_doc :=
  match frontmatter with
  | YMap m => Ok (YMap (map_fold apply_update m updates))
  | YValue v =>
      if map_fold (λ _ value found, found || negb (is_none value)) false updates
      then Raise TypeError
      else Ok (YValue v)
  end.

(** [update_and_save] up to the final write: [None] for the early
    [return False], otherwise [new_content]. *)
Definition new_content (self : BookNote) (updates : dict) (w : world)
  : res (option string) :=
  text <- read_file (filepath self) w;;
  if negb (Str.startswith "---" text) then Ok None else
  end_index <- Str.index_from "---" 3 text;;
  let body := body_text text end_index in
  loaded <- yaml_safe_load (frontmatter_text text end_index);;
  let frontmatter :=
    match loaded with
    | YMap m => YMap m
    | YValue v => if truthy v then YValue v else YMap ∅
    end in
  frontmatter <- apply_updates updates frontmatter;;
  dumped <- yaml_dump frontmatter;;
  Ok (Some ("---" +:+ nl +:+ dumped +:+ "---" +:+ body)).

Definition update_and_save (self : BookNote) (updates : dict) (w : world)
  : bool * world :=
  match new_content self updates w with
  | Raise _ => (false, w)
  | Ok None => (false, w)
  | Ok (Some text) =>
      match write_file (filepath self) text w with
      | (Ok _, w') => (true, w')
      | (Raise _, w') => (false, w')
      end
  end.

End BookNote_methods.

(** ** [BookNotesCleaner.run], for one note *)

Section BookNotesCleaner.

Variable repr_str : string → string.
Variable covers_dir : string.
Variable cover_server : string → res string.

(** [if not <missing> and api_data.get(src): updates[dst] = api_data[src]] *)
Definition offer (missing : bool) (api_data : dict) (src dst : string)
  (updates : dict) : dict :=
  if missing && truthy (get_none api_data src)
  then <[dst := get_none api_data src]> updates
  else updates.

(** The [updates] dictionary at the comment "Handle local cover". *)
Definition field_updates (book : BookNote) (api_data : dict) : res dict :=
  let updates : dict := ∅ in
  let updates := offer (negb (present (title book))) api_data
                   "title" "title" updates in
  let updates := offer (negb (present (subtitle book))) api_data
                   "subtitle" "subtitle" updates in
  updates <-
    (if negb (nonempty_list (author book))
        && truthy (get_none api_data "authors")
     then
       authors <- iter (get_none api_data "authors");;
       Ok (<["author" :=
               PList ((λ a, PStr ("[[" +:+ py_str repr_str a +:+ "]]"))
                        <$> authors)]> updates)
     else Ok updates);;
  let updates := offer (negb (present (publisher book))) api_data
                   "publisher" "publisher" updates in
  let updates := offer (negb (present (publish book))) api_data
                   "publishedDate" "publish" updates in
  let updates := offer (negb (truthy (total book))) api_data
                   "pageCount" "total" updates in
  let updates := offer (negb (present (isbn book))) api_data
                   "isbn" "isbn" updates in
  let updates := offer (negb (present (cover book))) api_data
                   "coverUrl" "cover" updates in
  let updates := offer (negb (nonempty_list (category book))) api_data
                   "categories" "category" updates in
  Ok updates.

(** [cover_filename] *)
Definition cover_filename (book : BookNote) (api_data : dict) : res string :=
  title <- re_subject
             (if present (title book) then opt_str (title book)
              else get api_data "title" (PStr "Unknown"));;
  let title_clean := Str.clean_name title in
  author_clean <-
    (if truthy (get_none api_data "authors") then
       first_author <- getitem0 (get_none api_data "authors");;
       first_author <- re_subject first_author;;
       Ok (Str.clean_name first_author)
     else
       match author book with
       | first_author :: _ =>
           Ok (Str.clean_name
                 (Str.replace "]]" "" (Str.replace "[[" "" first_author)))
       | [] => Ok ""
       end);;
  let date_clean := get api_data "publishedDate" (PStr "") in
  Ok (if Str.nonempty author_clean && truthy date_clean
      then author_clean +:+ " - " +:+ title_clean +:+ " - "
           +:+ py_str repr_str date_clean +:+ ".jpg"
      else if Str.nonempty author_clean
      then author_clean +:+ " - " +:+ title_clean +:+ ".jpg"
      else title_clean +:+ ".jpg").

Definition local_cover_path (name : string) : string :=
  path_join covers_dir name.

Definition relative_cover_path (name : string) : string :=
  "References/Attachments/Book Search Covers/" +:+ name.

(** The statements from "Prepare updates" to "Apply updates". *)
Definition prepare_updates (book : BookNote) (api_data : dict) (w : world)
  : res dict * world :=
  match field_updates book api_data with
  | Raise e => (Raise e, w)
  | Ok updates =>
      if truthy (get_none api_data "coverUrl") then
        match cover_filename book api_data with
        | Raise e => (Raise e, w)
        | Ok name =>
            if negb (exists_file (local_cover_path name) w) then
              match download_cover cover_server (get_none api_data "coverUrl")
                      (local_cover_path name) w with
              | (true, w') =>
                  (Ok (<["localCover" := PStr (relative_cover_path name)]>
                         updates), w')
              | (false, w') => (Ok updates, w')
              end
            else
              (Ok (<["localCover" := PStr (relative_cover_path name)]>
                     updates), w)
        end
      else (Ok updates, w)
  end.

End BookNotesCleaner.

(** ** [BookAPIClient] of the cleaner *)

(** An Open Library edition, as [/isbn/<isbn>.json] answers: an author is
    a reference that may carry a [key]. *)
Record ol_edition := {
  e_title : option string;
  e_subtitle : option string;
  e_publish_date : option string;
  e_number_of_pages : option Z;
  e_subjects : option (list string);
  e_authors : option (list (option string));
  e_publishers : option (list string);
  e_covers : option (list Z)
}.

(** [re.sub(r'[^0-9X]', '', isbn.upper())] *)
Definition isbn_clean (isbn : string) : string :=
  Str.filter_chars (λ c, Str.isdigit c || Ascii.eqb c "X"%char)
    (Str.upper isbn).

Section BookAPIClient.

(** The catalogues as the cleaner's client sees them: the [items] of a
    Google Books answer, the [docs] of an Open Library search, the edition
    for an ISBN, and the [name] of an author record when it has one. *)
Variable google_books_api : string → res (list volume_info).
Variable open_library_api : string → string → res (list ol_doc).
Variable open_library_isbn_api : string → res ol_edition.
Variable open_library_author_api : string → res (option string).

Definition format_google (volume : volume_info) : dict :=
  let result : dict :=
    {[ "title" := opt_str (v_title volume);
       "subtitle" := opt_str (v_subtitle volume);
       "authors" := opt_list (v_authors volume);
       "publisher" := opt_str (v_publisher volume);
       "publishedDate" := opt_str (v_publishedDate volume);
       "pageCount" := opt_int (v_pageCount volume);
       "categories" := opt_list (v_categories volume);
       "isbn" := PNone;
       "coverUrl" := PNone ]} in
  let identifiers := default [] (v_industryIdentifiers volume) in
  let '(isbn_10, isbn_13) := scan_identifiers identifiers in
  let result :=
    match google_isbn isbn_10 isbn_13 with
    | PNone => result
    | isbn => <["isbn" := isbn]> result
    end in
  match google_cover (v_imageLinks volume) with
  | PNone => result
  | url => <["coverUrl" := url]> result
  end.

Definition _search_google_books (query : string) : option dict :=
  try_except
    (items <- google_books_api query;;
     Ok (match items with
         | volume :: _ => Some (format_google volume)
         | [] => None
         end))
    None.

Definition format_open_library (book : ol_doc) : dict :=
  let result : dict :=
    {[ "title" := opt_str (d_title book);
       "subtitle" := opt_str (d_subtitle book);
       "authors" := opt_list (d_author_name book);
       "publisher" :=
         match d_publisher book with
         | Some (p :: _) => PStr p
         | _ => PNone
         end;
       "publishedDate" :=
         match d_first_publish_year book with
         | Some y => PStr (str_of_int y)
         | None => PStr ""
         end;
       "pageCount" := opt_int (d_number_of_pages_median book);
       "categories" := str_list (take 3 (default [] (d_subject book)));
       "isbn" := PNone;
       "coverUrl" := PNone ]} in
  let result :=
    match open_library_isbn (default [] (d_isbn book)) with
    | PNone => result
    | isbn => <["isbn" := isbn]> result
    end in
  match open_library_cover (d_cover_i book) with
  | PNone => result
  | url => <["coverUrl" := url]> result
  end.

Definition _search_open_library (title author : string) : option dict :=
  try_except
    (docs <- open_library_api title author;;
     Ok (match docs with
         | book :: _ => Some (format_open_library book)
         | [] => None
         end))
    None.

(** One turn of the loop over [book['authors']]: a reference without a
    key is passed over, and so is a request that fails or an author
    record without a name. *)
Definition fetch_author (names : list string) (author_ref : option string)
  : list string :=
  match author_ref with
  | Some key =>
      try_except
        (author_data <- open_library_author_api key;;
         Ok (match author_data with
             | Some name => names ++ [name]
             | None => names
             end))
        names
  | None => names
  end.

Definition format_edition (isbn : string) (book : ol_edition) : dict :=
  let result : dict :=
    {[ "title" := opt_str (e_title book);
       "subtitle" := opt_str (e_subtitle book);
       "authors" := PList [];
       "publisher" := PNone;
       "publishedDate" := opt_str (e_publish_date book);
       "pageCount" := opt_int (e_number_of_pages book);
       "categories" := str_list (take 3 (default [] (e_subjects book)));
       "isbn" := PStr isbn;
       "coverUrl" := PNone ]} in
  let authors := foldl fetch_author [] (default [] (e_authors book)) in
  let result := <["authors" := str_list authors]> result in
  let result :=
    match e_publishers book with
    | Some (p :: _) => <["publisher" := PStr p]> result
    | _ => result
    end in
  match e_covers book with
  | Some (cover :: _) =>
      <["coverUrl" := PStr ("https://covers.openlibrary.org/b/id/"
                            +:+ str_of_int cover +:+ "-L.jpg")]> result
  | _ => result
  end.

Definition _fetch_open_library_isbn (isbn : string) : option dict :=
  try_except
    (book <- open_library_isbn_api isbn;;
     Ok (Some (format_edition isbn book)))
    None.

(** [if data:] on what an adapter returns. *)
Definition found (data : option dict) : bool :=
  match data with
  | Some d => dict_truthy d
  | None => false
  end.

Definition search_by_title_author (title author : string) : option dict :=
  let query := if Str.nonempty author then title +:+ " " +:+ author else title in
  let data := _search_google_books query in
  if found data then data else _search_open_library title author.

Definition search_by_isbn (isbn : string) : option dict :=
  let isbn_clean := isbn_clean isbn in
  let data := _search_google_books ("isbn:" +:+ isbn_clean) in
  if found data then data else _fetch_open_library_isbn isbn_clean.

(** The statements of [run] under "Try to fetch missing data". *)
Definition fetch_api_data (book : BookNote) : option dict :=
  let api_data :=
    match isbn book with
    | Some i => if Str.nonempty i then search_by_isbn i else None
    | None => None
    end in
  if negb (found api_data) && present (title book) then
    let author := match author book with
                  | first :: _ => first
                  | [] => ""
                  end in
    let author := Str.replace "]]" "" (Str.replace "[[" "" author) in
    search_by_title_author (default "" (title book)) author
  else api_data.

End BookAPIClient.

(** ** One turn of the loop of [run]

    [response] is what the user types at "Should I begin fixing this?".
    The value is what escapes the turn: nothing, or the exception that
    ends the run. *)

Section run.

Variable repr_str : string → string.
Variable yaml_safe_load : string → res yaml_doc.
Variable yaml_dump : yaml_doc → res string.
Variable covers_dir : string.
Variable cover_server : string → res string.
Variable google_books_api : string → res (list volume_info).
Variable open_library_api : string → string → res (list ol_doc).
Variable open_library_isbn_api : string → res ol_edition.
Variable open_library_author_api : string → res (option string).

Definition clean_note (response path : string) (w : world)
  : res unit * world :=
  match from_file repr_str yaml_safe_load path w with
  | Raise e => (Raise e, w)
  | Ok book =>
      let missing := get_missing_fields book w in
      if negb (nonempty_list missing) then (Ok tt, w)
      else if negb (String.eqb (Str.lower (Str.strip response)) "y")
      then (Ok tt, w)
      else
        let api_data :=
          fetch_api_data google_books_api open_library_api
            open_library_isbn_api open_library_author_api book in
        match api_data with
        | Some api_data =>
            if dict_truthy api_data then
              match prepare_updates repr_str covers_dir cover_server book
                      api_data w with
              | (Raise e, w') => (Raise e, w')
              | (Ok updates, w') =>
                  if dict_truthy updates
                  then (Ok tt,
                        (update_and_save repr_str yaml_safe_load yaml_dump
                           book updates w').2)
                  else (Ok tt, w')
              end
            else (Ok tt, w)
        | None => (Ok tt, w)
        end
  end.

End run.

End Clean.

(** * Vocabulary of the statements *)

(** The key under which the deduplication files a candidate, when its
    computation succeeds. *)
Definition has_key (k : string) (c : dict) : bool :=
  match Create.dedup_key c with
  | Ok k' => String.eqb k' k
  | Raise _ => false
  end.

(** An ISBN string with the commas and spaces removed. *)
Definition isbn_key_of (isbn : string) : string :=
  Str.replace " " "" (Str.replace "," "" isbn).

(** An ISBN string with every separator removed: what is left are the
    digits and the check character X. *)
Definition isbn_digits (isbn : string) : string :=
  Str.filter_chars (λ c, Str.isdigit c || Ascii.eqb c "X"%char)
    (Str.upper isbn).

(** The identifier a source supplies for one variant: the loop over
    [industryIdentifiers] keeps the last entry of the type. *)
Definition last_of_type (ty : string) (ids : list identifier)
  : option string :=
  last (id_identifier <$> filter (λ i, String.eqb (id_type i) ty = true) ids).

(** A variant is available when the source supplies a non-empty
    identifier for it. *)
Definition available (o : option string) (i : string) : Prop :=
  o = Some i ∧ i ≠ "".

Definition unavailable (o : option string) : Prop :=
  o = None ∨ o = Some "".

(** The first ISBN of an Open Library document with [n] characters
    besides hyphens. *)
Definition first_of_len (n : nat) (isbns : list string) : option string :=
  head (filter (λ i, isbn_len n i = true) isbns).

(** ** The reference score

    The score of the ranking stage as the specification words it, on the
    title, the authors and the publication date of a candidate. *)

Definition cand_title (c : dict) : string :=
  match c !! "title" with
  | Some (PStr s) => s
  | _ => ""
  end.

Definition cand_authors (c : dict) : list string :=
  match c !! "authors" with
  | Some (PList l) =>
      omap (λ v, match v with PStr s => Some s | _ => None end) l
  | _ => []
  end.

Definition cand_date (c : dict) : string :=
  match c !! "publishedDate" with
  | Some (PStr s) => s
  | _ => ""
  end.

(** +100 for equal titles up to case, else +50 when one contains the other *)
Definition title_points (title ctitle : string) : Z :=
  if String.eqb (Str.lower ctitle) (Str.lower title) then 100
  else if Str.contains (Str.lower title) (Str.lower ctitle)
          || Str.contains (Str.lower ctitle) (Str.lower title)
       then 50
       else 0.

(** +30 when the author is given and some candidate author contains it or
    is contained by it, up to case *)
Definition author_points (author : string) (authors : list string) : Z :=
  if Str.nonempty author
     && existsb (λ a, Str.contains (Str.lower author) (Str.lower a)
                      || Str.contains (Str.lower a) (Str.lower author))
          authors
  then 30
  else 0.

(** The first run of four digits of the date, read as a number *)
Definition extracted_year (date : string) : option Z :=
  Str.int_of <$> Str.first_d4 date.

Definition year_points (date : string) : Z :=
  match extracted_year date with
  | Some year => Z.min (year - 1900) 25
  | None => 0
  end.

Definition reference_score (title author : string) (c : dict) : Z :=
  title_points title (cand_title c)
  + author_points author (cand_authors c)
  + year_points (cand_date c).

(** A candidate with a title and a sequence of author names. *)
Definition rankable (c : dict) : Prop :=
  ∃ t l, c !! "title" = Some (PStr t) ∧ c !! "authors" = Some (str_list l).

(** ** Tasks of the fan-out

    What one (variant, adapter) pair contributes to the raw candidate
    list: the Google Books results for a search term, and the Open Library
    result for the title and author. *)

Definition google_task
  (google_books_api : string → option Z → res (list volume_info))
  (search_term : string) : list dict :=
  Create._search_google_books_multiple google_books_api search_term.

Definition open_library_task
  (open_library_api : string → string → res (list ol_doc))
  (title author : string) : list dict :=
  match Create._search_open_library open_library_api title author with
  | Some ol_result =>
      if dict_truthy ol_result
      then [Create.tag_source "openlibrary" ol_result]
      else []
  | None => []
  end.

(** The [source] tags of a result list. *)
Definition sources (results : list dict) : list (option pyval) :=
  (λ r : dict, r !! "source") <$> results.

(** ** Fields of a note

    The frontmatter keys the cleaner can write, the key of the candidate
    each is filled from, and when the existing note holds a valid value:
    the attribute is truthy and, for the local cover path, the file it
    names exists under the vault. *)

Inductive field :=
| FTitle | FSubtitle | FAuthor | FPublisher | FPublish | FTotal | FIsbn
| FCover | FCategory | FLocalCover.

Definition field_key (f : field) : string :=
  match f with
  | FTitle => "title"
  | FSubtitle => "subtitle"
  | FAuthor => "author"
  | FPublisher => "publisher"
  | FPublish => "publish"
  | FTotal => "total"
  | FIsbn => "isbn"
  | FCover => "cover"
  | FCategory => "category"
  | FLocalCover => "localCover"
  end.

Definition field_source (f : field) : string :=
  match f with
  | FTitle => "title"
  | FSubtitle => "subtitle"
  | FAuthor => "authors"
  | FPublisher => "publisher"
  | FPublish => "publishedDate"
  | FTotal => "pageCount"
  | FIsbn => "isbn"
  | FCover => "coverUrl"
  | FCategory => "categories"
  | FLocalCover => "coverUrl"
  end.

Definition field_valid (book : Clean.BookNote) (w : world) (f : field) : bool :=
  match f with
  | FTitle => Clean.present (Clean.title book)
  | FSubtitle => Clean.present (Clean.subtitle book)
  | FAuthor => Clean.nonempty_list (Clean.author book)
  | FPublisher => Clean.present (Clean.publisher book)
  | FPublish => Clean.present (Clean.publish book)
  | FTotal => truthy (Clean.total book)
  | FIsbn => Clean.present (Clean.isbn book)
  | FCover => Clean.present (Clean.cover book)
  | FCategory => Clean.nonempty_list (Clean.category book)
  | FLocalCover =>
      Clean.present (Clean.localCover book)
      && exists_file
           (path_join Clean.base_path (default "" (Clean.localCover book))) w
  end.

(** ** Backfill on a document

    The document is the frontmatter mapping of a note. The backfill delta
    is the [updates] dictionary the cleaner prepares for the note read from
    it; applying a delta is the loop of [update_and_save]. *)

Definition note_of (repr_str : string → string) (frontmatter : dict)
  : Clean.BookNote :=
  Clean.read_frontmatter repr_str (Clean.new_note "" "") frontmatter.

Definition backfill (repr_str : string → string) (covers_dir : string)
  (cover_server : string → res string) (frontmatter api_data : dict)
  (w : world) : res dict * world :=
  Clean.prepare_updates repr_str covers_dir cover_server
    (note_of repr_str frontmatter) api_data w.

Definition backfill_applied (repr_str : string → string)
  (updates frontmatter : dict) : dict :=
  map_fold (Clean.apply_update repr_str) frontmatter updates.

(** What [update_and_save] stores under a key for a value that is not
    None. *)
Definition stored (repr_str : string → string) (key : string) (value : pyval)
  : pyval :=
  match value with
  | PList _ => value
  | _ =>
      if String.eqb key "author"
      then PList [PStr ("[[" +:+ py_str repr_str value +:+ "]]")]
      else if String.eqb key "category" then PList [value]
      else value
  end.

(** The author links the cleaner writes for the authors of a candidate. *)
Definition linked (repr_str : string → string) (authors : list pyval) : pyval :=
  PList ((λ a, PStr ("[[" +:+ py_str repr_str a +:+ "]]")) <$> authors).

(** The value the delta holds for a field filled from the candidate. *)
Definition offered_value (repr_str : string → string) (api_data : dict)
  (f : field) : option pyval :=
  match f with
  | FAuthor =>
      match iter (get_none api_data "authors") with
      | Ok authors => Some (linked repr_str authors)
      | Raise _ => None
      end
  | _ => Some (get_none api_data (field_source f))
  end.

(** Validity of a field other than the local cover path, from what the
    frontmatter holds under its key. *)
Definition read_valid (repr_str : string → string) (f : field)
  (entry : option pyval) : bool :=
  match f with
  | FAuthor | FCategory =>
      Clean.nonempty_list
        (Clean._extract_list repr_str (default (PList []) entry))
  | FTotal => truthy (default PNone entry)
  | _ => Clean.present (Clean._extract_value repr_str (default PNone entry))
  end.

(** A value the candidate supplies is read back as present once written
    to the frontmatter: a text is not blank, a list has a non-empty item. *)
Definition reads_back (repr_str : string → string) (api_data : dict) : Prop :=
  (∀ src, src ∈ ["title"; "subtitle"; "publisher"; "publishedDate"; "isbn";
                 "coverUrl"] →
          truthy (get_none api_data src) = true →
          Clean.present (Clean._extract_value repr_str (get_none api_data src))
          = true) ∧
  (truthy (get_none api_data "categories") = true →
   Clean.nonempty_list
     (Clean._extract_list repr_str
        match get_none api_data "categories" with
        | PList l => PList l
        | v => PList [v]
        end) = true).

(** ** Vocabulary of the further properties *)

(** The key of a candidate, the empty string when its computation raises. *)
Definition key_of (c : dict) : string :=
  match Create.dedup_key c with
  | Ok k => k
  | Raise _ => ""
  end.

(** A value is a str. *)
Definition is_str (v : pyval) : bool :=
  match v with
  | PStr _ => true
  | _ => false
  end.

(** The keys of the dictionaries the cleaner's adapters build, and those
    of the creator's, which add a description. *)
Definition candidate_keys : gset string :=
  list_to_set [ "title"; "subtitle"; "authors"; "publisher"; "publishedDate";
                "pageCount"; "categories"; "isbn"; "coverUrl" ].

Definition creator_keys : gset string :=
  list_to_set [ "title"; "subtitle"; "authors"; "publisher"; "publishedDate";
                "pageCount"; "categories"; "description"; "isbn"; "coverUrl" ].

(** The frontmatter keys the cleaner writes. *)
Definition delta_keys : gset string :=
  {[ "title"; "subtitle"; "author"; "publisher"; "publish"; "total";
     "isbn"; "cover"; "category"; "localCover" ]}.

(** The fields [get_missing_fields] reports on. *)
Definition reported_fields : list field :=
  [FTitle; FAuthor; FIsbn; FPublisher; FPublish; FTotal; FCover; FLocalCover].

(** Characters of a normalized ISBN, and characters that are not a given
    one. *)
Definition isbn_char (c : ascii) : bool :=
  Str.isdigit c || Ascii.eqb c "X"%char.

Definition other_than (c : ascii) (x : ascii) : bool := negb (Ascii.eqb x c).

(** Characters [clean_name] keeps. *)
Definition name_char (c : ascii) : bool :=
  Str.re_word c || Str.re_space c || Nat.eqb (Str.code c) 45.

(** Characters other than the square brackets. *)
Definition no_bracket (c : ascii) : bool :=
  other_than "[" c && other_than "]" c.

(** The name an author reference of an edition resolves to: none without
    a key, when the request fails or when the record has no name. *)
Definition author_name (open_library_author_api : string → res (option string))
  (author_ref : option string) : option string :=
  match author_ref with
  | Some key =>
      match open_library_author_api key with
      | Ok (Some name) => Some name
      | _ => None
      end
  | None => None
  end.

(** * Sample payloads and candidates *)

Module Sample.

Definition volume (title date : string) (authors : list string)
  (identifiers : list identifier) : volume_info :=
  {| v_title := Some title; v_subtitle := None; v_authors := Some authors;
     v_publisher := None; v_publishedDate := Some date; v_pageCount := None;
     v_categories := None; v_description := None;
     v_industryIdentifiers := Some identifiers; v_imageLinks := None |}.

Definition isbn13 (i : string) : identifier :=
  {| id_type := "ISBN_13"; id_identifier := i |}.

Definition isbn10 (i : string) : identifier :=
  {| id_type := "ISBN_10"; id_identifier := i |}.

(** A Google Books result, as [_search_google_books_multiple] appends it. *)
Definition google (v : volume_info) : dict :=
  match Create._format_google_result v with
  | Some result => Create.tag_source "google" result
  | None => ∅
  end.

(** Dune with a hyphenated and with a plain ISBN-13. *)
Definition dune_hyphenated : dict :=
  google (volume "Dune" "1990" ["Frank Herbert"] [isbn13 "978-0-441-01359-3"]).

Definition dune_plain : dict :=
  google (volume "Dune" "1965" ["Frank Herbert"] [isbn13 "9780441013593"]).

(** Dune with both identifiers, and the same record with the separator of
    the joined ISBN written without its space. *)
Definition dune_both : dict :=
  google (volume "Dune" "1965" ["Frank Herbert"]
            [isbn10 "0441013597"; isbn13 "9780441013593"]).

Definition dune_both_tight : dict :=
  <["isbn" := PStr "0441013597,9780441013593"]> dune_both.

(** A volume with a title and nothing else: no identifiers, no authors. *)
Definition bare_volume : volume_info :=
  {| v_title := Some "Dune"; v_subtitle := None; v_authors := None;
     v_publisher := None; v_publishedDate := None; v_pageCount := None;
     v_categories := None; v_description := None;
     v_industryIdentifiers := None; v_imageLinks := None |}.

(** A volume with an ISBN and no authors. *)
Definition anonymous_volume : volume_info :=
  {| v_title := Some "Dune"; v_subtitle := None; v_authors := None;
     v_publisher := None; v_publishedDate := None; v_pageCount := None;
     v_categories := None; v_description := None;
     v_industryIdentifiers := Some [isbn13 "9780441013593"];
     v_imageLinks := None |}.

(** An Open Library document with both ISBN variants. *)
Definition ol_dune : ol_doc :=
  {| d_title := Some "Dune"; d_subtitle := None;
     d_author_name := Some ["Frank Herbert"]; d_publisher := None;
     d_first_publish_year := Some 1965; d_number_of_pages_median := None;
     d_subject := None;
     d_isbn := Some ["9780441013593"; "0-441-01359-7"];
     d_cover_i := None |}.

(** Candidates for the query "Dune" by "Herbert": the title itself in an
    old edition by another hand, and a sequel of 2020 by the author. *)
Definition dune_1901 : dict :=
  google (volume "Dune" "1901" ["Brian Aldiss"] []).

Definition dune_messiah_2020 : dict :=
  google (volume "Dune Messiah" "2020" ["Frank Herbert"] []).

Definition dune_1800 : dict :=
  google (volume "Dune" "1800" ["Frank Herbert"] []).

(** Catalogues that answer every request with one record. *)
Definition google_answers : string → option Z → res (list volume_info) :=
  λ _ _, Ok [volume "Dune" "1965" ["Frank Herbert"] [isbn13 "9780441013593"]].

Definition open_library_answers : string → string → res (list ol_doc) :=
  λ _ _, Ok [ol_dune].

(** Catalogues that answer with a volume that has no identifiers. *)
Definition google_answers_bare : string → option Z → res (list volume_info) :=
  λ _ _, Ok [bare_volume].

Definition open_library_silent : string → string → res (list ol_doc) :=
  λ _ _, Ok [].

(** A candidate with a cover URL, as the cleaner's adapters build it. *)
Definition dune_api : dict :=
  {[ "title" := PStr "Dune"; "subtitle" := PNone;
     "authors" := str_list ["Frank Herbert"]; "publisher" := PStr "Ace";
     "publishedDate" := PStr "1965"; "pageCount" := PInt 412;
     "categories" := str_list ["Fiction"];
     "isbn" := PStr "0441013597, 9780441013593";
     "coverUrl" := PStr "https://books.example/dune.jpg" ]}.

(** The covers directory of [main]. *)
Definition covers_dir : string :=
  "/Users/armaangupta/Documents/GuppyBrain/References/Attachments/Book Search Covers".

(** Where the cleaner keeps the cover of [dune_api]. *)
Definition dune_cover_path : string :=
  covers_dir +:+ "/Frank Herbert - Dune - 1965.jpg".

Definition dune_cover_relative : string :=
  "References/Attachments/Book Search Covers/Frank Herbert - Dune - 1965.jpg".

(** The same candidate without a page count. *)
Definition dune_api_no_pages : dict := <["pageCount" := PNone]> dune_api.

(** A server that answers every URL, and a [repr] for str. *)
Definition server : string → res string := λ _, Ok "JPEG".

Definition repr_str : string → string := λ s, "'" +:+ s +:+ "'".

Definition no_faults : string → write_fault := λ _, NoFault.

(** A disk without files, and one that holds the cover of [dune_api]. *)
Definition empty_disk : world :=
  {| files := ∅; fetched := []; fault := no_faults |}.

Definition disk_with_cover : world :=
  {| files := {[ dune_cover_path := "JPEG" ]}; fetched := [];
     fault := no_faults |}.

(** A note with a title, an author and a local cover whose file exists
    under the vault, and the disk that holds it. *)
Definition note_with_cover : Clean.BookNote :=
  note_of repr_str
    {[ "title" := PStr "Dune"; "author" := PList [PStr "[[Frank Herbert]]"];
       "localCover" := PStr "Attachments/dune.jpg" ]}.

Definition disk_with_note_cover : world :=
  {| files := {[ "/Users/armaangupta/Documents/GuppyBrain/Attachments/dune.jpg"
                 := "JPEG" ]};
     fetched := []; fault := no_faults |}.

(** The candidate the note creator receives for the same book, and a disk
    with the template and the cover already in place. *)
Definition dune_created : dict :=
  <["coverUrl" := PStr "https://books.example/dune.jpg"]>
    (google (volume "Dune" "1965" ["Frank Herbert"] [])).

Definition creator_disk : world :=
  {| files := {[ "/vault/Templates/New Book.md" := "---";
                 dune_cover_path := "JPEG" ]};
     fetched := []; fault := no_faults |}.

(** Notes on disk: one without frontmatter, one with it. *)
Definition plain_note_disk : world :=
  {| files := {[ "/vault/Books/Dune.md" := "# Dune" ]}; fetched := [];
     fault := no_faults |}.

Definition yaml_fails : string → res Clean.yaml_doc := λ _, Raise YAMLError.

Definition yaml_dump_fails : Clean.yaml_doc → res string :=
  λ _, Raise YAMLError.

(** A note with a frontmatter block, and a YAML library that loads an
    empty mapping and dumps one line. *)
Definition note_disk : world :=
  {| files := {[ "/vault/Books/Dune.md" := "---title: Dune---# Dune" ]};
     fetched := []; fault := no_faults |}.

Definition yaml_empty : string → res Clean.yaml_doc := λ _, Ok (Clean.YMap ∅).

Definition yaml_line : Clean.yaml_doc → res string := λ _, Ok "title: Dune".

(** A YAML library that knows one document. *)
Definition yaml_dune : string → res Clean.yaml_doc :=
  λ _, Ok (Clean.YMap {[ "title" := PStr "Dune" ]}).

Definition yaml_dune_text : Clean.yaml_doc → res string :=
  λ _, Ok ("title: Dune" +:+ Clean.nl).

(** A candidate in which every text field is a str, and a creator over
    the vault whose user declines to overwrite. *)
Definition dune_complete : dict :=
  <["subtitle" := PStr "A Novel"]>
    (<["publisher" := PStr "Ace"]> dune_created).

Definition create (book : dict) (w : world) : bool * world :=
  Create.create_book_note repr_str "2024-01-01 00:00:00" "n"
    "/vault/Templates/New Book.md" "/vault/Books" covers_dir server book w.

End Sample.

(** * Facts about the primitives *)

(** Membership in a list given by its items. *)
Ltac in_list :=
  repeat first [apply list_elem_of_here | apply list_elem_of_further].

Lemma nonempty_true s : Str.nonempty s = true ↔ s ≠ "".
Proof.
  unfold Str.nonempty. rewrite negb_true_iff.
  split; intros H.
  - intros ->. by rewrite String.eqb_refl in H.
  - by apply String.eqb_neq.
Qed.

Lemma nonempty_false s : Str.nonempty s = false ↔ s = "".
Proof.
  unfold Str.nonempty. rewrite negb_false_iff. apply String.eqb_eq.
Qed.

Lemma bind_Ok {A B} (m : res A) (k : A → res B) b :
  bind m k = Ok b ↔ ∃ a, m = Ok a ∧ k a = Ok b.
Proof.
  destruct m as [a|e]; simpl; split.
  - eauto.
  - by intros (? & [= ->] & ?).
  - done.
  - by intros (? & ? & ?).
Qed.

(** * Deduplication *)

Lemma has_key_Ok c k : Create.dedup_key c = Ok k → ∀ k', has_key k' c = true ↔ k = k'.
Proof.
  intros H k'. unfold has_key. rewrite H. apply String.eqb_eq.
Qed.

(** The loop never raises on candidates whose keys can be computed; of the
    candidates filed under one key it appends the first, unless the key
    was seen before. *)
Lemma dedup_loop_first (l : list dict) :
  Forall (λ c, is_Ok (Create.dedup_key c)) l →
  ∀ (seen : gset string) (acc : list dict),
  ∃ out, Create.dedup_loop l seen acc = Ok (acc ++ out) ∧
    ∀ k, filter (λ c, has_key k c = true) out =
         if decide (k ∈ seen ∨ k = "") then []
         else take 1 (filter (λ c, has_key k c = true) l).
Proof.
  induction 1 as [|c l [k0 Hk0] _ IH]; intros seen acc.
  - exists []. rewrite app_nil_r. split; [done|].
    intros k. by case_decide.
  - simpl. rewrite Hk0. simpl.
    destruct (Str.nonempty k0 && bool_decide (k0 ∉ seen)) eqn:Hnew.
    + apply andb_true_iff in Hnew as [Hne Hseen].
      apply nonempty_true in Hne. apply bool_decide_eq_true in Hseen.
      destruct (IH ({[k0]} ∪ seen) (acc ++ [c])) as (out & Hrun & Hout).
      exists (c :: out). split.
      { rewrite Hrun. by rewrite <- app_assoc. }
      intros k. rewrite !filter_cons, Hout.
      destruct (decide (has_key k c = true)) as [Hk|Hk].
      * apply (has_key_Ok _ _ Hk0) in Hk as <-.
        rewrite decide_True by set_solver.
        rewrite decide_False by (intros [?|?]; done). done.
      * assert (k0 ≠ k) as Hkk
          by (intros <-; apply Hk; by apply (has_key_Ok _ _ Hk0)).
        destruct (decide (k ∈ seen ∨ k = "")) as [Hs|Hs].
        -- rewrite decide_True by set_solver. done.
        -- rewrite decide_False by set_solver. done.
    + destruct (IH seen acc) as (out & Hrun & Hout).
      exists out. split; [done|].
      intros k. rewrite filter_cons, Hout.
      destruct (decide (has_key k c = true)) as [Hk|Hk]; [|done].
      apply (has_key_Ok _ _ Hk0) in Hk as <-.
      assert (k0 ∈ seen ∨ k0 = "") as Hold.
      { apply andb_false_iff in Hnew as [Hne|Hseen].
        - right. by apply nonempty_false.
        - left. apply bool_decide_eq_false in Hseen.
          destruct (decide (k0 ∈ seen)); [done|]. by destruct Hseen. }
      clear Hnew. by rewrite !decide_True.
Qed.

Lemma dedup_key_isbn (c : dict) s :
  c !! "isbn" = Some (PStr s) → isbn_key_of s ≠ "" →
  is_Ok (Create.dedup_key c) → Create.dedup_key c = Ok (isbn_key_of s).
Proof.
  intros Hi Hne [k Hk]. unfold Create.dedup_key, get in *.
  rewrite Hi in *. simpl in *.
  destruct (str_method _); simpl in *; [|done].
  destruct (getitem0 _); simpl in *; [|done].
  destruct (str_method _); simpl in *; [|done].
  fold (isbn_key_of s). apply nonempty_true in Hne. by rewrite Hne.
Qed.

(** C1, as the code has it: two candidates whose ISBN strings agree once
    commas and spaces are removed are filed under the same key, that
    string, and of all candidates under that key the deduplication keeps
    exactly the first one seen. *)
Theorem dedup_isbn_first_seen_wins (l1 l2 l3 : list dict) (c1 c2 : dict)
  (s1 s2 : string) :
  c1 !! "isbn" = Some (PStr s1) →
  c2 !! "isbn" = Some (PStr s2) →
  isbn_key_of s1 = isbn_key_of s2 →
  isbn_key_of s1 ≠ "" →
  Forall (λ c, is_Ok (Create.dedup_key c)) (l1 ++ c1 :: l2 ++ c2 :: l3) →
  Forall (λ c, has_key (isbn_key_of s1) c = false) l1 →
  Create.dedup_key c1 = Ok (isbn_key_of s1) ∧
  Create.dedup_key c2 = Ok (isbn_key_of s1) ∧
  ∃ out, Create.deduplicate (l1 ++ c1 :: l2 ++ c2 :: l3) = Ok out ∧
         filter (λ c, has_key (isbn_key_of s1) c = true) out = [c1].
Proof.
  intros H1 H2 Heq Hne Hall Hfirst.
  assert (Create.dedup_key c1 = Ok (isbn_key_of s1)) as Hk1.
  { apply dedup_key_isbn; [done..|].
    apply Forall_app in Hall as [_ Hall]. by apply Forall_cons in Hall as [? _]. }
  assert (Create.dedup_key c2 = Ok (isbn_key_of s1)) as Hk2.
  { rewrite Heq in *. apply dedup_key_isbn; [done..|].
    apply Forall_app in Hall as [_ Hall]. apply Forall_cons in Hall as [_ Hall].
    apply Forall_app in Hall as [_ Hall]. by apply Forall_cons in Hall as [? _]. }
  split; [done|]. split; [done|].
  destruct (dedup_loop_first _ Hall ∅ []) as (out & Hrun & Hout).
  exists out. split; [done|].
  rewrite Hout. rewrite decide_False.
  2: { intros [?|?]; [set_solver|done]. }
  rewrite filter_app, filter_cons.
  assert (filter (λ c, has_key (isbn_key_of s1) c = true) l1 = []) as ->.
  { clear -Hfirst. induction Hfirst as [|c l Hc _ IH]; [done|].
    rewrite filter_cons, IH. rewrite decide_False; [done|]. by rewrite Hc. }
  rewrite decide_True by (by apply (has_key_Ok _ _ Hk1)). done.
Qed.

Lemma dedup_isbn_first_seen_wins_witness :
  ∃ out, Create.deduplicate [Sample.dune_both; Sample.dune_both_tight] = Ok out ∧
         filter (λ c, has_key "04410135979780441013593" c = true) out
         = [Sample.dune_both].
Proof.
  refine (proj2 (proj2 (dedup_isbn_first_seen_wins [] [] []
    Sample.dune_both Sample.dune_both_tight
    "0441013597, 9780441013593" "0441013597,9780441013593" _ _ _ _ _ _))).
  - vm_compute. reflexivity.
  - vm_compute. reflexivity.
  - vm_compute. reflexivity.
  - vm_compute. discriminate.
  - repeat constructor; eexists; vm_compute; reflexivity.
  - constructor.
Defined.

(** C1 fails on the code: the hyphenated and the plain spelling of one
    ISBN are the same number, yet they get different keys -- a hyphen is
    not removed -- and both candidates are retained. *)
Lemma dedup_keeps_hyphenated_duplicate :
  isbn_digits "978-0-441-01359-3" = isbn_digits "9780441013593" ∧
  Create.dedup_key Sample.dune_hyphenated = Ok "978-0-441-01359-3" ∧
  Create.dedup_key Sample.dune_plain = Ok "9780441013593" ∧
  Create.deduplicate [Sample.dune_hyphenated; Sample.dune_plain]
  = Ok [Sample.dune_hyphenated; Sample.dune_plain].
Proof. repeat split; vm_compute; reflexivity. Qed.

(** C2: on the dictionaries the adapters build, the key computation
    raises. A result without identifiers holds [None] under the key
    [isbn], so the default of [get] is not used and [None.replace] is an
    [AttributeError]; a result without authors holds the empty list, whose
    item 0 is an [IndexError] even when an ISBN is there. Neither is
    caught, so the whole resolution raises. *)
Theorem dedup_key_raises_on_adapter_results :
  Create.dedup_key (Sample.google Sample.bare_volume) = Raise AttributeError ∧
  Create.dedup_key (Sample.google Sample.anonymous_volume) = Raise IndexError ∧
  Create.rank_results "Dune" "" [Sample.google Sample.bare_volume]
  = Raise AttributeError ∧
  Create.rank_results "Dune" "" [Sample.google Sample.anonymous_volume]
  = Raise IndexError ∧
  Create.search_books_by_title_author Sample.google_answers_bare
    Sample.open_library_silent "Dune" ""
  = Raise AttributeError.
Proof. repeat split; vm_compute; reflexivity. Qed.

(** The defaults of the two [get] calls only serve a dictionary that
    lacks the keys altogether. *)
Lemma dedup_key_defaults :
  Create.dedup_key {[ "title" := PStr " Dune " ]} = Ok "dune_".
Proof. vm_compute. reflexivity. Qed.

(** * ISBN variants of an adapter result *)

Lemma scan_identifiers_last ids :
  scan_identifiers ids
  = (last_of_type "ISBN_10" ids, last_of_type "ISBN_13" ids).
Proof.
  unfold scan_identifiers, last_of_type.
  induction ids as [|i ids IH] using rev_ind; [done|].
  rewrite foldl_app, IH. simpl. unfold scan_identifier. simpl.
  rewrite !filter_app, !filter_cons, !filter_nil, !fmap_app.
  destruct (String.eqb (id_type i) "ISBN_10") eqn:H10.
  - apply String.eqb_eq in H10. rewrite H10. simpl.
    by rewrite last_snoc, app_nil_r.
  - destruct (String.eqb (id_type i) "ISBN_13") eqn:H13; simpl.
    + by rewrite last_snoc, app_nil_r.
    + by rewrite !app_nil_r.
Qed.

Lemma format_google_isbn_field volume (result : dict) :
  Create._format_google_result volume = Some result →
  let ids := default [] (v_industryIdentifiers volume) in
  result !! "isbn"
  = Some (google_isbn (last_of_type "ISBN_10" ids) (last_of_type "ISBN_13" ids)).
Proof.
  unfold Create._format_google_result.
  destruct (negb _); [done|].
  rewrite scan_identifiers_last. intros [= <-]. cbv beta iota zeta.
  set (isbn := google_isbn _ _).
  destruct (google_cover _), isbn; by simplify_map_eq.
Qed.




(** * Ranking *)

Section sort_desc.

Context {A : Type}.
Implicit Types (x : Z * A) (l : list (Z * A)).

Lemma insert_desc_perm x l : Create.insert_desc x l ≡ₚ x :: l.
Proof.
  induction l as [|y l IH]; simpl; [done|].
  destruct (y.1 <=? x.1); [done|].
  rewrite IH. apply Permutation_swap.
Qed.

Lemma sort_desc_perm l : Create.sort_desc l ≡ₚ l.
Proof.
  induction l as [|x l IH]; simpl; [done|].
  by rewrite insert_desc_perm, IH.
Qed.

Lemma insert_desc_sorted x l :
  StronglySorted (λ a b, b.1 ≤ a.1) l →
  StronglySorted (λ a b, b.1 ≤ a.1) (Create.insert_desc x l).
Proof.
  induction 1 as [|y l Hl IH Hy]; simpl.
  - repeat constructor.
  - destruct (y.1 <=? x.1) eqn:Hle.
    + apply Z.leb_le in Hle. constructor; [by constructor|].
      constructor; [done|].
      eapply Forall_impl; [exact Hy|]. simpl. intros z Hz. lia.
    + apply Z.leb_gt in Hle. constructor; [done|].
      rewrite insert_desc_perm. constructor; [lia|done].
Qed.

Lemma sort_desc_sorted l : StronglySorted (λ a b, b.1 ≤ a.1) (Create.sort_desc l).
Proof.
  induction l as [|x l IH]; simpl; [constructor|].
  by apply insert_desc_sorted.
Qed.

(** Stability: the items of one key keep their order. *)
Lemma insert_desc_stable k x l :
  filter (λ a, a.1 = k) (Create.insert_desc x l) = filter (λ a, a.1 = k) (x :: l).
Proof.
  induction l as [|y l IH]; simpl; [done|].
  destruct (y.1 <=? x.1) eqn:Hle; [done|].
  apply Z.leb_gt in Hle.
  rewrite filter_cons, IH, !filter_cons.
  repeat case_decide; try done; lia.
Qed.

Lemma sort_desc_stable k l :
  filter (λ a, a.1 = k) (Create.sort_desc l) = filter (λ a, a.1 = k) l.
Proof.
  induction l as [|x l IH]; simpl; [done|].
  by rewrite insert_desc_stable, !filter_cons, IH.
Qed.

End sort_desc.

Lemma mapM_Ok {A B} (f : A → res B) (g : A → B) l :
  (∀ a, a ∈ l → f a = Ok (g a)) → mapM f l = Ok (g <$> l).
Proof.
  induction l as [|a l IH]; intros Hf; [done|].
  cbn [mapM]. rewrite Hf by left. cbn [bind]. rewrite IH; [done|].
  intros b Hb. apply Hf. by right.
Qed.

Lemma existsb_fmap {A B} (f : B → bool) (g : A → B) l :
  existsb f (g <$> l) = existsb (λ a, f (g a)) l.
Proof.
  induction l as [|a l IH]; [done|].
  rewrite fmap_cons. cbn [existsb]. by rewrite IH.
Qed.

Lemma cand_authors_str_list (c : dict) l :
  c !! "authors" = Some (str_list l) → cand_authors c = l.
Proof.
  unfold cand_authors. intros ->. unfold str_list.
  induction l as [|a l IH]; [done|].
  csimpl. by rewrite IH.
Qed.

Lemma year_points_code book score :
  (let pub_date := get book "publishedDate" (PStr "") in
   if truthy pub_date then
     try_except
       (date <- match pub_date with
                | PStr s => Ok s
                | _ => Raise TypeError
                end;;
        year <- match Str.first_d4 date with
                | Some m => Ok (Str.int_of m)
                | None => Raise IndexError
                end;;
        Ok (score + Z.min (year - 1900) 25))
       score
   else score)
  = score + year_points (cand_date book).
Proof.
  unfold get, cand_date, year_points, extracted_year.
  destruct (book !! "publishedDate") as [[|s|n|l]|]; simpl.
  - lia.
  - destruct (negb (String.eqb s "")) eqn:Hs.
    + destruct (Str.first_d4 s); simpl; lia.
    + apply negb_false_iff, String.eqb_eq in Hs as ->. simpl. lia.
  - destruct (negb _); simpl; lia.
  - destruct (negb _); simpl; lia.
  - lia.
Qed.

(** The key function of the sort computes the reference score. *)
Lemma relevance_score_reference title author (c : dict) :
  rankable c →
  Create.relevance_score title author c = Ok (reference_score title author c).
Proof.
  intros (t & l & Ht & Ha).
  unfold reference_score, title_points, author_points.
  rewrite (cand_authors_str_list _ _ Ha).
  unfold Create.relevance_score.
  replace (get c "title" (PStr "")) with (PStr t)
    by (unfold get; by rewrite Ht).
  replace (get c "authors" (PList [])) with (str_list l)
    by (unfold get; by rewrite Ha).
  replace (cand_title c) with t by (unfold cand_title; by rewrite Ht).
  cbn [str_method bind iter str_list].
  destruct (Str.nonempty author); cbn [andb].
  - rewrite (mapM_Ok _ (λ v, match v with PStr s => Str.lower s | _ => "" end)).
    2: { intros a [s [-> _]]%list_elem_of_fmap. done. }
    cbn [bind]. rewrite year_points_code.
    rewrite <- list_fmap_compose, existsb_fmap. cbn [compose].
    f_equal. repeat case_match; lia.
  - cbn [bind]. rewrite year_points_code.
    f_equal. repeat case_match; lia.
Qed.

(** Sorting by a key that never raises. *)
Lemma sort_by_key_reverse_spec {A} (key : A → res Z) (f : A → Z) (l : list A) :
  (∀ a, a ∈ l → key a = Ok (f a)) →
  ∃ sorted, Create.sort_by_key_reverse key l = Ok sorted ∧
    sorted ≡ₚ l ∧
    StronglySorted (λ a b, f b ≤ f a) sorted ∧
    ∀ k, filter (λ a, f a = k) sorted = filter (λ a, f a = k) l.
Proof.
  intros Hkey. unfold Create.sort_by_key_reverse.
  rewrite (mapM_Ok _ f) by done. cbn [bind].
  eexists. split; [done|].
  assert (zip (f <$> l) l = (λ a, (f a, a)) <$> l) as ->.
  { clear. induction l as [|a l IH]; csimpl; [done|]. by rewrite IH. }
  set (dec := (λ a, (f a, a)) <$> l).
  assert (Forall (λ x, x.1 = f x.2) (Create.sort_desc dec)) as Hdec.
  { rewrite sort_desc_perm. subst dec. apply Forall_fmap, Forall_forall. done. }
  assert (dec.*2 = l) as Hl.
  { subst dec. rewrite <- list_fmap_compose. apply list_fmap_id. }
  split; [|split].
  - rewrite sort_desc_perm. by rewrite Hl.
  - pose proof (sort_desc_sorted dec) as Hs.
    induction Hs as [|x s Hs IH Hx]; simpl; [constructor|].
    apply Forall_cons in Hdec as [Hx1 Hdec].
    constructor; [by apply IH|].
    apply Forall_fmap, Forall_forall. intros y Hy. simpl.
    rewrite Forall_forall in Hx, Hdec.
    rewrite <- Hx1, <- (Hdec y Hy). by apply Hx.
  - intros k. rewrite <- Hl at 1.
    assert (∀ s : list (Z * A), Forall (λ x, x.1 = f x.2) s →
              filter (λ a, f a = k) (s.*2) = (filter (λ x, x.1 = k) s).*2) as Hf.
    { clear. induction 1 as [|x s Hx _ IH]; [done|].
      rewrite fmap_cons, !filter_cons, IH, Hx.
      by destruct (decide (f x.2 = k)). }
    rewrite !Hf; [by rewrite sort_desc_stable| |done].
    subst dec. apply Forall_fmap, Forall_forall. done.
Qed.

(** The ranking stage on candidates with a title and author names. *)
Lemma rank_spec title author (cs : list dict) :
  Forall rankable cs →
  (∀ c, c ∈ cs →
        Create.relevance_score title author c
        = Ok (reference_score title author c)) ∧
  ∃ sorted,
    Create.sort_by_key_reverse (Create.relevance_score title author) cs
    = Ok sorted ∧
    Create.rank title author cs = Ok (take 5 sorted) ∧
    sorted ≡ₚ cs ∧
    StronglySorted
      (λ a b, reference_score title author b ≤ reference_score title author a)
      sorted ∧
    (∀ k, filter (λ c, reference_score title author c = k) sorted
          = filter (λ c, reference_score title author c = k) cs) ∧
    (length (take 5 sorted) ≤ 5)%nat.
Proof.
  intros Hcs.
  assert (∀ c, c ∈ cs →
               Create.relevance_score title author c
               = Ok (reference_score title author c)) as Hscore.
  { intros c Hc. apply relevance_score_reference.
    rewrite Forall_forall in Hcs. by apply Hcs. }
  split; [done|].
  destruct (sort_by_key_reverse_spec _ _ cs Hscore)
    as (sorted & Hsort & Hperm & Hdesc & Hstable).
  exists sorted. unfold Create.rank. rewrite Hsort.
  repeat split; try done.
  rewrite length_take. lia.
Qed.

(** C6: on candidates with a title and author names, the key of the sort
    is the reference score; the ranking stage returns the first five of a
    list that is a permutation of its input, descending by that score, in
    which candidates of equal score keep their input order. *)
Theorem ranking_matches_reference_score title author (cs : list dict) :
  Forall rankable cs →
  (∀ c, c ∈ cs →
        Create.relevance_score title author c
        = Ok (reference_score title author c)) ∧
  ∃ sorted,
    Create.sort_by_key_reverse (Create.relevance_score title author) cs
    = Ok sorted ∧
    Create.rank title author cs = Ok (take 5 sorted) ∧
    sorted ≡ₚ cs ∧
    StronglySorted
      (λ a b, reference_score title author b ≤ reference_score title author a)
      sorted ∧
    (∀ k, filter (λ c, reference_score title author c = k) sorted
          = filter (λ c, reference_score title author c = k) cs) ∧
    (length (take 5 sorted) ≤ 5)%nat.
Proof. apply rank_spec. Qed.

Lemma rankable_google v (result : dict) :
  Create._format_google_result v = Some result →
  rankable (Create.tag_source "google" result).
Proof.
  unfold Create._format_google_result.
  destruct (v_title v) as [t|]; [|done]. simpl.
  destruct (negb _); [done|]. destruct (scan_identifiers _) as [i10 i13].
  intros [= <-].
  exists t, (default [] (v_authors v)). unfold Create.tag_source.
  split; destruct (google_cover _), (google_isbn _ _); by simplify_map_eq.
Qed.

Lemma ranking_matches_reference_score_witness :
  ∃ sorted,
    Create.rank "Dune" "Herbert" [Sample.dune_1901; Sample.dune_messiah_2020]
    = Ok (take 5 sorted) ∧
    sorted ≡ₚ [Sample.dune_1901; Sample.dune_messiah_2020].
Proof.
  destruct (ranking_matches_reference_score "Dune" "Herbert"
              [Sample.dune_1901; Sample.dune_messiah_2020])
    as [_ (sorted & _ & Hrank & Hperm & _)].
  - apply Forall_cons. split.
    { exists "Dune", ["Brian Aldiss"]. split; vm_compute; reflexivity. }
    apply Forall_cons. split; [|apply List.Forall_nil].
    exists "Dune Messiah", ["Frank Herbert"]. split; vm_compute; reflexivity.
  - exists sorted. split; assumption.
Defined.

(** * Ranking precedence *)

Lemma year_points_le date : year_points date ≤ 25.
Proof. unfold year_points. destruct (extracted_year date); lia. Qed.

(** C7, as the code has it: an exact title match outscores a partial one,
    and stands before it in the ranking, provided the partial match does
    not earn the author bonus while the exact match misses it, and the
    exact match's year, if one can be read, is later than 1875. *)
Theorem exact_title_outranks_partial title author (a b : dict)
  (cs : list dict) :
  Forall rankable cs → a ∈ cs → b ∈ cs →
  title_points title (cand_title a) = 100 →
  title_points title (cand_title b) = 50 →
  author_points author (cand_authors b) ≤ author_points author (cand_authors a) →
  (∀ y, extracted_year (cand_date a) = Some y → 1875 < y) →
  (∃ sa sb, Create.relevance_score title author a = Ok sa ∧
            Create.relevance_score title author b = Ok sb ∧ sb < sa) ∧
  ∃ out, Create.rank title author cs = Ok out ∧
         ∀ l1 l2, out = l1 ++ b :: l2 → a ∈ l1.
Proof.
  intros Hcs Ha Hb Hexact Hpartial Hauthor Hyear.
  destruct (rank_spec title author cs Hcs)
    as [Hscore (sorted & _ & Hrank & Hperm & Hdesc & _)].
  assert (reference_score title author b < reference_score title author a)
    as Hlt.
  { unfold reference_score. rewrite Hexact, Hpartial.
    pose proof (year_points_le (cand_date b)).
    assert (-24 ≤ year_points (cand_date a)); [|lia].
    unfold year_points. destruct (extracted_year _) as [y|] eqn:Hy; [|lia].
    specialize (Hyear y eq_refl). lia. }
  split.
  { eexists _, _. split; [by apply Hscore|]. split; [by apply Hscore|done]. }
  exists (take 5 sorted). split; [done|].
  intros l1 l2 Hout.
  assert (sorted = l1 ++ b :: (l2 ++ drop 5 sorted)) as Hsplit.
  { rewrite <- (take_drop 5 sorted) at 1. rewrite Hout.
    by rewrite <- app_assoc. }
  assert (a ∈ sorted) as Hin by (by rewrite Hperm).
  rewrite Hsplit in Hdesc, Hin.
  apply StronglySorted_app in Hdesc as (_ & _ & Htail).
  apply StronglySorted_cons in Htail as [Htail _].
  apply elem_of_app in Hin as [Hin|Hin]; [done|].
  apply elem_of_cons in Hin as [->|Hin]; [lia|].
  rewrite Forall_forall in Htail. specialize (Htail a Hin). simpl in Htail. lia.
Qed.

Lemma exact_title_outranks_partial_witness :
  ∃ out, Create.rank "Dune" "" [Sample.dune_messiah_2020; Sample.dune_1901]
         = Ok out ∧
         ∀ l1 l2, out = l1 ++ Sample.dune_messiah_2020 :: l2 →
                  Sample.dune_1901 ∈ l1.
Proof.
  refine (proj2 (exact_title_outranks_partial "Dune" ""
    Sample.dune_1901 Sample.dune_messiah_2020
    [Sample.dune_messiah_2020; Sample.dune_1901] _ _ _ _ _ _ _)).
  - apply Forall_cons. split.
    { exists "Dune Messiah", ["Frank Herbert"]. split; vm_compute; reflexivity. }
    apply Forall_cons. split; [|apply List.Forall_nil].
    exists "Dune", ["Brian Aldiss"]. split; vm_compute; reflexivity.
  - apply list_elem_of_further, list_elem_of_here.
  - apply list_elem_of_here.
  - vm_compute. reflexivity.
  - vm_compute. reflexivity.
  - vm_compute. discriminate.
  - intros y. vm_compute. intros [= <-]. reflexivity.
Defined.

(** C7 fails as stated. For the query "Dune" by "Herbert", the edition of
    1901 with the exact title scores 101 and the sequel of 2020, a partial
    match by the author, scores 105 and is ranked first. For the query
    "Dune" alone, an edition of 1800 scores 0 and the sequel 75. *)
Lemma partial_match_outranks_exact :
  title_points "Dune" (cand_title Sample.dune_1901) = 100 ∧
  title_points "Dune" (cand_title Sample.dune_messiah_2020) = 50 ∧
  Create.relevance_score "Dune" "Herbert" Sample.dune_1901 = Ok 101 ∧
  Create.relevance_score "Dune" "Herbert" Sample.dune_messiah_2020 = Ok 105 ∧
  Create.rank "Dune" "Herbert" [Sample.dune_1901; Sample.dune_messiah_2020]
  = Ok [Sample.dune_messiah_2020; Sample.dune_1901] ∧
  Create.relevance_score "Dune" "" Sample.dune_1800 = Ok 0 ∧
  Create.relevance_score "Dune" "" Sample.dune_messiah_2020 = Ok 75 ∧
  Create.rank "Dune" "" [Sample.dune_1800; Sample.dune_messiah_2020]
  = Ok [Sample.dune_messiah_2020; Sample.dune_1800].
Proof. repeat split; vm_compute; reflexivity. Qed.

(** * Order of the raw candidate list *)

Lemma search_steps_app g o title author terms acc :
  foldl (Create.search_step g o title author) acc terms
  = acc ++ mjoin ((λ term, google_task g term ++ open_library_task o title author)
                    <$> terms).
Proof.
  revert acc. induction terms as [|term terms IH]; intros acc; csimpl.
  - by rewrite app_nil_r.
  - rewrite IH. unfold Create.search_step, google_task, open_library_task.
    destruct (Create._search_open_library o title author) as [r|];
      [destruct (dict_truthy r)|]; by rewrite <- ?app_assoc, ?app_nil_r.
Qed.

(** C9, as the code has it: [search_books_by_title_author] runs its
    searches one after the other, and its raw candidate list is the
    concatenation, search term by search term in the order of
    [search_terms], of the Google Books results followed by the Open
    Library result; catalogues that answer alike give the same list. *)
Theorem collect_results_priority_order g o title author :
  Create.collect_results g o title author
  = mjoin ((λ term, google_task g term ++ open_library_task o title author)
             <$> Create.search_terms title author) ∧
  ∀ g2 o2, (∀ q m, g2 q m = g q m) → (∀ t a, o2 t a = o t a) →
           Create.collect_results g2 o2 title author
           = Create.collect_results g o title author.
Proof.
  split.
  - unfold Create.collect_results. by rewrite search_steps_app.
  - intros g2 o2 Hg Ho. unfold Create.collect_results.
    rewrite !search_steps_app. do 2 f_equal. apply list_fmap_ext.
    intros _ term _.
    unfold google_task, open_library_task, Create._search_google_books_multiple,
      Create._search_open_library.
    by rewrite Hg, Ho.
Qed.

Lemma collect_results_priority_order_witness :
  Create.collect_results Sample.google_answers Sample.open_library_answers
    "Dune" "Herbert"
  = mjoin ((λ term, google_task Sample.google_answers term
                    ++ open_library_task Sample.open_library_answers
                         "Dune" "Herbert")
             <$> Create.search_terms "Dune" "Herbert") ∧
  sources (Create.collect_results Sample.google_answers
             Sample.open_library_answers "Dune" "Herbert")
  = [Some (PStr "google"); Some (PStr "openlibrary");
     Some (PStr "google"); Some (PStr "openlibrary");
     Some (PStr "google"); Some (PStr "openlibrary")].
Proof.
  split.
  - exact (proj1 (collect_results_priority_order Sample.google_answers
                    Sample.open_library_answers "Dune" "Herbert")).
  - vm_compute. reflexivity.
Defined.

(** C9 fails on [search_multiple_sources]: with the same answers from both
    catalogues, the two orders in which the futures can complete give two
    different result lists. *)
Lemma completion_order_decides_result_order :
  sources (Create.search_multiple_sources Sample.google_answers
             Sample.open_library_answers [Create.Google; Create.OpenLibrary] "Dune" "Herbert")
  = [Some (PStr "google"); Some (PStr "openlibrary")] ∧
  sources (Create.search_multiple_sources Sample.google_answers
             Sample.open_library_answers [Create.OpenLibrary; Create.Google] "Dune" "Herbert")
  = [Some (PStr "openlibrary"); Some (PStr "google")] ∧
  Create.search_multiple_sources Sample.google_answers
    Sample.open_library_answers [Create.Google; Create.OpenLibrary] "Dune" "Herbert"
  ≠ Create.search_multiple_sources Sample.google_answers
      Sample.open_library_answers [Create.OpenLibrary; Create.Google] "Dune" "Herbert".
Proof.
  split; [vm_compute; reflexivity|]. split; [vm_compute; reflexivity|].
  intros H. apply (f_equal sources) in H. vm_compute in H. discriminate H.
Qed.

(** * Saving a note *)

(** C10: when the note does not open with a frontmatter block, or
    anything raises before the final write, [update_and_save] returns
    [False] and the disk is as it was, the note file included. *)
Theorem update_and_save_failure_leaves_file repr_str yaml_safe_load yaml_dump
  (self : Clean.BookNote) (updates : dict) (w : world) :
  (∃ text, read_file (Clean.filepath self) w = Ok text ∧
           Str.startswith "---" text = false) ∨
  (∃ e, Clean.new_content repr_str yaml_safe_load yaml_dump self updates w
        = Raise e) →
  Clean.update_and_save repr_str yaml_safe_load yaml_dump self updates w
  = (false, w) ∧
  files (Clean.update_and_save repr_str yaml_safe_load yaml_dump self updates w).2
    !! Clean.filepath self
  = files w !! Clean.filepath self.
Proof.
  intros H.
  assert (Clean.update_and_save repr_str yaml_safe_load yaml_dump self updates w
          = (false, w)) as E.
  { unfold Clean.update_and_save.
    destruct H as [(text & Hread & Hstart)|(e & Hraise)].
    - unfold Clean.new_content. rewrite Hread. cbn [bind].
      by rewrite Hstart.
    - by rewrite Hraise. }
  by rewrite E.
Qed.

Lemma update_and_save_failure_leaves_file_witness :
  Clean.update_and_save Sample.repr_str Sample.yaml_fails Sample.yaml_dump_fails
    (Clean.new_note "/vault/Books/Dune.md" "# Dune")
    {[ "title" := PStr "Dune" ]} Sample.plain_note_disk
  = (false, Sample.plain_note_disk).
Proof.
  refine (proj1 (update_and_save_failure_leaves_file Sample.repr_str
    Sample.yaml_fails Sample.yaml_dump_fails
    (Clean.new_note "/vault/Books/Dune.md" "# Dune")
    {[ "title" := PStr "Dune" ]} Sample.plain_note_disk _)).
  left. exists "# Dune". split; vm_compute; reflexivity.
Defined.

(** What returns [True] has passed every step and written the new
    content. *)
Lemma update_and_save_true repr_str yaml_safe_load yaml_dump
  (self : Clean.BookNote) (updates : dict) (w w' : world) :
  Clean.update_and_save repr_str yaml_safe_load yaml_dump self updates w
  = (true, w') →
  ∃ text, Clean.new_content repr_str yaml_safe_load yaml_dump self updates w
          = Ok (Some text) ∧
          files w' !! Clean.filepath self = Some text.
Proof.
  unfold Clean.update_and_save.
  destruct (Clean.new_content _ _ _ _ _ _) as [[text|]|]; [|done..].
  unfold write_file. destruct (fault w _); intros [= <-]; [|done..].
  exists text. split; [done|]. simpl. apply lookup_insert_eq.
Qed.

(** A [False] with the disk changed can only come from the final write. *)
Lemma update_and_save_false_no_fault repr_str yaml_safe_load yaml_dump
  (self : Clean.BookNote) (updates : dict) (w w' : world) :
  Clean.update_and_save repr_str yaml_safe_load yaml_dump self updates w
  = (false, w') →
  fault w (Clean.filepath self) ≠ WriteFails →
  w' = w.
Proof.
  unfold Clean.update_and_save.
  destruct (Clean.new_content _ _ _ _ _ _) as [[text|]|];
    [|by intros [= <-]..].
  unfold write_file. destruct (fault w _); [done|by intros [= <-]|done].
Qed.

(** * Cover acquisition *)

Lemma cover_filename_field_updates repr_str book api_data name :
  Clean.cover_filename repr_str book api_data = Ok name →
  is_Ok (Clean.field_updates repr_str book api_data).
Proof.
  unfold Clean.cover_filename, Clean.field_updates. intros H.
  apply bind_Ok in H as (t & _ & H).
  apply bind_Ok in H as (a & Ha & _).
  destruct (negb (Clean.nonempty_list (Clean.author book))
            && truthy (get_none api_data "authors")) eqn:Hcond;
    [|by eexists].
  apply andb_true_iff in Hcond as [_ Htruthy]. rewrite Htruthy in Ha.
  apply bind_Ok in Ha as (first & Hfirst & _).
  destruct (get_none api_data "authors") as [|s|n|l]; try done;
    cbn [iter bind]; by eexists.
Qed.

(** C8, as the code has it, for the cleaner: when the candidate has a
    cover URL and a file already exists at the path computed for it, the
    updates receive the local cover path and the world is left as it was:
    no request is logged. *)
Theorem cleaner_cover_acquisition_idempotent repr_str covers_dir cover_server
  (book : Clean.BookNote) (api_data : dict) (w : world) (name : string) :
  truthy (get_none api_data "coverUrl") = true →
  Clean.cover_filename repr_str book api_data = Ok name →
  exists_file (Clean.local_cover_path covers_dir name) w = true →
  ∃ updates,
    Clean.prepare_updates repr_str covers_dir cover_server book api_data w
    = (Ok updates, w) ∧
    updates !! "localCover" = Some (PStr (Clean.relative_cover_path name)) ∧
    fetched (Clean.prepare_updates repr_str covers_dir cover_server book
               api_data w).2 = fetched w.
Proof.
  intros Hurl Hname Hexists.
  destruct (cover_filename_field_updates _ _ _ _ Hname) as [updates Hupdates].
  unfold Clean.prepare_updates.
  rewrite Hupdates, Hurl, Hname, Hexists. cbn [negb].
  eexists. split; [done|]. split; [apply lookup_insert_eq|done].
Qed.

Lemma cleaner_cover_acquisition_idempotent_witness :
  ∃ updates,
    Clean.prepare_updates Sample.repr_str Sample.covers_dir Sample.server
      (Clean.new_note "" "") Sample.dune_api Sample.disk_with_cover
    = (Ok updates, Sample.disk_with_cover) ∧
    updates !! "localCover" = Some (PStr Sample.dune_cover_relative).
Proof.
  destruct (cleaner_cover_acquisition_idempotent Sample.repr_str
              Sample.covers_dir Sample.server (Clean.new_note "" "")
              Sample.dune_api Sample.disk_with_cover
              "Frank Herbert - Dune - 1965.jpg")
    as (updates & Hrun & Hcover & _).
  - vm_compute. reflexivity.
  - vm_compute. reflexivity.
  - vm_compute. reflexivity.
  - exists updates. split; assumption.
Defined.

(** C8 fails for the note creator: [create_book_note] never looks for the
    file. With the cover already at its path, the download is made again. *)
Lemma creator_downloads_existing_cover :
  exists_file Sample.dune_cover_path Sample.creator_disk = true ∧
  let run := Create.create_book_note_cover "/vault/Templates/New Book.md"
               Sample.covers_dir Sample.server Sample.dune_created
               Sample.creator_disk in
  run.1 = Ok Sample.dune_cover_relative ∧
  fetched Sample.creator_disk = [] ∧
  fetched run.2 = ["https://books.example/dune.jpg"].
Proof. repeat split; vm_compute; reflexivity. Qed.

(** * The backfill delta *)

Lemma offer_lookup_ne missing (api_data : dict) src dst (updates : dict) k :
  k ≠ dst → Clean.offer missing api_data src dst updates !! k = updates !! k.
Proof.
  intros Hk. unfold Clean.offer.
  destruct (missing && _); [|done]. by rewrite lookup_insert_ne.
Qed.

Lemma offer_lookup_eq missing (api_data : dict) src dst (updates : dict) :
  Clean.offer missing api_data src dst updates !! dst
  = if missing && truthy (get_none api_data src)
    then Some (get_none api_data src)
    else updates !! dst.
Proof.
  unfold Clean.offer. destruct (missing && _); [|done].
  apply lookup_insert_eq.
Qed.

(** Lookups in a chain of offers. *)
Ltac lookup_updates :=
  repeat first
    [ rewrite offer_lookup_ne by done
    | rewrite offer_lookup_eq
    | rewrite lookup_insert_ne by done
    | rewrite lookup_insert_eq
    | rewrite lookup_empty ].

(** Every entry of [updates] before the cover block: a field is there
    exactly when the note lacks it and the candidate supplies it. *)
Lemma field_updates_lookup repr_str book (api_data updates : dict) w :
  Clean.field_updates repr_str book api_data = Ok updates →
  (∀ f, f ≠ FLocalCover →
        updates !! field_key f
        = if negb (field_valid book w f)
             && truthy (get_none api_data (field_source f))
          then offered_value repr_str api_data f
          else None) ∧
  updates !! "localCover" = None.
Proof.
  unfold Clean.field_updates. intros H.
  apply bind_Ok in H as (u0 & Hauthor & [= <-]).
  destruct (negb (Clean.nonempty_list (Clean.author book))
            && truthy (get_none api_data "authors")) eqn:Hcond.
  - apply bind_Ok in Hauthor as (authors & Hiter & [= <-]).
    split.
    + intros f Hf.
      destruct f; try done; cbn [field_key field_source field_valid offered_value];
        rewrite ?Hiter, ?Hcond; lookup_updates; done.
    + by lookup_updates.
  - injection Hauthor as <-. split.
    + intros f Hf.
      destruct f; try done; cbn [field_key field_source field_valid offered_value];
        rewrite ?Hcond; lookup_updates; done.
    + by lookup_updates.
Qed.

(** The cover block adds at most the [localCover] entry. *)
Lemma prepare_updates_inv repr_str covers_dir cover_server book
  (api_data updates : dict) w w' :
  Clean.prepare_updates repr_str covers_dir cover_server book api_data w
  = (Ok updates, w') →
  ∃ u0, Clean.field_updates repr_str book api_data = Ok u0 ∧
        ∀ k, k ≠ "localCover" → updates !! k = u0 !! k.
Proof.
  unfold Clean.prepare_updates.
  destruct (Clean.field_updates repr_str book api_data) as [u0|]; [|done].
  intros H. exists u0. split; [done|]. intros k Hk.
  destruct (truthy (get_none api_data "coverUrl")); [|by injection H as <- _].
  destruct (Clean.cover_filename repr_str book api_data) as [name|]; [|done].
  destruct (negb _).
  - destruct (download_cover _ _ _ _) as [[] w1]; injection H as <- _;
      by rewrite ?lookup_insert_ne.
  - injection H as <- _. by rewrite lookup_insert_ne.
Qed.

(** On a candidate with a title and author names the preparation returns. *)
Lemma prepare_updates_total repr_str covers_dir cover_server book
  (api_data : dict) w :
  rankable api_data →
  ∃ updates w',
    Clean.prepare_updates repr_str covers_dir cover_server book api_data w
    = (Ok updates, w').
Proof.
  intros (t & l & Ht & Ha).
  assert (get_none api_data "authors" = str_list l) as Hauthors
    by (unfold get_none, get; by rewrite Ha).
  assert (is_Ok (Clean.cover_filename repr_str book api_data)) as [name Hname].
  { unfold Clean.cover_filename. rewrite Hauthors.
    assert (is_Ok (re_subject
                     (if Clean.present (Clean.title book)
                      then opt_str (Clean.title book)
                      else get api_data "title" (PStr "Unknown")))) as [t' ->].
    { destruct (Clean.title book) as [s|]; simpl.
      - destruct (Str.nonempty s); [by eexists|].
        unfold get. rewrite Ht. by eexists.
      - unfold get. rewrite Ht. by eexists. }
    cbn [bind].
    destruct l as [|a l]; cbn [str_list fmap list_fmap truthy length negb Nat.eqb].
    - destruct (Clean.author book); by eexists.
    - by eexists. }
  destruct (cover_filename_field_updates _ _ _ _ Hname) as [u0 Hu0].
  unfold Clean.prepare_updates. rewrite Hu0, Hname.
  destruct (truthy _); [|by eexists _, _].
  destruct (negb _); [|by eexists _, _].
  destruct (download_cover _ _ _ _) as [[] w1]; by eexists _, _.
Qed.

(** C4, as the code has it: a field other than the local cover path that
    is present and valid on the note is never in the delta, whatever the
    candidate supplies; and on a candidate with a title and author names
    the delta is produced. *)
Theorem guarded_fields_not_in_delta repr_str covers_dir cover_server
  (book : Clean.BookNote) (api_data : dict) (w : world) :
  (rankable api_data →
   ∃ updates w',
     Clean.prepare_updates repr_str covers_dir cover_server book api_data w
     = (Ok updates, w')) ∧
  ∀ (updates : dict) w' f,
    Clean.prepare_updates repr_str covers_dir cover_server book api_data w
    = (Ok updates, w') →
    f ≠ FLocalCover →
    field_valid book w f = true →
    updates !! field_key f = None.
Proof.
  split; [apply prepare_updates_total|].
  intros updates w' f Hrun Hf Hvalid.
  apply prepare_updates_inv in Hrun as (u0 & Hu0 & Hsame).
  rewrite Hsame by (by destruct f).
  destruct (field_updates_lookup _ _ _ _ w Hu0) as [Hlookup _].
  rewrite (Hlookup f Hf), Hvalid. done.
Qed.

Lemma guarded_fields_not_in_delta_witness :
  ∃ updates w',
    Clean.prepare_updates Sample.repr_str Sample.covers_dir Sample.server
      Sample.note_with_cover Sample.dune_api Sample.disk_with_note_cover
    = (Ok updates, w') ∧
    updates !! "title" = None ∧ updates !! "author" = None.
Proof.
  destruct (guarded_fields_not_in_delta Sample.repr_str Sample.covers_dir
              Sample.server Sample.note_with_cover Sample.dune_api
              Sample.disk_with_note_cover) as [Htotal Hguard].
  destruct Htotal as (updates & w' & Hrun).
  { exists "Dune", ["Frank Herbert"]. split; vm_compute; reflexivity. }
  exists updates, w'. split; [exact Hrun|]. split.
  - apply (Hguard updates w' FTitle Hrun); [discriminate|].
    vm_compute. reflexivity.
  - apply (Hguard updates w' FAuthor Hrun); [discriminate|].
    vm_compute. reflexivity.
Defined.

(** C4 fails for the local cover path: the note names a cover file that
    exists under the vault and misses other fields, so it is processed;
    the delta then holds [localCover], with the path the cleaner computes
    for the candidate, after a download. *)
Lemma valid_local_cover_in_delta :
  field_valid Sample.note_with_cover Sample.disk_with_note_cover FLocalCover
  = true ∧
  Clean.get_missing_fields Sample.note_with_cover Sample.disk_with_note_cover
  = ["ISBN"; "publisher"; "publish date"; "page count"; "cover URL"] ∧
  let run := Clean.prepare_updates Sample.repr_str Sample.covers_dir
               Sample.server Sample.note_with_cover Sample.dune_api
               Sample.disk_with_note_cover in
  ∃ updates, run.1 = Ok updates ∧
    updates !! field_key FLocalCover = Some (PStr Sample.dune_cover_relative) ∧
    fetched run.2 = ["https://books.example/dune.jpg"].
Proof.
  split; [vm_compute; reflexivity|].
  split; [vm_compute; reflexivity|].
  eexists. split; [vm_compute; reflexivity|].
  split; vm_compute; reflexivity.
Qed.

(** * Backfill, applied and repeated *)

Lemma backfill_applied_lookup repr_str (updates frontmatter : dict) k :
  backfill_applied repr_str updates frontmatter !! k
  = match updates !! k with
    | Some v => if Clean.is_none v then frontmatter !! k
                else Some (stored repr_str k v)
    | None => frontmatter !! k
    end.
Proof.
  unfold backfill_applied. revert k.
  apply (map_fold_weak_ind
           (λ r (m : dict), ∀ k, r !! k = match m !! k with
                             | Some v => if Clean.is_none v then frontmatter !! k
                                         else Some (stored repr_str k v)
                             | None => frontmatter !! k
                             end)).
  - intros k. by rewrite lookup_empty.
  - intros i x m r Hi IH k.
    destruct (decide (k = i)) as [->|Hk].
    + rewrite lookup_insert_eq. specialize (IH i). rewrite Hi in IH.
      unfold Clean.apply_update, stored.
      destruct x; cbn [Clean.is_none]; try done;
        repeat case_match; by rewrite lookup_insert_eq.
    + rewrite lookup_insert_ne by done. rewrite <- IH.
      unfold Clean.apply_update.
      destruct x; try done; repeat case_match; by rewrite lookup_insert_ne.
Qed.

Lemma field_valid_read repr_str f (frontmatter : dict) w :
  f ≠ FLocalCover →
  field_valid (note_of repr_str frontmatter) w f
  = read_valid repr_str f (frontmatter !! field_key f).
Proof. by destruct f. Qed.

Lemma truthy_not_none v : truthy v = true → Clean.is_none v = false.
Proof. by destruct v. Qed.

Lemma chars_nil s : chars s = [] → s = "".
Proof. by destruct s. Qed.

Lemma iter_truthy v l : truthy v = true → iter v = Ok l → l ≠ [].
Proof.
  destruct v as [|s|n|l']; try done; simpl.
  - intros Hs [= <-]. intros Hnil. apply fmap_nil_inv, chars_nil in Hnil.
    subst. done.
  - intros Hl [= <-]. by destruct l'.
Qed.

Lemma linked_reads_back repr_str authors :
  authors ≠ [] →
  Clean.nonempty_list (Clean._extract_list repr_str (linked repr_str authors))
  = true.
Proof.
  intros Hne. unfold linked, Clean._extract_list, Clean.nonempty_list.
  rewrite length_fmap.
  assert (∀ l : list pyval,
            filter (λ v, truthy v = true)
              ((λ a, PStr ("[[" +:+ py_str repr_str a +:+ "]]")) <$> l)
            = (λ a, PStr ("[[" +:+ py_str repr_str a +:+ "]]")) <$> l) as ->.
  { induction l as [|a l IH]; [done|].
    rewrite fmap_cons, filter_cons, IH. done. }
  rewrite length_fmap. by destruct authors.
Qed.

Lemma field_updates_authors repr_str book (api_data updates : dict) :
  Clean.field_updates repr_str book api_data = Ok updates →
  negb (Clean.nonempty_list (Clean.author book))
  && truthy (get_none api_data "authors") = true →
  ∃ authors, iter (get_none api_data "authors") = Ok authors ∧ authors ≠ [].
Proof.
  unfold Clean.field_updates. intros H Hcond.
  apply bind_Ok in H as (u0 & Hauthor & _). rewrite Hcond in Hauthor.
  apply bind_Ok in Hauthor as (authors & Hiter & _).
  exists authors. split; [done|].
  apply andb_true_iff in Hcond as [_ Htruthy].
  by eapply iter_truthy.
Qed.

Lemma cover_filename_is_Ok repr_str book (api_data : dict) :
  is_Ok (Clean.cover_filename repr_str book api_data) ↔
  is_Ok (re_subject
           (if Clean.present (Clean.title book)
            then opt_str (Clean.title book)
            else get api_data "title" (PStr "Unknown"))) ∧
  (truthy (get_none api_data "authors") = true →
   is_Ok (first_author <- getitem0 (get_none api_data "authors");;
          re_subject first_author)).
Proof.
  unfold Clean.cover_filename.
  destruct (re_subject _) as [t|e]; cbn [bind].
  2: { split; [by intros [? ?]|by intros [[? ?] _]]. }
  destruct (truthy (get_none api_data "authors")).
  - destruct (getitem0 _) as [first|e]; cbn [bind].
    + destruct (re_subject first) as [a|e]; cbn [bind].
      * split; [intros _; split; [by eexists|intros _; by eexists]|by eexists].
      * split; [by intros [? ?]|]. intros [_ H]. by destruct (H eq_refl).
    + split; [by intros [? ?]|]. intros [_ H]. by destruct (H eq_refl).
  - destruct (Clean.author book); cbn [bind];
      (split; [intros _; split; [by eexists|done]|by eexists]).
Qed.

(** With nothing to offer, the updates before the cover block are empty. *)
Lemma field_updates_empty repr_str book (api_data : dict) w :
  (∀ f, f ≠ FLocalCover →
        negb (field_valid book w f)
        && truthy (get_none api_data (field_source f)) = false) →
  Clean.field_updates repr_str book api_data = Ok ∅.
Proof.
  intros H. unfold Clean.field_updates, Clean.offer.
  pose proof (H FTitle) as H1. pose proof (H FSubtitle) as H2.
  pose proof (H FAuthor) as H3. pose proof (H FPublisher) as H4.
  pose proof (H FPublish) as H5. pose proof (H FTotal) as H6.
  pose proof (H FIsbn) as H7. pose proof (H FCover) as H8.
  pose proof (H FCategory) as H9.
  cbn [field_valid field_source] in *.
  rewrite H1, H2, H3 by done. cbn [bind].
  by rewrite H4, H5, H6, H7, H8, H9.
Qed.

Section repeated_backfill.

Context (repr_str : string → string) (covers_dir : string).
Context (cover_server : string → res string).
Context (frontmatter api_data updates : dict) (w w1 : world).

Hypothesis first_run :
  backfill repr_str covers_dir cover_server frontmatter api_data w
  = (Ok updates, w1).
Hypothesis read_back : reads_back repr_str api_data.

Lemma first_delta_lookup f :
  f ≠ FLocalCover →
  updates !! field_key f
  = if negb (field_valid (note_of repr_str frontmatter) w f)
       && truthy (get_none api_data (field_source f))
    then offered_value repr_str api_data f
    else None.
Proof.
  intros Hf. unfold backfill in first_run.
  destruct (prepare_updates_inv _ _ _ _ _ _ _ _ first_run) as (u0 & Hu0 & Hsame).
  rewrite Hsame by (by destruct f).
  by apply (field_updates_lookup _ _ _ _ w Hu0).
Qed.

Lemma offered_value_stored f v :
  f ≠ FLocalCover →
  negb (field_valid (note_of repr_str frontmatter) w f)
  && truthy (get_none api_data (field_source f)) = true →
  offered_value repr_str api_data f = Some v →
  Clean.is_none v = false ∧
  read_valid repr_str f (Some (stored repr_str (field_key f) v)) = true.
Proof.
  intros Hf Hcond Hv.
  pose proof Hcond as [_ Htruthy]%andb_true_iff.
  destruct read_back as [Hvalue Hlist].
  destruct f; try done; cbn [offered_value field_source field_key] in *;
    try (injection Hv as <-; split; [by apply truthy_not_none|];
         assert (∀ v, stored repr_str "title" v = v
                      ∧ stored repr_str "subtitle" v = v
                      ∧ stored repr_str "publisher" v = v
                      ∧ stored repr_str "publish" v = v
                      ∧ stored repr_str "total" v = v
                      ∧ stored repr_str "isbn" v = v
                      ∧ stored repr_str "cover" v = v) as Hstored
           by (by intros []);
         cbn [read_valid default]).
  - rewrite (proj1 (Hstored _)). apply Hvalue; [in_list|done].
  - rewrite (proj1 (proj2 (Hstored _))). apply Hvalue; [in_list|done].
  - unfold backfill in first_run.
    destruct (prepare_updates_inv _ _ _ _ _ _ _ _ first_run) as (u0 & Hu0 & _).
    destruct (field_updates_authors _ _ _ _ Hu0 Hcond) as (authors & Hiter & Hne).
    rewrite Hiter in Hv. injection Hv as <-. split; [done|].
    cbn [read_valid default stored linked]. by apply linked_reads_back.
  - rewrite (proj1 (proj2 (proj2 (Hstored _)))). apply Hvalue; [in_list|done].
  - rewrite (proj1 (proj2 (proj2 (proj2 (Hstored _))))).
    apply Hvalue; [in_list|done].
  - by rewrite (proj1 (proj2 (proj2 (proj2 (proj2 (Hstored _)))))).
  - rewrite (proj1 (proj2 (proj2 (proj2 (proj2 (proj2 (Hstored _))))))).
    apply Hvalue; [in_list|done].
  - rewrite (proj2 (proj2 (proj2 (proj2 (proj2 (proj2 (Hstored _))))))).
    apply Hvalue; [in_list|done].
  - specialize (Hlist Htruthy).
    destruct (get_none api_data "categories"); done.
Qed.

(** A field valid before the update is valid after it. *)
Lemma valid_stays_valid f w' :
  f ≠ FLocalCover →
  field_valid (note_of repr_str frontmatter) w f = true →
  field_valid (note_of repr_str (backfill_applied repr_str updates frontmatter)) w' f = true.
Proof.
  intros Hf Hvalid. rewrite field_valid_read in Hvalid |- * by done.
  rewrite backfill_applied_lookup.
  rewrite first_delta_lookup by done.
  rewrite field_valid_read by done. by rewrite Hvalid.
Qed.

(** After the update no field is both missing and supplied. *)
Lemma nothing_left_to_offer f w' :
  f ≠ FLocalCover →
  negb (field_valid (note_of repr_str (backfill_applied repr_str updates frontmatter)) w' f)
  && truthy (get_none api_data (field_source f)) = false.
Proof.
  intros Hf.
  destruct (truthy (get_none api_data (field_source f))) eqn:Htruthy;
    [|by rewrite andb_false_r].
  rewrite andb_true_r. apply negb_false_iff.
  destruct (field_valid (note_of repr_str frontmatter) w f) eqn:Hvalid;
    [by apply valid_stays_valid|].
  assert (negb (field_valid (note_of repr_str frontmatter) w f)
          && truthy (get_none api_data (field_source f)) = true) as Hcond
    by (by rewrite Hvalid, Htruthy).
  pose proof (first_delta_lookup f Hf) as Hlookup. rewrite Hcond in Hlookup.
  destruct (offered_value repr_str api_data f) as [v|] eqn:Hv.
  - destruct (offered_value_stored f v Hf Hcond Hv) as [Hnone Hread].
    rewrite field_valid_read by done.
    rewrite backfill_applied_lookup, Hlookup, Hnone. done.
  - destruct f; try done. cbn [offered_value field_source] in *.
    unfold backfill in first_run.
    destruct (prepare_updates_inv _ _ _ _ _ _ _ _ first_run) as (u0 & Hu0 & _).
    destruct (field_updates_authors _ _ _ _ Hu0 Hcond) as (authors & Hiter & _).
    by rewrite Hiter in Hv.
Qed.

Lemma second_cover_filename :
  truthy (get_none api_data "coverUrl") = true →
  is_Ok (Clean.cover_filename repr_str (note_of repr_str (backfill_applied repr_str updates frontmatter)) api_data).
Proof.
  intros Hurl.
  assert (is_Ok (Clean.cover_filename repr_str (note_of repr_str frontmatter)
                   api_data)) as Hfirst.
  { unfold backfill, Clean.prepare_updates in first_run.
    destruct (Clean.field_updates _ _ _); [|done].
    rewrite Hurl in first_run.
    destruct (Clean.cover_filename _ _ _); [by eexists|done]. }
  apply cover_filename_is_Ok in Hfirst as [Htitle Hauthor].
  apply cover_filename_is_Ok. split; [|done].
  destruct (Clean.present (Clean.title (note_of repr_str (backfill_applied repr_str updates frontmatter))))
    eqn:Hpresent.
  - destruct (Clean.title (note_of repr_str (backfill_applied repr_str updates frontmatter))); [by eexists|done].
  - destruct (Clean.present (Clean.title (note_of repr_str frontmatter)))
      eqn:Hbefore; [|done].
    pose proof (valid_stays_valid FTitle w ltac:(done) Hbefore) as Hafter.
    cbn [field_valid] in Hafter. congruence.
Qed.

Lemma second_run :
  ∃ updates2 w2,
    backfill repr_str covers_dir cover_server (backfill_applied repr_str updates frontmatter) api_data w1
    = (Ok updates2, w2) ∧
    ∀ k, k ≠ "localCover" → updates2 !! k = None.
Proof.
  unfold backfill, Clean.prepare_updates.
  rewrite (field_updates_empty _ _ _ w1)
    by (intros f Hf; by apply nothing_left_to_offer).
  destruct (truthy (get_none api_data "coverUrl")) eqn:Hurl.
  2: { eexists _, _. split; [done|]. intros k _. apply lookup_empty. }
  destruct (second_cover_filename Hurl) as [name ->].
  destruct (negb _).
  - destruct (download_cover _ _ _ _) as [[] w2]; eexists _, _;
      (split; [done|]); intros k Hk;
      by rewrite ?lookup_insert_ne, lookup_empty.
  - eexists _, _. split; [done|]. intros k Hk.
    by rewrite lookup_insert_ne, lookup_empty.
Qed.

End repeated_backfill.


Lemma dune_api_reads_back : reads_back Sample.repr_str Sample.dune_api.
Proof.
  split.
  - intros src Hsrc Htruthy.
    repeat (apply elem_of_cons in Hsrc as [->|Hsrc];
            [vm_compute in Htruthy |- *;
             first [reflexivity | discriminate Htruthy]|]).
    by apply elem_of_nil in Hsrc.
  - intros _. vm_compute. reflexivity.
Defined.



(** * Further properties of the deduplication *)

Lemma key_of_Ok c k : Create.dedup_key c = Ok k → key_of c = k.
Proof. unfold key_of. by intros ->. Qed.

(** The key of a candidate is never the empty string: the title key holds
    an underscore at least. *)
Lemma dedup_key_nonempty c k : Create.dedup_key c = Ok k → k ≠ "".
Proof.
  unfold Create.dedup_key. intros H.
  apply bind_Ok in H as (isbn & _ & H).
  apply bind_Ok in H as (title & _ & H).
  apply bind_Ok in H as (first & _ & H).
  apply bind_Ok in H as (author & _ & H).
  injection H as <-.
  destruct (Str.nonempty _) eqn:Hne; [by apply nonempty_true|].
  by destruct (Str.strip (Str.lower title)).
Qed.

Lemma dedup_loop_invariant (l : list dict) :
  Forall (λ c, is_Ok (Create.dedup_key c)) l →
  ∀ (seen : gset string) (acc : list dict),
  ∃ out, Create.dedup_loop l seen acc = Ok (acc ++ out) ∧
    out `sublist_of` l ∧
    NoDup (key_of <$> out) ∧
    (∀ c, c ∈ out → key_of c ∉ seen) ∧
    (∀ c, c ∈ l → key_of c ∈ seen ∨ key_of c ∈ key_of <$> out).
Proof.
  induction 1 as [|c l [k0 Hk0] _ IH]; intros seen acc.
  - exists []. rewrite app_nil_r. repeat split; try done.
    + constructor.
    + by intros c Hc%elem_of_nil.
    + by intros c Hc%elem_of_nil.
  - cbn [Create.dedup_loop]. rewrite Hk0. cbn [bind].
    pose proof (key_of_Ok _ _ Hk0) as Hkey.
    pose proof (dedup_key_nonempty _ _ Hk0) as Hne%nonempty_true.
    rewrite Hne. cbn [andb].
    destruct (decide (k0 ∈ seen)) as [Hseen|Hseen].
    + rewrite bool_decide_eq_false_2 by (by intros ?).
      destruct (IH seen acc) as (out & Hrun & Hsub & Hnd & Hfresh & Hall).
      exists out. repeat split; try done.
      * by apply sublist_cons.
      * intros c' [->|Hc']%elem_of_cons; [left; by rewrite Hkey|by apply Hall].
    + rewrite bool_decide_eq_true_2 by done.
      destruct (IH ({[k0]} ∪ seen) (acc ++ [c]))
        as (out & Hrun & Hsub & Hnd & Hfresh & Hall).
      exists (c :: out). split; [by rewrite Hrun, <- app_assoc|].
      split; [by apply sublist_skip|].
      split; [|split].
      * rewrite fmap_cons. apply NoDup_cons. split; [|done].
        intros (c' & Hk' & Hc')%list_elem_of_fmap.
        apply (Hfresh c' Hc'). rewrite <- Hk', Hkey.
        apply elem_of_union_l, elem_of_singleton. done.
      * intros c' [->|Hc']%elem_of_cons; [by rewrite Hkey|].
        intros Hin. apply (Hfresh c' Hc'). by apply elem_of_union_r.
      * intros c' [->|Hc']%elem_of_cons.
        -- right. rewrite fmap_cons. by left.
        -- destruct (Hall c' Hc') as [[Hk%elem_of_singleton|Hs]%elem_of_union|Hin].
           ++ right. rewrite fmap_cons, Hk, Hkey. by left.
           ++ by left.
           ++ right. rewrite fmap_cons. by right.
Qed.

(** X1: on candidates whose keys can be computed the deduplication
    returns a sub-list of its input in which no two candidates share a
    key and every key of the input is still represented; no candidate is
    dropped for an empty key, since no key is empty. *)
Theorem deduplicate_sublist_distinct_complete (l : list dict) :
  Forall (λ c, is_Ok (Create.dedup_key c)) l →
  ∃ out, Create.deduplicate l = Ok out ∧
    out `sublist_of` l ∧
    NoDup (key_of <$> out) ∧
    (∀ c, c ∈ l → key_of c ≠ "" ∧ key_of c ∈ key_of <$> out).
Proof.
  intros Hl.
  destruct (dedup_loop_invariant l Hl ∅ []) as (out & Hrun & Hsub & Hnd & _ & Hall).
  exists out. repeat split; try done.
  - rewrite Forall_forall in Hl. destruct (Hl c H) as [k Hk].
    rewrite (key_of_Ok _ _ Hk). by eapply dedup_key_nonempty.
  - destruct (Hall c H) as [Hin|Hin]; [by apply elem_of_empty in Hin|done].
Qed.

Lemma deduplicate_sublist_distinct_complete_witness :
  ∃ out, Create.deduplicate
           [Sample.dune_plain; Sample.dune_hyphenated; Sample.dune_plain]
         = Ok out ∧
         NoDup (key_of <$> out).
Proof.
  destruct (deduplicate_sublist_distinct_complete
              [Sample.dune_plain; Sample.dune_hyphenated; Sample.dune_plain])
    as (out & Hrun & _ & Hnd & _).
  - repeat (apply Forall_cons; split; [eexists; vm_compute; reflexivity|]).
    apply List.Forall_nil.
  - exists out. split; assumption.
Defined.

Lemma dedup_loop_distinct (l : list dict) :
  Forall (λ c, is_Ok (Create.dedup_key c)) l →
  NoDup (key_of <$> l) →
  ∀ (seen : gset string) (acc : list dict),
    (∀ c, c ∈ l → key_of c ∉ seen) →
    Create.dedup_loop l seen acc = Ok (acc ++ l).
Proof.
  induction 1 as [|c l [k0 Hk0] _ IH]; intros Hnd seen acc Hfresh.
  - by rewrite app_nil_r.
  - cbn [Create.dedup_loop]. rewrite Hk0. cbn [bind].
    pose proof (key_of_Ok _ _ Hk0) as Hkey.
    pose proof (dedup_key_nonempty _ _ Hk0) as Hne%nonempty_true.
    rewrite fmap_cons in Hnd. apply NoDup_cons in Hnd as [Hnotin Hnd].
    rewrite Hne, bool_decide_eq_true_2.
    2: { rewrite <- Hkey. apply Hfresh. by left. }
    cbn [andb]. rewrite IH; [by rewrite <- app_assoc|done|].
    intros c' Hc' [Hk%elem_of_singleton|Hs]%elem_of_union.
    + apply Hnotin. rewrite Hkey, <- Hk. by apply list_elem_of_fmap_2.
    + apply (Hfresh c'); [by right|done].
Qed.

(** X2: deduplicating twice changes nothing: the output of the
    deduplication is a fixed point of it. *)
Theorem deduplicate_idempotent (l out : list dict) :
  Forall (λ c, is_Ok (Create.dedup_key c)) l →
  Create.deduplicate l = Ok out →
  Create.deduplicate out = Ok out.
Proof.
  intros Hl Hrun.
  destruct (dedup_loop_invariant l Hl ∅ [])
    as (out' & Hrun' & Hsub & Hnd & _).
  unfold Create.deduplicate in Hrun. rewrite Hrun in Hrun'.
  injection Hrun' as <-.
  unfold Create.deduplicate.
  rewrite (dedup_loop_distinct out); [done| |done|].
  - rewrite Forall_forall in Hl |- *. intros c Hc.
    apply Hl. by eapply elem_of_sublist.
  - intros c _. apply not_elem_of_empty.
Qed.

Lemma deduplicate_idempotent_witness :
  Create.deduplicate [Sample.dune_plain; Sample.dune_hyphenated]
  = Ok [Sample.dune_plain; Sample.dune_hyphenated].
Proof.
  apply (deduplicate_idempotent
           [Sample.dune_plain; Sample.dune_hyphenated; Sample.dune_plain]).
  - repeat (apply Forall_cons; split; [eexists; vm_compute; reflexivity|]).
    apply List.Forall_nil.
  - vm_compute. reflexivity.
Defined.

(** * Further properties of the ranking *)

Lemma digit_value c :
  Str.isdigit c = true → 0 ≤ Z.of_nat (Str.code c - 48) ≤ 9.
Proof.
  unfold Str.isdigit, Str.between. intros [H1 H2]%andb_true_iff.
  apply Nat.leb_le in H1, H2. lia.
Qed.

Lemma first_d4_year s m :
  Str.first_d4 s = Some m → 0 ≤ Str.int_of m ≤ 9999.
Proof.
  induction s as [|x s IH]; [done|].
  cbn [Str.first_d4]. destruct (Str.digits4 (String x s)) eqn:Hd; [|done].
  intros [= <-]. unfold Str.digits4 in Hd.
  destruct s as [|b [|c [|d s]]]; try done.
  apply andb_true_iff in Hd as [[[Ha Hb]%andb_true_iff Hc]%andb_true_iff Hd].
  apply digit_value in Ha, Hb, Hc, Hd.
  cbn [Str.slice_to Str.int_of Str.int_digits]. lia.
Qed.

(** X3: whenever the score of a candidate is computed it lies between
    -1900 and 155: the date can cost up to 1900 points (a year 0000) and
    never earns more than 25. *)
Theorem relevance_score_bounds title author (book : dict) s :
  Create.relevance_score title author book = Ok s → -1900 ≤ s ≤ 155.
Proof.
  unfold Create.relevance_score. intros H.
  apply bind_Ok in H as (t & _ & H).
  apply bind_Ok in H as (s1 & Hs1 & H).
  injection H as <-.
  assert (0 ≤ s1 ≤ 130) as Hb1.
  { destruct (Str.nonempty author).
    - apply bind_Ok in Hs1 as (authors & _ & Hs1).
      apply bind_Ok in Hs1 as (names & _ & Hs1).
      injection Hs1 as <-. repeat case_match; lia.
    - injection Hs1 as <-. repeat case_match; lia. }
  destruct (truthy _); [|lia].
  destruct (get book "publishedDate" (PStr "")) as [|d|n|l]; cbn; try lia.
  destruct (Str.first_d4 d) as [m|] eqn:Hm; cbn; [|lia].
  apply first_d4_year in Hm. lia.
Qed.

Lemma relevance_score_bounds_witness :
  Create.relevance_score "Dune" "" Sample.dune_1800 = Ok 0 ∧
  -1900 ≤ 0 ≤ 155.
Proof.
  split; [vm_compute; reflexivity|].
  apply (relevance_score_bounds "Dune" "" Sample.dune_1800).
  vm_compute. reflexivity.
Defined.

(** X4: the whole of deduplication and ranking, on candidates with a
    title, author names and a computable key: at most five candidates come
    back, each one from the collected list, no two with the same key, in
    descending order of the reference score. *)
Theorem rank_results_bounded_distinct title author (all_results : list dict) :
  Forall (λ c, rankable c ∧ is_Ok (Create.dedup_key c)) all_results →
  ∃ out, Create.rank_results title author all_results = Ok out ∧
    (length out ≤ 5)%nat ∧
    (∀ c, c ∈ out → c ∈ all_results) ∧
    NoDup (key_of <$> out) ∧
    StronglySorted
      (λ a b, reference_score title author b ≤ reference_score title author a)
      out.
Proof.
  intros Hall.
  assert (Forall (λ c, is_Ok (Create.dedup_key c)) all_results) as Hkeys
    by (eapply Forall_impl; [done|]; by intros c [_ ?]).
  destruct (dedup_loop_invariant _ Hkeys ∅ [])
    as (unique & Hdedup & Hsub & Hnd & _).
  assert (Forall rankable unique) as Hrankable.
  { rewrite Forall_forall in Hall |- *. intros c Hc.
    apply Hall. by eapply elem_of_sublist. }
  destruct (rank_spec title author unique Hrankable)
    as [_ (sorted & _ & Hrank & Hperm & Hdesc & _ & Hlen)].
  exists (take 5 sorted). unfold Create.rank_results, Create.deduplicate.
  rewrite Hdedup. cbn [bind app]. split; [done|]. split; [done|].
  split; [|split].
  - intros c Hc. apply (elem_of_sublist unique); [|done].
    rewrite <- Hperm. by eapply elem_of_sublist; [|apply sublist_take].
  - assert (key_of <$> take 5 sorted `sublist_of` key_of <$> sorted) as Hs
      by apply fmap_sublist, sublist_take.
    eapply sublist_NoDup; [|exact Hs]. by rewrite Hperm.
  - rewrite <- (take_drop 5 sorted) in Hdesc.
    by apply StronglySorted_app_1_l in Hdesc.
Qed.

Lemma rank_results_bounded_distinct_witness :
  ∃ out, Create.rank_results "Dune" "Herbert"
           [Sample.dune_plain; Sample.dune_hyphenated; Sample.dune_plain]
         = Ok out ∧ (length out ≤ 5)%nat.
Proof.
  destruct (rank_results_bounded_distinct "Dune" "Herbert"
              [Sample.dune_plain; Sample.dune_hyphenated; Sample.dune_plain])
    as (out & Hrun & Hlen & _).
  - repeat (apply Forall_cons; split;
            [split; [exists "Dune", ["Frank Herbert"];
                     split; vm_compute; reflexivity
                    |eexists; vm_compute; reflexivity]|]).
    apply List.Forall_nil.
  - exists out. split; assumption.
Defined.

(** * Further properties of the adapters *)

Lemma dom_insert_present (d : dict) k (v : pyval) :
  k ∈ dom d → dom (<[k := v]> d) = dom d.
Proof. intros Hk. rewrite dom_insert_L. set_solver. Qed.

Ltac dom_of_literal :=
  repeat first [rewrite dom_insert_L | rewrite dom_singleton_L];
  unfold candidate_keys, creator_keys; cbn [list_to_set];
  by rewrite union_empty_r_L.

Ltac dom_of_result base Hbase :=
  rewrite ?dom_insert_present;
  rewrite ?Hbase; try done;
  unfold candidate_keys, creator_keys; rewrite elem_of_list_to_set; in_list.


(** * ISBN normalization of [search_by_isbn] *)

Lemma filter_chars_app f a b :
  Str.filter_chars f (a +:+ b) = Str.filter_chars f a +:+ Str.filter_chars f b.
Proof.
  induction a as [|c a IH]; [done|].
  simpl. rewrite IH. by destruct (f c).
Qed.

Lemma map_chars_app f a b :
  Str.map_chars f (a +:+ b) = Str.map_chars f a +:+ Str.map_chars f b.
Proof.
  induction a as [|c a IH]; [done|].
  simpl. by rewrite IH.
Qed.

Lemma all_chars_filter f s : Str.all_chars f (Str.filter_chars f s) = true.
Proof.
  induction s as [|c s IH]; [done|].
  cbn [Str.filter_chars]. destruct (f c) eqn:Hc; [|done].
  cbn [Str.all_chars]. by rewrite Hc, IH.
Qed.

Lemma filter_chars_all f s :
  Str.all_chars f s = true → Str.filter_chars f s = s.
Proof.
  induction s as [|c s IH]; [done|].
  cbn [Str.all_chars Str.filter_chars]. intros [Hc Hs]%andb_true_iff.
  by rewrite Hc, IH.
Qed.

Lemma isbn_char_upper c : isbn_char c = true → Str.upper_char c = c.
Proof.
  unfold isbn_char, Str.upper_char, Str.isdigit, Str.between.
  intros [[H1 H2]%andb_true_iff|Hx%Ascii.eqb_eq]%orb_true_iff.
  - apply Nat.leb_le in H1, H2.
    destruct (Nat.leb 97 (Str.code c)) eqn:H3; [|done].
    apply Nat.leb_le in H3. lia.
  - by subst.
Qed.

Lemma upper_isbn_chars s :
  Str.all_chars isbn_char s = true → Str.upper s = s.
Proof.
  induction s as [|c s IH]; [done|].
  cbn [Str.all_chars]. intros [Hc Hs]%andb_true_iff.
  unfold Str.upper in *. cbn [Str.map_chars].
  by rewrite (isbn_char_upper _ Hc), IH.
Qed.

(** X6: the ISBN cleaning of [search_by_isbn] keeps digits and X only and
    is idempotent, so that searching for a cleaned ISBN is searching for
    the ISBN; and it works piece by piece: on the joined string the
    adapters write for two variants it yields the two numbers run
    together, not one of them. *)
Theorem isbn_clean_idempotent_charset isbn :
  Str.all_chars isbn_char (Clean.isbn_clean isbn) = true ∧
  Clean.isbn_clean (Clean.isbn_clean isbn) = Clean.isbn_clean isbn ∧
  (∀ i10 i13,
     Clean.isbn_clean (i10 +:+ ", " +:+ i13)
     = Clean.isbn_clean i10 +:+ Clean.isbn_clean i13) ∧
  ∀ google isbn_api author_api,
    Clean.search_by_isbn google isbn_api author_api (Clean.isbn_clean isbn)
    = Clean.search_by_isbn google isbn_api author_api isbn.
Proof.
  assert (Str.all_chars isbn_char (Clean.isbn_clean isbn) = true) as Hchars
    by apply all_chars_filter.
  assert (Clean.isbn_clean (Clean.isbn_clean isbn) = Clean.isbn_clean isbn)
    as Hidem.
  { unfold Clean.isbn_clean at 1.
    rewrite (upper_isbn_chars _ Hchars). by apply filter_chars_all. }
  split; [done|]. split; [done|]. split.
  - intros i10 i13. unfold Clean.isbn_clean, Str.upper.
    by rewrite !map_chars_app, !filter_chars_app.
  - intros google isbn_api author_api. unfold Clean.search_by_isbn.
    by rewrite Hidem.
Qed.

(** * Reading a note *)

(** X7: a note is reported complete exactly when its title, author, ISBN,
    publisher, publish date, page count and cover URL are present and its
    local cover path names a file that exists; the subtitle and the
    category, which the cleaner also fills, never count as missing. *)
Theorem get_missing_fields_empty (self : Clean.BookNote) (w : world) :
  Clean.get_missing_fields self w = [] ↔
  ∀ f, f ∈ reported_fields → field_valid self w f = true.
Proof.
  unfold Clean.get_missing_fields, reported_fields. split.
  - intros H.
    repeat (apply app_eq_nil in H as [? H]).
    intros f Hf.
    repeat (apply elem_of_cons in Hf as [->|Hf]); cbn [field_valid];
      try (by apply elem_of_nil in Hf);
      try (by match goal with
              | Hx : (if negb ?b then _ else _) = [] |- ?b = true =>
                  destruct b
              end).
    destruct (Clean.present (Clean.localCover self)); [|done].
    cbn [negb andb] in *. by destruct (exists_file _ w).
  - intros H.
    pose proof (H FTitle ltac:(in_list)) as H1.
    pose proof (H FAuthor ltac:(in_list)) as H2.
    pose proof (H FIsbn ltac:(in_list)) as H3.
    pose proof (H FPublisher ltac:(in_list)) as H4.
    pose proof (H FPublish ltac:(in_list)) as H5.
    pose proof (H FTotal ltac:(in_list)) as H6.
    pose proof (H FCover ltac:(in_list)) as H7.
    pose proof (H FLocalCover ltac:(in_list)) as [H8 H9]%andb_true_iff.
    cbn [field_valid] in *.
    by rewrite H1, H2, H3, H4, H5, H6, H7, H8, H9.
Qed.

(** X8: a note file that does not open with a frontmatter block, whose
    block is not closed, whose YAML does not parse or is an empty
    mapping, is read as a note with its content and no field: all eight
    reported fields are missing. *)
Theorem from_file_without_frontmatter repr_str yaml_safe_load path text w :
  read_file path w = Ok text →
  Str.startswith "---" text = false ∨
  Str.index_from "---" 3 text = Raise ValueError ∨
  (∃ end_index, Str.index_from "---" 3 text = Ok end_index ∧
     (yaml_safe_load (Clean.frontmatter_text text end_index) = Raise YAMLError ∨
      yaml_safe_load (Clean.frontmatter_text text end_index) = Ok (Clean.YMap ∅))) →
  Clean.from_file repr_str yaml_safe_load path w = Ok (Clean.new_note path text) ∧
  Clean.get_missing_fields (Clean.new_note path text) w
  = ["title"; "author"; "ISBN"; "publisher"; "publish date"; "page count";
     "cover URL"; "local cover path"].
Proof.
  intros Hread Hcase. split; [|done].
  unfold Clean.from_file. rewrite Hread. cbn [bind].
  destruct Hcase as [->|[Hindex|(end_index & Hindex & [Hyaml|Hyaml])]];
    [done|..]; destruct (Str.startswith "---" text); try done;
    rewrite Hindex; cbn [bind]; try done; by rewrite Hyaml.
Qed.

Lemma from_file_without_frontmatter_witness :
  Clean.from_file Sample.repr_str Sample.yaml_fails "/vault/Books/Dune.md"
    Sample.plain_note_disk
  = Ok (Clean.new_note "/vault/Books/Dune.md" "# Dune").
Proof.
  refine (proj1 (from_file_without_frontmatter Sample.repr_str
    Sample.yaml_fails "/vault/Books/Dune.md" "# Dune" Sample.plain_note_disk
    _ _)).
  - vm_compute. reflexivity.
  - left. vm_compute. reflexivity.
Defined.

(** X9: [from_file] raises in three cases only: the file cannot be read;
    the YAML loader raises something other than a [YAMLError] or a
    [ValueError]; or the frontmatter is a non-empty document that is not a
    mapping, on which [.get] is an [AttributeError]. *)
Theorem from_file_raises repr_str yaml_safe_load path w e :
  Clean.from_file repr_str yaml_safe_load path w = Raise e →
  read_file path w = Raise e ∨
  ∃ text end_index,
    read_file path w = Ok text ∧
    Str.index_from "---" 3 text = Ok end_index ∧
    ((yaml_safe_load (Clean.frontmatter_text text end_index) = Raise e ∧
      e ≠ ValueError ∧ e ≠ YAMLError) ∨
     (∃ v, yaml_safe_load (Clean.frontmatter_text text end_index)
           = Ok (Clean.YValue v) ∧
           truthy v = true ∧ e = AttributeError)).
Proof.
  unfold Clean.from_file.
  destruct (read_file path w) as [text|e'] eqn:Hread; cbn [bind].
  2: { intros [= ->]. by left. }
  intros H. right. exists text.
  destruct (Str.startswith "---" text); [|done].
  destruct (Str.index_from "---" 3 text) as [end_index|e'] eqn:Hindex;
    cbn [bind] in H.
  2: { unfold Str.index_from in Hindex.
       destruct (Str.find _ _); [done|]. injection Hindex as <-. done. }
  exists end_index. split; [done|]. split; [done|].
  destruct (yaml_safe_load _) as [[m|v]|e'] eqn:Hyaml; cbn [bind] in H.
  - done.
  - right. exists v. destruct (truthy v); [|done].
    injection H as <-. done.
  - left. destruct e'; try done; injection H as <-; done.
Qed.

Lemma from_file_raises_witness :
  read_file "/vault/Books/Missing.md" Sample.plain_note_disk = Raise OSError.
Proof.
  destruct (from_file_raises Sample.repr_str Sample.yaml_fails
              "/vault/Books/Missing.md" Sample.plain_note_disk OSError)
    as [H|(text & end_index & H & _)].
  - vm_compute. reflexivity.
  - exact H.
  - exfalso. vm_compute in H. discriminate H.
Defined.

(** * Rewriting a note *)

Lemma prefix_split p s :
  String.prefix p s = true → s = p +:+ Str.slice_from (String.length p) s.
Proof.
  revert s. induction p as [|c p IH]; intros s; [by destruct s|].
  destruct s as [|c' s]; [done|]. cbn [String.prefix].
  destruct (ascii_dec c c') as [->|]; [|done].
  intros H.
  change (String c' s = String c' (p +:+ Str.slice_from (String.length p) s)).
  f_equal. by apply IH.
Qed.

Lemma find_split sub s i :
  Str.find sub s = Some i →
  s = Str.slice_to i s +:+ sub
      +:+ Str.slice_from (i + String.length sub) s.
Proof.
  revert i. induction s as [|c s IH]; intros i; cbn [Str.find].
  - destruct (String.prefix sub "") eqn:Hp; [|done].
    intros [= <-]. by apply prefix_split in Hp.
  - destruct (String.prefix sub (String c s)) eqn:Hp.
    + intros [= <-]. by apply prefix_split in Hp.
    + destruct (Str.find sub s) as [j|]; [|done].
      intros [= <-].
      change (String c s
              = String c (Str.slice_to j s +:+ sub
                          +:+ Str.slice_from (j + String.length sub) s)).
      f_equal. by apply IH.
Qed.

Lemma slice_from_add a b s :
  Str.slice_from (a + b) s = Str.slice_from b (Str.slice_from a s).
Proof.
  revert s. induction a as [|a IH]; intros s; [by destruct s|].
  destruct s as [|c s]; [by destruct b|]. apply IH.
Qed.

(** How [from_file] and [update_and_save] cut a note: the opening marker,
    the frontmatter, the closing marker and the body make up the text. *)
Lemma frontmatter_split text end_index :
  Str.startswith "---" text = true →
  Str.index_from "---" 3 text = Ok end_index →
  text = "---" +:+ Clean.frontmatter_text text end_index +:+ "---"
         +:+ Clean.body_text text end_index.
Proof.
  unfold Str.startswith, Str.index_from. intros Hstart Hindex.
  destruct (Str.find "---" (Str.slice_from 3 text)) as [i|] eqn:Hfind; [|done].
  assert (end_index = (i + 3)%nat) as -> by (injection Hindex; lia).
  apply prefix_split in Hstart. apply find_split in Hfind.
  unfold Clean.frontmatter_text, Clean.body_text.
  replace (i + 3 - 3)%nat with i by lia.
  replace (i + 3 + 3)%nat with (3 + (i + 3))%nat by lia.
  rewrite slice_from_add.
  cbn [String.length] in Hstart, Hfind. by rewrite <- Hfind.
Qed.



Lemma some_value_not_none (updates : dict) :
  map_fold (λ _ value found, found || negb (Clean.is_none value)) false updates
  = true ↔
  ∃ k v, updates !! k = Some v ∧ Clean.is_none v = false.
Proof.
  apply (map_fold_weak_ind
           (λ r (m : dict),
              r = true ↔ ∃ k v, m !! k = Some v ∧ Clean.is_none v = false)).
  - split; [done|]. intros (k & v & Hk & _). by rewrite lookup_empty in Hk.
  - intros i x m r Hi IH. rewrite orb_true_iff, IH, negb_true_iff. split.
    + intros [(k & v & Hk & Hv)|Hx].
      * exists k, v. split; [|done]. rewrite lookup_insert_ne; [done|].
        intros ->. by rewrite Hi in Hk.
      * exists i, x. by rewrite lookup_insert_eq.
    + intros (k & v & Hk & Hv).
      destruct (decide (k = i)) as [->|Hne].
      * rewrite lookup_insert_eq in Hk. injection Hk as ->. by right.
      * rewrite lookup_insert_ne in Hk by done. left. by exists k, v.
Qed.

(** X11: the update loop of [update_and_save] on a frontmatter mapping
    changes exactly the keys whose update is not None: such a key then
    holds the value, a bare author wrapped as a one-item list of a wiki
    link and a bare category as a one-item list; every other key keeps
    what it had. On a document that is not a mapping the loop raises a
    [TypeError] as soon as one update is not None, and otherwise leaves
    the document alone. *)
Theorem apply_updates_lookup repr_str (updates : dict) :
  (∀ m : dict,
     ∃ m' : dict,
       Clean.apply_updates repr_str updates (Clean.YMap m) = Ok (Clean.YMap m') ∧
       ∀ k, m' !! k = match updates !! k with
                      | Some v => if Clean.is_none v then m !! k
                                  else Some (stored repr_str k v)
                      | None => m !! k
                      end) ∧
  (∀ v,
     ((∃ k x, updates !! k = Some x ∧ Clean.is_none x = false) →
      Clean.apply_updates repr_str updates (Clean.YValue v) = Raise TypeError) ∧
     ((∀ k x, updates !! k = Some x → Clean.is_none x = true) →
      Clean.apply_updates repr_str updates (Clean.YValue v)
      = Ok (Clean.YValue v))).
Proof.
  split.
  - intros m. eexists. split; [done|]. intros k.
    apply backfill_applied_lookup.
  - intros v. unfold Clean.apply_updates. split.
    + intros H. by rewrite (proj2 (some_value_not_none updates) H).
    + intros H.
      destruct (map_fold _ false updates) eqn:Hfold; [|done].
      apply some_value_not_none in Hfold as (k & x & Hk & Hx).
      rewrite (H k x Hk) in Hx. done.
Qed.

(** * What one turn of the cleaner touches *)

Lemma from_file_filepath repr_str yaml_safe_load path w book :
  Clean.from_file repr_str yaml_safe_load path w = Ok book →
  Clean.filepath book = path.
Proof.
  unfold Clean.from_file.
  destruct (read_file path w) as [text|]; [|done]. cbn [bind].
  destruct (Str.startswith "---" text); [|by intros [= <-]].
  destruct (Str.index_from "---" 3 text) as [end_index|[]]; cbn [bind];
    try done; try (by intros [= <-]).
  destruct (yaml_safe_load _) as [[m|v]|[]]; cbn [bind];
    try done; try (by intros [= <-]).
  - destruct (dict_truthy m); by intros [= <-].
  - destruct (truthy v); [done|by intros [= <-]].
Qed.

Lemma write_file_frame path text w r w' :
  write_file path text w = (r, w') →
  fetched w' = fetched w ∧
  ∀ p, p ≠ path → files w' !! p = files w !! p.
Proof.
  unfold write_file.
  destruct (fault w path); intros [= <- <-]; (split; [done|]); intros p Hp;
    simpl; by rewrite ?lookup_insert_ne.
Qed.

Lemma update_and_save_frame repr_str yaml_safe_load yaml_dump
  (self : Clean.BookNote) (updates : dict) (w : world) :
  let w' := (Clean.update_and_save repr_str yaml_safe_load yaml_dump self
               updates w).2 in
  fetched w' = fetched w ∧
  ∀ p, p ≠ Clean.filepath self → files w' !! p = files w !! p.
Proof.
  unfold Clean.update_and_save.
  destruct (Clean.new_content _ _ _ _ _ _) as [[text|]|]; [|done..].
  destruct (write_file _ _ _) as [[] w1] eqn:Hwrite;
    by apply write_file_frame in Hwrite.
Qed.

Lemma download_cover_frame cover_server url save_path w :
  let w' := (download_cover cover_server url save_path w).2 in
  (w' = w ∨ ∃ u, url = PStr u ∧ fetched w' = fetched w ++ [u]) ∧
  ∀ p, p ≠ save_path → files w' !! p = files w !! p.
Proof.
  unfold download_cover.
  destruct url as [|u|n|l]; try (split; [by left|done]).
  destruct (cover_server u) as [content|].
  - destruct (write_file _ _ _) as [[] w1] eqn:Hwrite;
      apply write_file_frame in Hwrite as [Hf Hp]; cbn [snd];
      (split; [right; exists u; by rewrite Hf|done]).
  - cbn [snd]. split; [right; by exists u|done].
Qed.

Lemma prepare_updates_frame repr_str covers_dir cover_server book
  (api_data : dict) w :
  let w' := (Clean.prepare_updates repr_str covers_dir cover_server book
               api_data w).2 in
  w' = w ∨
  ∃ name u,
    Clean.cover_filename repr_str book api_data = Ok name ∧
    get_none api_data "coverUrl" = PStr u ∧
    files w !! Clean.local_cover_path covers_dir name = None ∧
    fetched w' = fetched w ++ [u] ∧
    ∀ p, p ≠ Clean.local_cover_path covers_dir name →
         files w' !! p = files w !! p.
Proof.
  unfold Clean.prepare_updates.
  destruct (Clean.field_updates _ _ _) as [updates|]; [|by left].
  destruct (truthy _); [|by left].
  destruct (Clean.cover_filename _ _ _) as [name|]; [|by left].
  destruct (exists_file _ w) eqn:Hexists; cbn [negb]; [by left|].
  assert (files w !! Clean.local_cover_path covers_dir name = None) as Hnone.
  { unfold exists_file in Hexists. apply bool_decide_eq_false in Hexists.
    by apply eq_None_not_Some. }
  pose proof (download_cover_frame cover_server
                (get_none api_data "coverUrl")
                (Clean.local_cover_path covers_dir name) w) as [Hlog Hframe].
  destruct (download_cover _ _ _ _) as [[] w1]; cbn [snd] in *;
    (destruct Hlog as [->|(u & Hu & Hfetched)]; [by left|];
     right; by exists name, u).
Qed.

(** Nothing happened. *)
Ltac untouched :=
  split; [done|split; [done|split; [by exists ""|by left]]].


(** * The entries of the delta *)

Lemma elem_of_delta_keys k : k ∈ delta_keys ↔ ∃ f, k = field_key f.
Proof.
  unfold delta_keys. rewrite !elem_of_union, !elem_of_singleton. split.
  - intros H.
    repeat (destruct H as [H|H]);
      [ by exists FTitle | by exists FSubtitle | by exists FAuthor
      | by exists FPublisher | by exists FPublish | by exists FTotal
      | by exists FIsbn | by exists FCover | by exists FCategory
      | by exists FLocalCover ].
  - intros [[] ->]; cbn [field_key]; tauto.
Qed.

Lemma field_updates_other_key repr_str book (api_data updates : dict) k :
  Clean.field_updates repr_str book api_data = Ok updates →
  (∀ f, k ≠ field_key f) →
  updates !! k = None.
Proof.
  unfold Clean.field_updates. intros H Hk.
  pose proof (Hk FTitle). pose proof (Hk FSubtitle). pose proof (Hk FAuthor).
  pose proof (Hk FPublisher). pose proof (Hk FPublish). pose proof (Hk FTotal).
  pose proof (Hk FIsbn). pose proof (Hk FCover). pose proof (Hk FCategory).
  cbn [field_key] in *.
  apply bind_Ok in H as (u0 & Hauthor & [= <-]).
  destruct (negb (Clean.nonempty_list (Clean.author book))
            && truthy (get_none api_data "authors")).
  - apply bind_Ok in Hauthor as (authors & Hiter & [= <-]). by lookup_updates.
  - injection Hauthor as <-. by lookup_updates.
Qed.

Lemma offered_value_truthy repr_str (api_data : dict) f v :
  truthy (get_none api_data (field_source f)) = true →
  offered_value repr_str api_data f = Some v →
  truthy v = true.
Proof.
  intros Htruthy. destruct f; cbn [offered_value field_source] in *;
    try (by intros [= <-]).
  destruct (iter _) as [authors|] eqn:Hiter; [|done]. intros [= <-].
  apply (iter_truthy _ _ Htruthy) in Hiter.
  unfold linked. cbn [truthy]. rewrite length_fmap. by destruct authors.
Qed.

Lemma prepare_updates_entries repr_str covers_dir cover_server book
  (api_data updates : dict) w w' k v :
  Clean.prepare_updates repr_str covers_dir cover_server book api_data w
  = (Ok updates, w') →
  updates !! k = Some v →
  k ∈ delta_keys ∧ truthy v = true.
Proof.
  intros Hrun Hk.
  destruct (decide (k = "localCover")) as [->|Hlocal].
  { split; [apply elem_of_delta_keys; by exists FLocalCover|].
    revert Hrun. unfold Clean.prepare_updates.
    destruct (Clean.field_updates _ _ _) as [u0|] eqn:Hu0; [|done].
    destruct (field_updates_lookup _ _ _ _ w Hu0) as [_ Hnone].
    assert (∀ name,
              <["localCover" := PStr (Clean.relative_cover_path name)]> u0
              = updates → truthy v = true) as Hinsert.
    { intros name <-. rewrite lookup_insert_eq in Hk. by injection Hk as <-. }
    assert (u0 = updates → truthy v = true) as Hsame.
    { intros <-. by rewrite Hnone in Hk. }
    destruct (truthy (get_none api_data "coverUrl"));
      [|intros [= H _]; by apply Hsame].
    destruct (Clean.cover_filename _ _ _) as [name|]; [|done].
    destruct (negb _).
    - destruct (download_cover _ _ _ _) as [[] w1]; intros [= H _];
        [by apply (Hinsert name)|by apply Hsame].
    - intros [= H _]. by apply (Hinsert name). }
  apply prepare_updates_inv in Hrun as (u0 & Hu0 & Hsame).
  rewrite Hsame in Hk by done.
  destruct (decide (k ∈ delta_keys)) as [Hin|Hother].
  - apply elem_of_delta_keys in Hin as [f ->]. split; [apply elem_of_delta_keys; by exists f|].
    assert (f ≠ FLocalCover) as Hf by (by intros ->).
    destruct (field_updates_lookup _ _ _ _ w Hu0) as [Hlookup _].
    rewrite (Hlookup f Hf) in Hk.
    destruct (negb _ && _) eqn:Hcond; [|done].
    apply andb_true_iff in Hcond as [_ Htruthy].
    by apply (offered_value_truthy repr_str api_data f).
  - rewrite (field_updates_other_key _ _ _ _ k Hu0) in Hk; [done|].
    intros f ->. apply Hother, elem_of_delta_keys. by exists f.
Qed.

(** X13: every entry of the updates the cleaner prepares has one of the
    ten keys the cleaner fills and a value that is truthy. Applied to a
    frontmatter mapping, the updates store each entry under its key and
    leave every other key of the note as it was. *)
Theorem prepared_updates_entries repr_str covers_dir cover_server
  (book : Clean.BookNote) (api_data updates : dict) (w w' : world) :
  Clean.prepare_updates repr_str covers_dir cover_server book api_data w
  = (Ok updates, w') →
  (∀ k v, updates !! k = Some v → k ∈ delta_keys ∧ truthy v = true) ∧
  ∀ m : dict,
    ∃ m' : dict,
      Clean.apply_updates repr_str updates (Clean.YMap m)
      = Ok (Clean.YMap m') ∧
      (∀ k v, updates !! k = Some v → m' !! k = Some (stored repr_str k v)) ∧
      (∀ k, k ∉ delta_keys → m' !! k = m !! k).
Proof.
  intros Hrun. split.
  - intros k v. by apply (prepare_updates_entries _ _ _ _ _ _ _ _ _ _ Hrun).
  - intros m. eexists. split; [done|]. split.
    + intros k v Hk.
      destruct (prepare_updates_entries _ _ _ _ _ _ _ _ _ _ Hrun Hk)
        as [_ Htruthy].
      fold (backfill_applied repr_str updates m).
      rewrite backfill_applied_lookup, Hk.
      by rewrite (truthy_not_none _ Htruthy).
    + intros k Hk.
      fold (backfill_applied repr_str updates m).
      rewrite backfill_applied_lookup.
      destruct (updates !! k) as [v|] eqn:Hv; [|done].
      by destruct (prepare_updates_entries _ _ _ _ _ _ _ _ _ _ Hrun Hv).
Qed.

Lemma prepared_updates_entries_witness :
  ∃ updates w',
    Clean.prepare_updates Sample.repr_str Sample.covers_dir Sample.server
      Sample.note_with_cover Sample.dune_api Sample.disk_with_note_cover
    = (Ok updates, w') ∧
    (∀ k v, updates !! k = Some v → k ∈ delta_keys ∧ truthy v = true).
Proof.
  destruct (prepare_updates_total Sample.repr_str Sample.covers_dir
              Sample.server Sample.note_with_cover Sample.dune_api
              Sample.disk_with_note_cover) as (updates & w' & Hrun).
  { exists "Dune", ["Frank Herbert"]. split; vm_compute; reflexivity. }
  exists updates, w'. split; [exact Hrun|].
  apply (prepared_updates_entries Sample.repr_str Sample.covers_dir
           Sample.server Sample.note_with_cover Sample.dune_api updates
           Sample.disk_with_note_cover w' Hrun).
Defined.

(** * Further properties of the note creator *)

Lemma all_chars_app f a b :
  Str.all_chars f (a +:+ b) = Str.all_chars f a && Str.all_chars f b.
Proof.
  induction a as [|c a IH]; [done|].
  change (String c a +:+ b) with (String c (a +:+ b)).
  cbn [Str.all_chars]. rewrite IH. by rewrite andb_assoc.
Qed.

Lemma all_chars_impl (f g : ascii → bool) s :
  (∀ c, f c = true → g c = true) →
  Str.all_chars f s = true → Str.all_chars g s = true.
Proof.
  intros Hfg. induction s as [|c s IH]; [done|].
  cbn [Str.all_chars]. intros [Hc Hs]%andb_true_iff.
  by rewrite (Hfg c Hc), IH.
Qed.

Lemma name_char_not_slash c :
  name_char c = true → other_than "/" c = true.
Proof.
  unfold other_than. destruct (Ascii.eqb c "/") eqn:Hc; [|done].
  apply Ascii.eqb_eq in Hc as ->. done.
Qed.

Lemma digit_not_slash c : Str.isdigit c = true → other_than "/" c = true.
Proof.
  unfold other_than. destruct (Ascii.eqb c "/") eqn:Hc; [|done].
  apply Ascii.eqb_eq in Hc as ->. done.
Qed.

Lemma clean_name_no_slash s :
  Str.all_chars (other_than "/") (Str.clean_name s) = true.
Proof.
  apply (all_chars_impl name_char); [apply name_char_not_slash|].
  apply all_chars_filter.
Qed.

Lemma first_d4_digits s y :
  Str.first_d4 s = Some y → Str.all_chars Str.isdigit y = true.
Proof.
  induction s as [|x s IH]; [done|].
  cbn [Str.first_d4]. destruct (Str.digits4 (String x s)) eqn:Hd; [|done].
  intros [= <-]. unfold Str.digits4 in Hd.
  destruct s as [|b [|c [|d s]]]; try done.
  apply andb_true_iff in Hd as [[[Ha Hb]%andb_true_iff Hc]%andb_true_iff Hd].
  cbn [Str.slice_to Str.all_chars]. by rewrite Ha, Hb, Hc, Hd.
Qed.

Lemma path_join_inside directory name :
  Str.all_chars (other_than "/") name = true →
  ∀ extension,
    path_join directory (name +:+ extension)
    = if Str.nonempty name then directory +:+ "/" +:+ name +:+ extension
      else path_join directory extension.
Proof.
  intros Hname extension. destruct name as [|c name]; [done|].
  cbn [Str.all_chars] in Hname. apply andb_true_iff in Hname as [Hc _].
  unfold path_join, Str.startswith.
  change (String c name +:+ extension) with (String c (name +:+ extension)).
  cbn [String.prefix].
  unfold other_than in Hc. apply negb_true_iff, Ascii.eqb_neq in Hc.
  destruct (ascii_dec "/" c) as [<-|_]; done.
Qed.

(** The stem of the file names: no slash, and not empty. *)
Lemma cover_names_stem book a t y :
  Create.cover_names book = Ok (a, t, y) →
  Str.all_chars (other_than "/") (a +:+ " - " +:+ t +:+ y) = true.
Proof.
  unfold Create.cover_names. intros H.
  apply bind_Ok in H as (title0 & _ & H).
  apply bind_Ok in H as (title & _ & H).
  apply bind_Ok in H as (first0 & _ & H).
  apply bind_Ok in H as (first & _ & H).
  apply bind_Ok in H as (year & Hyear & [= <- <- <-]).
  rewrite !all_chars_app, !clean_name_no_slash.
  cbn [Str.all_chars other_than andb]. 
  assert (Str.all_chars (other_than "/") year = true) as ->; [|done].
  destruct (truthy _); [|by injection Hyear as <-].
  apply bind_Ok in Hyear as (date & _ & [= <-]).
  destruct (Str.first_d4 date) as [m|] eqn:Hm; [|done].
  apply first_d4_digits in Hm.
  change (" - " +:+ m) with (String " " (String "-" (String " " m))).
  cbn [Str.all_chars]. 
  by rewrite (all_chars_impl _ _ _ digit_not_slash Hm).
Qed.

Lemma string_app_assoc (a b c : string) : (a +:+ b) +:+ c = a +:+ (b +:+ c).
Proof.
  induction a as [|x a IH]; [done|].
  change ((String x a +:+ b) +:+ c) with (String x ((a +:+ b) +:+ c)).
  by rewrite IH.
Qed.

Lemma stem_nonempty a rest : Str.nonempty (a +:+ " - " +:+ rest) = true.
Proof. by destruct a. Qed.

Lemma stem_path directory a t y extension :
  Str.all_chars (other_than "/") (a +:+ " - " +:+ t +:+ y) = true →
  path_join directory (a +:+ " - " +:+ t +:+ y +:+ extension)
  = directory +:+ "/" +:+ (a +:+ " - " +:+ t +:+ y) +:+ extension.
Proof.
  intros Hstem.
  replace (a +:+ " - " +:+ t +:+ y +:+ extension)
    with ((a +:+ " - " +:+ t +:+ y) +:+ extension)
    by (by rewrite !string_app_assoc).
  by rewrite (path_join_inside _ _ Hstem), stem_nonempty.
Qed.

Lemma create_book_note_cover_frame template_path covers_dir cover_server
  book w :
  let run := Create.create_book_note_cover template_path covers_dir
               cover_server book w in
  run.2 = w ∨
  ∃ a t y u,
    Create.cover_names book = Ok (a, t, y) ∧
    (fetched run.2 = fetched w ∨ fetched run.2 = fetched w ++ [u]) ∧
    ∀ p, p ≠ path_join covers_dir (a +:+ " - " +:+ t +:+ y +:+ ".jpg") →
         files run.2 !! p = files w !! p.
Proof.
  unfold Create.create_book_note_cover.
  destruct (read_file template_path w) as [template|]; [|by left].
  cbn [bind].
  destruct (Create.cover_names book) as [[[a t] y]|]; [|by left].
  destruct (truthy _); [|by left].
  pose proof (download_cover_frame cover_server (get_none book "coverUrl")
                (path_join covers_dir (a +:+ " - " +:+ t +:+ y +:+ ".jpg")) w)
    as [Hlog Hframe].
  destruct (download_cover _ _ _ _) as [[] w1]; cbn [snd] in *;
    (destruct Hlog as [->|(u & _ & Hu)]; [by left|];
     right; exists a, t, y, u; by auto).
Qed.

(** X14: one call of [create_book_note]. The note and the cover get the
    same stem, which holds no slash, so both are written directly in the
    configured directories; no other file is touched and at most one cover
    request is made. Unless the answer to the overwrite prompt is y, no
    file that exists is changed, the cover apart; and when the call
    returns True the note is on disk. *)
Theorem create_book_note_touches repr_str now overwrite_answer template_path
  books_dir covers_dir cover_server (book : dict) (w : world) :
  let run := Create.create_book_note repr_str now overwrite_answer
               template_path books_dir covers_dir cover_server book w in
  ∃ stem,
    Str.all_chars (other_than "/") stem = true ∧
    let note := books_dir +:+ "/" +:+ stem +:+ ".md" in
    let cover := covers_dir +:+ "/" +:+ stem +:+ ".jpg" in
    (∀ p, p ≠ note → p ≠ cover → files run.2 !! p = files w !! p) ∧
    (Str.lower (Str.strip overwrite_answer) ≠ "y" →
     ∀ p content, p ≠ cover → files w !! p = Some content →
                  files run.2 !! p = Some content) ∧
    (run.1 = true → is_Some (files run.2 !! note)) ∧
    (fetched run.2 = fetched w ∨ ∃ url, fetched run.2 = fetched w ++ [url]).
Proof.
  unfold Create.create_book_note.
  pose proof (create_book_note_cover_frame template_path covers_dir
                cover_server book w) as Hcover.
  destruct (Create.create_book_note_cover _ _ _ _ _) as [[lc|e] w1];
    cbn [snd] in Hcover.
  2: { cbn [fst snd].
       destruct Hcover as [->|(a & t & y & u & Hnames & Hlog & Hframe)].
       - exists "". split; [done|]. split; [done|]. split; [done|].
         split; [done|by left].
       - pose proof (cover_names_stem _ _ _ _ Hnames) as Hstem.
         exists (a +:+ " - " +:+ t +:+ y). split; [done|].
         rewrite (stem_path _ _ _ _ _ Hstem) in Hframe.
         split; [intros p _ Hp; by apply Hframe|].
         split; [intros _ p content Hp Hc; by rewrite Hframe|].
         split; [done|].
         destruct Hlog as [-> | ->]; [by left|right; by exists u]. }
  destruct (read_file template_path w) as [template|]; cbn [bind].
  2: { cbn [fst snd].
       destruct Hcover as [->|(a & t & y & u & Hnames & Hlog & Hframe)].
       - exists "". split; [done|]. split; [done|]. split; [done|].
         split; [done|by left].
       - pose proof (cover_names_stem _ _ _ _ Hnames) as Hstem.
         exists (a +:+ " - " +:+ t +:+ y). split; [done|].
         rewrite (stem_path _ _ _ _ _ Hstem) in Hframe.
         split; [intros p _ Hp; by apply Hframe|].
         split; [intros _ p content Hp Hc; by rewrite Hframe|].
         split; [done|].
         destruct Hlog as [-> | ->]; [by left|right; by exists u]. }
  destruct (Create.cover_names book) as [[[a t] y]|] eqn:Hnames; cbn [bind].
  2: { cbn [fst snd].
       destruct Hcover as [->|(a & t & y & u & Hnames' & _)]; [|done].
       exists "". split; [done|]. split; [done|]. split; [done|].
       split; [done|by left]. }
  pose proof (cover_names_stem _ _ _ _ Hnames) as Hstem.
  exists (a +:+ " - " +:+ t +:+ y). split; [done|].
  assert ((fetched w1 = fetched w ∨ ∃ url, fetched w1 = fetched w ++ [url]) ∧
          ∀ p, p ≠ covers_dir +:+ "/" +:+ (a +:+ " - " +:+ t +:+ y) +:+ ".jpg" →
               files w1 !! p = files w !! p) as [Hlog Hframe].
  { destruct Hcover as [->|(a' & t' & y' & u & [= <- <- <-] & Hlog & Hframe)];
      [split; [by left|done]|].
    rewrite (stem_path _ _ _ _ _ Hstem) in Hframe.
    split; [|done]. destruct Hlog as [-> | ->]; [by left|right; by exists u]. }
  clear Hcover.
  destruct (Create._process_template _ _ _ _ _) as [content|]; cbn [bind].
  2: { cbn [fst snd]. split; [intros p _ Hp; by apply Hframe|].
       split; [intros _ p c Hp Hc; by rewrite Hframe|]. by split. }
  assert (path_join books_dir (a +:+ " - " +:+ t +:+ y +:+ ".md")
          = books_dir +:+ "/" +:+ (a +:+ " - " +:+ t +:+ y) +:+ ".md") as ->.
  { apply (stem_path _ _ _ _ _ Hstem). }
  set (note := books_dir +:+ "/" +:+ (a +:+ " - " +:+ t +:+ y) +:+ ".md") in *.
  set (cover := covers_dir +:+ "/" +:+ (a +:+ " - " +:+ t +:+ y) +:+ ".jpg") in *.
  destruct (exists_file note w1) eqn:Hexists; cbn [andb].
  - destruct (String.eqb _ "y") eqn:Hy; cbn [negb].
    + apply String.eqb_eq in Hy.
      destruct (write_file note content w1) as [r w2] eqn:Hwrite.
      pose proof (write_file_frame _ _ _ _ _ Hwrite) as [Hf Hp].
      destruct r as [[]|e]; cbn [fst snd].
      * split; [intros p Hn Hc; by rewrite Hp, Hframe|].
        split; [done|].
        split; [|by rewrite Hf].
        intros _. revert Hwrite. unfold write_file.
        destruct (fault w1 note); [|done..]. intros [= <-]. simpl.
        rewrite lookup_insert_eq. by eexists.
      * split; [intros p Hn Hc; by rewrite Hp, Hframe|].
        split; [done|]. split; [done|by rewrite Hf].
    + cbn [fst snd]. split; [intros p _ Hp; by apply Hframe|].
      split; [intros _ p c Hp Hc; by rewrite Hframe|]. by split.
  - assert (files w1 !! note = None) as Hnone.
    { unfold exists_file in Hexists. apply bool_decide_eq_false in Hexists.
      by apply eq_None_not_Some. }
    destruct (write_file note content w1) as [r w2] eqn:Hwrite.
    pose proof (write_file_frame _ _ _ _ _ Hwrite) as [Hf Hp].
    assert (∀ p c, p ≠ cover → files w !! p = Some c →
                   files w2 !! p = Some c) as Hkept.
    { intros p c Hc Hsome. rewrite Hp, Hframe; [done..|].
      intros ->. rewrite <- Hframe, Hnone in Hsome; done. }
    destruct r as [[]|e]; cbn [fst snd].
    + split; [intros p Hn Hc; by rewrite Hp, Hframe|].
      split; [intros _; exact Hkept|].
      split; [|by rewrite Hf].
      intros _. revert Hwrite. unfold write_file.
      destruct (fault w1 note); [|done..]. intros [= <-]. simpl.
      rewrite lookup_insert_eq. by eexists.
    + split; [intros p Hn Hc; by rewrite Hp, Hframe|].
      split; [intros _; exact Hkept|]. split; [done|by rewrite Hf].
Qed.

(** * What a note can be created from *)

Lemma replace_placeholder_raise e items :
  foldl Create.replace_placeholder (Raise e) items = Raise e.
Proof. induction items as [|item items IH]; [done|]. exact IH. Qed.

Lemma replace_placeholders_Ok init items content :
  foldl Create.replace_placeholder init items = Ok content →
  Forall (λ item : string * pyval, is_str item.2 = true) items.
Proof.
  revert init. induction items as [|[placeholder value] items IH];
    intros init H; [constructor|].
  cbn [foldl] in H. destruct init as [text|e].
  - destruct value; cbn [Create.replace_placeholder bind snd fst] in H;
      try (by rewrite replace_placeholder_raise in H).
    constructor; [done|]. by eapply IH.
  - cbn [Create.replace_placeholder bind] in H.
    by rewrite replace_placeholder_raise in H.
Qed.

Lemma is_str_PStr v : is_str v = true → ∃ s, v = PStr s.
Proof. destruct v; try done. by eexists. Qed.

(** What a call that returns True has passed. *)
Lemma create_book_note_true repr_str now overwrite_answer template_path
  books_dir covers_dir cover_server (book : dict) (w : world) :
  (Create.create_book_note repr_str now overwrite_answer template_path
     books_dir covers_dir cover_server book w).1 = true →
  (∀ key, key ∈ ["title"; "subtitle"; "publisher"; "publishedDate";
                 "coverUrl"] →
          is_str (get book key (PStr "")) = true) ∧
  ∃ first, getitem0 (get book "authors" (PList [PStr "Unknown"]))
           = Ok (PStr first).
Proof.
  unfold Create.create_book_note.
  destruct (Create.create_book_note_cover _ _ _ _ _) as [[lc|e] w1]; [|done].
  destruct (read_file template_path w) as [template|]; [|done]. cbn [bind].
  destruct (Create.cover_names book) as [[[a t] y]|] eqn:Hnames; [|done].
  cbn [bind].
  destruct (Create._process_template _ _ _ _ _) as [content|] eqn:Hcontent;
    [|done].
  intros _. clear w1.
  unfold Create.cover_names in Hnames.
  apply bind_Ok in Hnames as (title0 & Htitle0 & Hnames).
  apply bind_Ok in Hnames as (title & Htitle & Hnames).
  apply bind_Ok in Hnames as (first0 & Hfirst0 & Hnames).
  apply bind_Ok in Hnames as (first & Hfirst & Hnames).
  apply bind_Ok in Hnames as (year & Hyear & _).
  unfold Create._process_template in Hcontent.
  apply bind_Ok in Hcontent as (isbns & _ & Hcontent).
  apply bind_Ok in Hcontent as (primary_author & _ & Hcontent).
  apply bind_Ok in Hcontent as (primary_category & _ & Hcontent).
  apply bind_Ok in Hcontent as (publish_date & Hdate & Hcontent).
  apply bind_Ok in Hcontent as (replaced & Hreplaced & _).
  apply replace_placeholders_Ok in Hreplaced.
  repeat match goal with
         | H : Forall _ (_ :: _) |- _ =>
             let Hhead := fresh "Hitem" in
             apply Forall_cons in H as [Hhead H]; cbn [snd] in Hhead
         end.
  split.
  - intros key Hkey.
    repeat (apply elem_of_cons in Hkey as [->|Hkey]); try done.
    + revert Hdate Hitem4. unfold Create.format_publish_date.
      destruct (get book "publishedDate" (PStr "")) as [|s|n|l];
        cbn [truthy]; try done.
      * by intros [= <-].
      * destruct (negb (n =? 0)); [done|by intros [= <-]].
      * revert Hyear. cbn [truthy].
        destruct (negb (Nat.eqb (length l) 0)); [done|].
        intros _. by intros [= <-].
    + by apply elem_of_nil in Hkey.
  - destruct first0 as [|s|n|l]; try done. by exists s.
Qed.

(** X15: [create_book_note] returns True only for a candidate whose
    title, subtitle, publisher, publication date and cover URL are each a
    str and whose author list has a str in front: [str.replace] refuses
    anything else as the replacement, and the exception makes the call
    return False. *)
Theorem create_book_note_needs_text repr_str now overwrite_answer
  template_path books_dir covers_dir cover_server (book : dict) (w : world) :
  (Create.create_book_note repr_str now overwrite_answer template_path
     books_dir covers_dir cover_server book w).1 = true →
  (∀ key, key ∈ ["title"; "subtitle"; "publisher"; "publishedDate";
                 "coverUrl"] →
          ∃ s, get book key (PStr "") = PStr s) ∧
  ∃ first, getitem0 (get book "authors" (PList [PStr "Unknown"]))
           = Ok (PStr first).
Proof.
  intros Hrun. apply create_book_note_true in Hrun as [Hkeys Hauthor].
  split; [|done]. intros key Hkey. by apply is_str_PStr, Hkeys.
Qed.

Lemma create_book_note_needs_text_witness :
  (Sample.create Sample.dune_complete Sample.creator_disk).1 = true ∧
  ∃ s, get Sample.dune_complete "subtitle" (PStr "") = PStr s.
Proof.
  split; [vm_compute; reflexivity|].
  apply (create_book_note_needs_text Sample.repr_str "2024-01-01 00:00:00" "n"
           "/vault/Templates/New Book.md" "/vault/Books" Sample.covers_dir
           Sample.server Sample.dune_complete Sample.creator_disk).
  - vm_compute. reflexivity.
  - in_list.
Defined.

Lemma format_google_result_lookup volume (result : dict) :
  Create._format_google_result volume = Some result →
  result !! "subtitle" = Some (opt_str (v_subtitle volume)) ∧
  result !! "publisher" = Some (opt_str (v_publisher volume)) ∧
  result !! "authors" = Some (opt_list (v_authors volume)) ∧
  result !! "coverUrl" = Some (google_cover (v_imageLinks volume)).
Proof.
  unfold Create._format_google_result.
  destruct (negb _); [done|].
  destruct (scan_identifiers _) as [i10 i13].
  intros [= <-].
  destruct (google_isbn i10 i13), (google_cover _);
    repeat split; by lookup_updates.
Qed.

(** X16: a Google Books volume without a subtitle, without a publisher,
    without a cover link or without authors never becomes a note: the
    candidate the adapter builds for it holds None (or an empty author
    list) where [create_book_note] needs a str, and the call returns
    False. *)
Theorem google_result_needs_every_text_field repr_str now overwrite_answer
  template_path books_dir covers_dir cover_server volume (result : dict)
  (w : world) :
  Create._format_google_result volume = Some result →
  v_subtitle volume = None ∨ v_publisher volume = None ∨
  google_cover (v_imageLinks volume) = PNone ∨
  default [] (v_authors volume) = [] →
  (Create.create_book_note repr_str now overwrite_answer template_path
     books_dir covers_dir cover_server (Create.tag_source "google" result)
     w).1 = false.
Proof.
  intros Hresult Hmissing.
  apply format_google_result_lookup in Hresult
    as (Hsubtitle & Hpublisher & Hauthors & Hcover).
  apply not_true_is_false. intros Hrun.
  apply create_book_note_true in Hrun as [Hkeys [first Hfirst]].
  unfold get, Create.tag_source in Hkeys, Hfirst.
  destruct Hmissing as [H|[H|[H|H]]].
  - specialize (Hkeys "subtitle"). rewrite lookup_insert_ne in Hkeys by done.
    rewrite Hsubtitle, H in Hkeys. assert (is_str PNone = true) as Hnone by (apply Hkeys; in_list). done.
  - specialize (Hkeys "publisher"). rewrite lookup_insert_ne in Hkeys by done.
    rewrite Hpublisher, H in Hkeys. assert (is_str PNone = true) as Hnone by (apply Hkeys; in_list). done.
  - specialize (Hkeys "coverUrl"). rewrite lookup_insert_ne in Hkeys by done.
    rewrite Hcover, H in Hkeys. assert (is_str PNone = true) as Hnone by (apply Hkeys; in_list). done.
  - rewrite lookup_insert_ne in Hfirst by done.
    rewrite Hauthors in Hfirst. unfold opt_list in Hfirst.
    by rewrite H in Hfirst.
Qed.

Lemma google_result_needs_every_text_field_witness :
  (Sample.create Sample.dune_plain Sample.creator_disk).1 = false.
Proof.
  apply (google_result_needs_every_text_field Sample.repr_str
           "2024-01-01 00:00:00" "n" "/vault/Templates/New Book.md"
           "/vault/Books" Sample.covers_dir Sample.server
           (Sample.volume "Dune" "1965" ["Frank Herbert"]
              [Sample.isbn13 "9780441013593"])).
  - vm_compute. reflexivity.
  - left. reflexivity.
Defined.

(** * The ISBN placeholders *)

Lemma split_on_none c s :
  Str.all_chars (other_than c) s = true → Str.split_on c s = [s].
Proof.
  induction s as [|x s IH]; [done|].
  cbn [Str.all_chars Str.split_on]. intros [Hx Hs]%andb_true_iff.
  unfold other_than in Hx. apply negb_true_iff in Hx. rewrite Hx.
  by rewrite (IH Hs).
Qed.

Lemma split_on_joined a b :
  Str.all_chars (other_than ",") a = true →
  Str.all_chars (other_than ",") b = true →
  Str.split_on "," (a +:+ ", " +:+ b) = [a; " " +:+ b].
Proof.
  intros Ha Hb. induction a as [|x a IH].
  - change ("" +:+ ", " +:+ b) with (String "," (String " " b)).
    cbn [Str.split_on Ascii.eqb Bool.eqb]. cbn.
    by rewrite (split_on_none _ _ Hb).
  - cbn [Str.all_chars] in Ha. apply andb_true_iff in Ha as [Hx Ha].
    change (String x a +:+ ", " +:+ b) with (String x (a +:+ ", " +:+ b)).
    cbn [Str.split_on]. unfold other_than in Hx.
    apply negb_true_iff in Hx. by rewrite Hx, (IH Ha).
Qed.

Lemma contains_joined a b : Str.contains "," (a +:+ ", " +:+ b) = true.
Proof.
  induction a as [|x a IH]; [done|].
  change (String x a +:+ ", " +:+ b) with (String x (a +:+ ", " +:+ b)).
  cbn [Str.contains]. rewrite IH. apply orb_true_r.
Qed.

Lemma contains_char_none c s :
  Str.all_chars (other_than c) s = true →
  Str.contains (String c "") s = false.
Proof.
  induction s as [|x s IH]; [done|].
  cbn [Str.all_chars Str.contains]. intros [Hx Hs]%andb_true_iff.
  rewrite (IH Hs), orb_false_r. cbn [String.prefix].
  unfold other_than in Hx. apply negb_true_iff, Ascii.eqb_neq in Hx.
  destruct (ascii_dec c x) as [->|_]; done.
Qed.

(** X17: the two identifiers of a catalogue record come back from the
    joined ISBN field the adapters write: when neither holds a comma,
    [_process_template] puts the ISBN-10 under the first placeholder and
    the ISBN-13 under the second, each stripped. A field with a single
    identifier is placed by its length without hyphens, and one that is
    neither 10 nor 13 long fills neither placeholder. *)
Theorem split_isbn_of_joined_field (i10 i13 : string) :
  Str.all_chars (other_than ",") i10 = true →
  Str.all_chars (other_than ",") i13 = true →
  (i10 ≠ "" → i13 ≠ "" →
   Create.split_isbn (google_isbn (Some i10) (Some i13))
   = Ok (Str.strip i10, Str.strip i13)) ∧
  Create.split_isbn (PStr i13)
  = Ok (if Nat.eqb (String.length (Str.replace "-" "" i13)) 10
        then (i13, "")
        else if Nat.eqb (String.length (Str.replace "-" "" i13)) 13
        then ("", i13)
        else ("", "")).
Proof.
  intros H10 H13. split.
  - intros Hn10 Hn13. unfold google_isbn.
    rewrite (proj2 (nonempty_true i10) Hn10), (proj2 (nonempty_true i13) Hn13).
    cbn [andb]. unfold Create.split_isbn.
    assert (truthy (PStr (i10 +:+ ", " +:+ i13)) = true) as ->
      by (by destruct i10).
    rewrite contains_joined, (split_on_joined _ _ H10 H13).
    rewrite !fmap_cons. done.
  - unfold Create.split_isbn. cbn [truthy].
    destruct (String.eqb i13 "") eqn:Hempty; cbn [negb].
    + apply String.eqb_eq in Hempty as ->. done.
    + by rewrite (contains_char_none _ _ H13).
Qed.

Lemma split_isbn_of_joined_field_witness :
  Create.split_isbn (google_isbn (Some "0441013597") (Some "9780441013593"))
  = Ok ("0441013597", "9780441013593").
Proof.
  apply (split_isbn_of_joined_field "0441013597" "9780441013593");
    [reflexivity|reflexivity|discriminate|discriminate].
Defined.

(** * Author links *)

Lemma string_app_nil_r (s : string) : s +:+ "" = s.
Proof.
  induction s as [|c s IH]; [done|].
  change (String c s +:+ "") with (String c (s +:+ "")). by rewrite IH.
Qed.

Lemma replace_app_absent c old new a b :
  Str.all_chars (other_than c) a = true →
  Str.replace (String c old) new (a +:+ b)
  = a +:+ Str.replace (String c old) new b.
Proof.
  unfold Str.replace. induction a as [|x a IH]; [done|].
  cbn [Str.all_chars]. intros [Hx Ha]%andb_true_iff.
  change (String x a +:+ b) with (String x (a +:+ b)).
  cbn [Str.replace_from String.prefix].
  unfold other_than in Hx. apply negb_true_iff, Ascii.eqb_neq in Hx.
  destruct (ascii_dec c x) as [->|_]; [done|].
  by rewrite (IH Ha).
Qed.

Lemma lstrip_by_keeps f c s :
  f c = false → Str.lstrip_by f (String c s) = String c s.
Proof. intros Hc. cbn [Str.lstrip_by]. by rewrite Hc. Qed.

Lemma rstrip_by_keeps f c s :
  f c = false → Str.rstrip_by f (s +:+ String c "") = s +:+ String c "".
Proof.
  intros Hc. induction s as [|x s IH].
  - change ("" +:+ String c "") with (String c "").
    cbn [Str.rstrip_by]. by rewrite Hc.
  - change (String x s +:+ String c "") with (String x (s +:+ String c "")).
    cbn [Str.rstrip_by]. rewrite IH.
    assert (Str.nonempty (s +:+ String c "") = true) as -> by (by destruct s).
    by rewrite andb_false_r.
Qed.

Lemma strip_by_link f a :
  f "["%char = false → f "]"%char = false →
  Str.strip_by f ("[[" +:+ a +:+ "]]") = "[[" +:+ a +:+ "]]".
Proof.
  intros Hopen Hclose. unfold Str.strip_by.
  change ("[[" +:+ a +:+ "]]") with (String "[" ("[" +:+ a +:+ "]]")).
  rewrite (lstrip_by_keeps _ _ _ Hopen).
  replace (String "[" ("[" +:+ a +:+ "]]"))
    with (String "[" ("[" +:+ a +:+ "]") +:+ "]").
  - by rewrite (rstrip_by_keeps _ _ _ Hclose).
  - change (String "[" ("[" +:+ a +:+ "]") +:+ "]")
      with (String "[" (String "[" ((a +:+ "]") +:+ "]"))).
    change ("[" +:+ a +:+ "]]") with (String "[" (a +:+ "]]")).
    do 2 f_equal. clear. induction a as [|x a IH]; [done|].
    change ((String x a +:+ "]") +:+ "]") with (String x ((a +:+ "]") +:+ "]")).
    by rewrite IH.
Qed.

Lemma unquote_link a :
  Clean.unquote ("[[" +:+ a +:+ "]]") = "[[" +:+ a +:+ "]]".
Proof.
  unfold Clean.unquote, Str.strip, Str.strip_char.
  by rewrite !strip_by_link.
Qed.

Lemma unlink_link a :
  Str.all_chars no_bracket a = true →
  Str.replace "]]" "" (Str.replace "[[" "" ("[[" +:+ a +:+ "]]")) = a.
Proof.
  intros Ha.
  assert (Str.all_chars (other_than "[") a = true) as Hopen.
  { apply (all_chars_impl no_bracket); [|done].
    intros c. unfold no_bracket. by intros [? ?]%andb_true_iff. }
  assert (Str.all_chars (other_than "]") a = true) as Hclose.
  { apply (all_chars_impl no_bracket); [|done].
    intros c. unfold no_bracket. by intros [? ?]%andb_true_iff. }
  assert (Str.replace "[[" "" ("[[" +:+ a +:+ "]]")
          = Str.replace "[[" "" (a +:+ "]]")) as ->.
  { change ("[[" +:+ a +:+ "]]") with (String "[" (String "[" (a +:+ "]]"))).
    unfold Str.replace. cbn [Str.replace_from String.prefix].
    destruct (ascii_dec "[" "[") as [_|Hne]; [|done].
    by destruct (a +:+ "]]"). }
  rewrite (replace_app_absent _ _ _ _ _ Hopen).
  change (Str.replace "[[" "" "]]") with "]]".
  rewrite (replace_app_absent _ _ _ _ _ Hclose).
  change (Str.replace "]]" "" "]]") with "".
  apply string_app_nil_r.
Qed.

(** X18: an author the cleaner wrote as a wiki link is searched under the
    bare name. For a note whose author list is what is read back from the
    links written for a candidate's authors, the first of them a str
    without square brackets, and whose ISBN is missing while its title is
    present, the catalogue search is the title and author search for the
    title and that name. *)
Theorem linked_author_is_searched_bare repr_str google_books_api
  open_library_api open_library_isbn_api open_library_author_api
  (book : Clean.BookNote) (a : string) (others : list pyval) :
  Str.all_chars no_bracket a = true →
  Clean.author book
  = Clean._extract_list repr_str (linked repr_str (PStr a :: others)) →
  Clean.present (Clean.isbn book) = false →
  Clean.present (Clean.title book) = true →
  Clean.fetch_api_data google_books_api open_library_api
    open_library_isbn_api open_library_author_api book
  = Clean.search_by_title_author google_books_api open_library_api
      (default "" (Clean.title book)) a.
Proof.
  intros Ha Hauthor Hisbn Htitle.
  unfold Clean.fetch_api_data. rewrite Htitle, Hauthor.
  assert (match Clean.isbn book with
          | Some i =>
              if Str.nonempty i
              then Clean.search_by_isbn google_books_api
                     open_library_isbn_api open_library_author_api i
              else None
          | None => None
          end = None) as ->.
  { destruct (Clean.isbn book) as [i|]; [|done].
    cbn [Clean.present] in Hisbn. by rewrite Hisbn. }
  cbn [Clean.found negb andb].
  unfold linked, Clean._extract_list. rewrite fmap_cons, filter_cons.
  cbn [py_str].
  assert (truthy (PStr ("[[" +:+ a +:+ "]]")) = true) as Htruthy by done.
  rewrite decide_True by done. rewrite fmap_cons. cbn [py_str].
  by rewrite unquote_link, (unlink_link _ Ha).
Qed.

Lemma linked_author_is_searched_bare_witness :
  Clean.fetch_api_data (λ _, Ok []) (λ _ _, Ok []) (λ _, Raise OSError)
    (λ _, Ok None) Sample.note_with_cover
  = Clean.search_by_title_author (λ _, Ok []) (λ _ _, Ok [])
      "Dune" "Frank Herbert".
Proof.
  apply (linked_author_is_searched_bare Sample.repr_str (λ _, Ok [])
           (λ _ _, Ok []) (λ _, Raise OSError) (λ _, Ok None)
           Sample.note_with_cover "Frank Herbert" []);
    vm_compute; reflexivity.
Defined.

(** * Reading back a rewritten note *)

Lemma string_length_app (a b : string) :
  String.length (a +:+ b) = (String.length a + String.length b)%nat.
Proof.
  induction a as [|c a IH]; [done|].
  change (String c a +:+ b) with (String c (a +:+ b)).
  cbn [String.length]. by rewrite IH.
Qed.

Lemma slice_to_app a b : Str.slice_to (String.length a) (a +:+ b) = a.
Proof.
  induction a as [|c a IH]; [by destruct b|].
  change (String c a +:+ b) with (String c (a +:+ b)).
  cbn [String.length Str.slice_to]. by rewrite IH.
Qed.

Lemma slice_from_app a b : Str.slice_from (String.length a) (a +:+ b) = b.
Proof.
  induction a as [|c a IH]; [by destruct b|].
  change (String c a +:+ b) with (String c (a +:+ b)).
  cbn [String.length Str.slice_from]. by rewrite IH.
Qed.

Lemma prefix_cons_ne c p x s :
  c ≠ x → String.prefix (String c p) (String x s) = false.
Proof. intros Hne. cbn [String.prefix]. by destruct (ascii_dec c x). Qed.

Lemma prefix_cons_eq c p s :
  String.prefix (String c p) (String c s) = String.prefix p s.
Proof. cbn [String.prefix]. by destruct (ascii_dec c c). Qed.

Lemma find_marker_here body :
  Str.find "---" (Clean.nl +:+ "---" +:+ body) = Some 1%nat.
Proof.
  change (Clean.nl +:+ "---" +:+ body)
    with (String (ascii_of_nat 10)
            (String "-" (String "-" (String "-" body)))).
  cbn [Str.find]. rewrite prefix_cons_ne by done.
  rewrite !prefix_cons_eq. by destruct body.
Qed.

(** The closing marker is found right after a text that holds no two
    hyphens in a row and ends with a line break. *)
Lemma find_closing_marker lines body :
  Str.contains "--" lines = false →
  Str.find "---" (lines +:+ Clean.nl +:+ "---" +:+ body)
  = Some (String.length lines + 1)%nat.
Proof.
  induction lines as [|c lines IH]; [intros _; apply find_marker_here|].
  cbn [Str.contains]. intros [Hprefix Hrest]%orb_false_iff.
  change (String c lines +:+ Clean.nl +:+ "---" +:+ body)
    with (String c (lines +:+ Clean.nl +:+ "---" +:+ body)).
  cbn [Str.find]. rewrite (IH Hrest).
  assert (String.prefix "---"
            (String c (lines +:+ Clean.nl +:+ "---" +:+ body)) = false) as ->;
    [|done].
  destruct (decide (c = "-"%char)) as [->|Hc];
    [|by apply prefix_cons_ne].
  rewrite prefix_cons_eq in Hprefix. rewrite prefix_cons_eq.
  destruct lines as [|d lines]; [by apply prefix_cons_ne|].
  change (String d lines +:+ Clean.nl +:+ "---" +:+ body)
    with (String d (lines +:+ Clean.nl +:+ "---" +:+ body)).
  destruct (decide (d = "-"%char)) as [->|Hd];
    [|by apply prefix_cons_ne].
  rewrite prefix_cons_eq in Hprefix. by destruct lines.
Qed.

Lemma saved_note_cut lines body :
  Str.contains "--" lines = false →
  let text := "---" +:+ Clean.nl +:+ (lines +:+ Clean.nl) +:+ "---" +:+ body in
  ∃ end_index,
    Str.index_from "---" 3 text = Ok end_index ∧
    Clean.frontmatter_text text end_index = Clean.nl +:+ lines +:+ Clean.nl ∧
    Clean.body_text text end_index = body.
Proof.
  intros Hlines text.
  assert (text = "---" +:+ ((Clean.nl +:+ lines) +:+ Clean.nl +:+ "---" +:+ body))
    as Htext.
  { subst text. by rewrite !string_app_assoc. }
  assert (Str.contains "--" (Clean.nl +:+ lines) = false) as Hpre by done.
  pose proof (find_closing_marker _ body Hpre) as Hfind.
  exists (3 + (String.length (Clean.nl +:+ lines) + 1))%nat.
  unfold Str.index_from, Clean.frontmatter_text, Clean.body_text.
  rewrite Htext.
  change (Str.slice_from 3 ("---" +:+ ?s)) with s.
  rewrite Hfind. split; [done|].
  replace (3 + (String.length (Clean.nl +:+ lines) + 1) - 3)%nat
    with (String.length ((Clean.nl +:+ lines) +:+ Clean.nl))
    by (rewrite (string_length_app _ Clean.nl); cbn [String.length Clean.nl]; lia).
  replace (3 + (String.length (Clean.nl +:+ lines) + 1) + 3)%nat
    with (String.length ("---" +:+ ((Clean.nl +:+ lines) +:+ Clean.nl)
                         +:+ "---"))
    by (rewrite !string_length_app; cbn [String.length Clean.nl]; lia).
  split.
  - rewrite <- (string_app_assoc (Clean.nl +:+ lines) Clean.nl).
    rewrite slice_to_app. by rewrite !string_app_assoc.
  - replace ("---" +:+ (Clean.nl +:+ lines) +:+ Clean.nl +:+ "---" +:+ body)
      with (("---" +:+ ((Clean.nl +:+ lines) +:+ Clean.nl) +:+ "---") +:+ body)
      by (by rewrite !string_app_assoc).
    apply slice_from_app.
Qed.

(** X19: a note that [update_and_save] has rewritten is read back from
    the dump. When the dumped frontmatter ends with a line break and holds
    no two hyphens in a row before it, [from_file] finds the closing
    marker right after the dump and hands the loader the dumped text
    behind a line break; if that loads as a non-empty mapping, the note
    read has the fields of that mapping and the new text as content. *)
Theorem saved_note_reads_back repr_str yaml_safe_load yaml_dump
  (self : Clean.BookNote) (updates : dict) (w w' : world) :
  Clean.update_and_save repr_str yaml_safe_load yaml_dump self updates w
  = (true, w') →
  ∃ before after dumped text,
    Clean.apply_updates repr_str updates before = Ok after ∧
    yaml_dump after = Ok dumped ∧
    files w' !! Clean.filepath self = Some text ∧
    ∀ lines m,
      dumped = lines +:+ Clean.nl →
      Str.contains "--" lines = false →
      yaml_safe_load (Clean.nl +:+ dumped) = Ok (Clean.YMap m) →
      dict_truthy m = true →
      Clean.from_file repr_str yaml_safe_load (Clean.filepath self) w'
      = Ok (Clean.read_frontmatter repr_str
              (Clean.new_note (Clean.filepath self) text) m).
Proof.
  unfold Clean.update_and_save.
  destruct (Clean.new_content _ _ _ _ _ _) as [[new|]|] eqn:Hnew; [|done..].
  unfold Clean.new_content in Hnew.
  apply bind_Ok in Hnew as (text & Hread & Hnew).
  destruct (Str.startswith "---" text) eqn:Hstart; [|done]. cbn [negb] in Hnew.
  apply bind_Ok in Hnew as (end_index & Hindex & Hnew).
  apply bind_Ok in Hnew as (loaded & _ & Hnew).
  apply bind_Ok in Hnew as (after & Hafter & Hnew).
  apply bind_Ok in Hnew as (dumped & Hdumped & [= <-]).
  unfold write_file. destruct (fault w _); intros [= <-]; [|done..].
  eexists _, after, dumped, _. split; [exact Hafter|]. split; [done|].
  cbn [files set_files]. split; [apply lookup_insert_eq|].
  intros lines m -> Hlines Hload Hm.
  destruct (saved_note_cut lines (Clean.body_text text end_index) Hlines)
    as (end_index' & Hindex' & Hfront & _).
  unfold Clean.from_file, read_file. cbn [files set_files].
  rewrite lookup_insert_eq. cbn [bind].
  assert (Str.startswith "---"
            ("---" +:+ Clean.nl +:+ (lines +:+ Clean.nl) +:+ "---"
             +:+ Clean.body_text text end_index) = true) as -> by done.
  rewrite Hindex'. cbn [bind]. rewrite Hfront.
  rewrite <- string_app_assoc in Hload.
  rewrite string_app_assoc in Hload. rewrite Hload. cbn [bind].
  by rewrite Hm.
Qed.

Lemma saved_note_reads_back_witness :
  ∃ w' note,
    Clean.update_and_save Sample.repr_str Sample.yaml_dune
      Sample.yaml_dune_text (Clean.new_note "/vault/Books/Dune.md" "")
      {[ "publisher" := PStr "Ace" ]} Sample.note_disk = (true, w') ∧
    Clean.from_file Sample.repr_str Sample.yaml_dune "/vault/Books/Dune.md" w'
    = Ok note ∧
    Clean.title note = Some "Dune".
Proof.
  destruct (Clean.update_and_save Sample.repr_str Sample.yaml_dune
              Sample.yaml_dune_text (Clean.new_note "/vault/Books/Dune.md" "")
              {[ "publisher" := PStr "Ace" ]} Sample.note_disk)
    as [[] w'] eqn:Hrun.
  - destruct (saved_note_reads_back _ _ _ _ _ _ _ Hrun)
      as (before & after & dumped & text & _ & Hdumped & _ & Hread).
    injection Hdumped as <-.
    exists w'. eexists. split; [reflexivity|].
    split; [apply (Hread "title: Dune" {[ "title" := PStr "Dune" ]});
            reflexivity|].
    reflexivity.
  - exfalso. vm_compute in Hrun. discriminate Hrun.
Defined.

(** * Further properties of the searches *)

(** X20: [search_multiple_sources] returns the same results whichever of
    its two searches completes first, up to their order: at most two, one
    per catalogue that answered, each tagged with its catalogue. *)
Theorem search_multiple_sources_any_order google_books_api open_library_api
  (completed : list Create.source) (title author : string) :
  completed ≡ₚ [Create.Google; Create.OpenLibrary] →
  let results := Create.search_multiple_sources google_books_api
                   open_library_api completed title author in
  results ≡ₚ Create.search_multiple_sources google_books_api open_library_api
               [Create.Google; Create.OpenLibrary] title author ∧
  (length results ≤ 2)%nat ∧
  ∀ r, r ∈ results →
       r !! "source" = Some (PStr "google") ∨
       r !! "source" = Some (PStr "openlibrary").
Proof.
  intros Hperm.
  assert (completed = [Create.Google; Create.OpenLibrary] ∨
          completed = [Create.OpenLibrary; Create.Google]) as Hcases.
  { pose proof (Permutation_length Hperm) as Hlen.
    destruct completed as [|a [|b [|c l]]]; try done.
    assert (a ∈ [Create.Google; Create.OpenLibrary]) as Ha
      by (rewrite <- Hperm; apply list_elem_of_here).
    assert (b ∈ [Create.Google; Create.OpenLibrary]) as Hb
      by (rewrite <- Hperm; apply list_elem_of_further, list_elem_of_here).
    assert (NoDup [a; b]) as Hnodup.
    { rewrite Hperm. repeat constructor; set_solver. }
    apply NoDup_cons in Hnodup as [Hne _].
    destruct a, b; try (by left); try (by right);
      exfalso; apply Hne; apply list_elem_of_here. }
  unfold Create.search_multiple_sources.
  destruct Hcases as [-> | ->]; cbn [foldl Create.source_name];
    destruct (Create._search_google_books _ _) as [g|];
    destruct (Create._search_open_library _ _ _) as [o|];
    try destruct (dict_truthy g); try destruct (dict_truthy o);
    cbn [app length];
    (split; [try done; apply Permutation_swap|]);
    (split; [lia|]);
    intros r Hr;
    repeat (apply elem_of_cons in Hr as [->|Hr]);
    try (by apply elem_of_nil in Hr);
    unfold Create.tag_source; rewrite lookup_insert_eq; auto.
Qed.

Lemma search_multiple_sources_any_order_witness :
  Create.search_multiple_sources Sample.google_answers
    Sample.open_library_answers [Create.OpenLibrary; Create.Google] "Dune" ""
  ≡ₚ Create.search_multiple_sources Sample.google_answers
       Sample.open_library_answers [Create.Google; Create.OpenLibrary]
       "Dune" "".
Proof.
  apply (search_multiple_sources_any_order Sample.google_answers
           Sample.open_library_answers [Create.OpenLibrary; Create.Google]
           "Dune" "").
  apply Permutation_swap.
Defined.

Lemma fetch_authors_names open_library_author_api refs names :
  foldl (Clean.fetch_author open_library_author_api) names refs
  = names ++ omap (author_name open_library_author_api) refs.
Proof.
  revert names. induction refs as [|author_ref refs IH]; intros names.
  - by rewrite app_nil_r.
  - cbn [foldl omap list_omap]. rewrite IH.
    unfold Clean.fetch_author, author_name.
    destruct author_ref as [key|]; [|done].
    destruct (open_library_author_api key) as [[name|]|]; cbn [try_except bind];
      try done.
    by rewrite <- app_assoc.
Qed.

(** X21: the authors of an edition fetched by ISBN are the names its
    author references resolve to, in their order: a reference without a
    key, a failing request or a record without a name costs that author
    only. The candidate carries the ISBN that was asked for. *)
Theorem format_edition_authors open_library_author_api isbn
  (book : Clean.ol_edition) :
  let result := Clean.format_edition open_library_author_api isbn book in
  result !! "authors"
  = Some (str_list (omap (author_name open_library_author_api)
                      (default [] (Clean.e_authors book)))) ∧
  result !! "isbn" = Some (PStr isbn).
Proof.
  unfold Clean.format_edition. rewrite fetch_authors_names, app_nil_l.
  destruct (Clean.e_covers book) as [[|cover covers]|],
           (Clean.e_publishers book) as [[|p ps]|];
    split; by lookup_updates.
Qed.

(** * The cover file name in the two scripts *)

Lemma first_d4_bare_year d :
  Str.digits4 d = true → String.length d = 4%nat → Str.first_d4 d = Some d.
Proof.
  intros Hdigits Hlength.
  destruct d as [|a [|b [|c [|e [|x d]]]]]; try done.
  cbn [Str.first_d4]. by rewrite Hdigits.
Qed.

(** X22: for a candidate dated by a bare year of four digits, with an
    author list and a first author of whom something is left after
    cleaning, the cleaner computes for a note without a title the cover
    file name the creator uses, so the cover the creator saved is the one
    the cleaner looks for. *)
Theorem cover_file_name_agrees repr_str (note : Clean.BookNote)
  (book : dict) (a t y d : string) :
  Create.cover_names book = Ok (a, t, y) →
  a ≠ "" →
  is_Some (book !! "authors") →
  book !! "publishedDate" = Some (PStr d) →
  Str.digits4 d = true →
  String.length d = 4%nat →
  Clean.present (Clean.title note) = false →
  Clean.cover_filename repr_str note book
  = Ok (a +:+ " - " +:+ t +:+ y +:+ ".jpg").
Proof.
  intros Hnames Ha [authors Hauthors] Hdate Hdigits Hlength Htitle.
  unfold Create.cover_names in Hnames.
  apply bind_Ok in Hnames as (title0 & Htitle0 & Hnames).
  apply bind_Ok in Hnames as (title & Hsubject & Hnames).
  apply bind_Ok in Hnames as (first0 & Hfirst0 & Hnames).
  apply bind_Ok in Hnames as (first & Hfirst & Hnames).
  apply bind_Ok in Hnames as (year & Hyear & [= <- <- <-]).
  unfold getitem in Htitle0.
  destruct (book !! "title") as [title1|] eqn:Hlookup; [|done].
  injection Htitle0 as ->.
  unfold get in Hfirst0, Hyear. rewrite Hauthors in Hfirst0.
  rewrite Hdate in Hyear. cbn [default from_option id] in Hfirst0, Hyear.
  assert (truthy (PStr d) = true) as Htruthy by (by destruct d).
  rewrite Htruthy in Hyear. cbn [re_subject bind] in Hyear.
  rewrite (first_d4_bare_year d Hdigits Hlength) in Hyear.
  injection Hyear as <-.
  unfold Clean.cover_filename. rewrite Htitle.
  unfold get_none, get. rewrite Hlookup, Hauthors, Hdate. cbn [default from_option id].
  rewrite Hsubject. cbn [bind].
  assert (truthy authors = true) as ->.
  { destruct authors as [|s|n|l]; try done; [by destruct s|by destruct l]. }
  rewrite Hfirst0. cbn [bind]. rewrite Hfirst. cbn [bind].
  apply nonempty_true in Ha. rewrite Ha, Htruthy. cbn [andb py_str].
  do 4 f_equal.
Qed.

Lemma cover_file_name_agrees_witness :
  Clean.cover_filename Sample.repr_str (Clean.new_note "" "")
    Sample.dune_created
  = Ok "Frank Herbert - Dune - 1965.jpg".
Proof.
  apply (cover_file_name_agrees Sample.repr_str (Clean.new_note "" "")
           Sample.dune_created "Frank Herbert" "Dune" " - 1965" "1965").
  - vm_compute. reflexivity.
  - discriminate.
  - vm_compute. by eexists.
  - vm_compute. reflexivity.
  - reflexivity.
  - reflexivity.
  - reflexivity.
Defined.
